(** * Helios habitat monitor: safety layer, anomaly detector, decision engine

    A shallow embedding of [api/app/safety_layer.py],
    [api/app/anomaly_detector.py], [api/app/decision_engine.py],
    [api/app/models.py], the sensor updates of
    [api/app/sensor_simulator.py] and the listing endpoints of
    [api/app/routers].

    Numbers.  Python [float] is IEEE 754 binary64, and so is Rocq's
    primitive [float]: arithmetic, comparisons, [abs] and [sqrt] below are
    the machine operations, NaN and infinities included.  Python [int] is [Z].

    Clock and identifiers.  [datetime.utcnow()] and [uuid.uuid4()] are
    inputs of a call: an [Env] carries the clock value read by the call (in
    microseconds) and the stream of identifiers [uuid4] hands out, indexed
    by the number of identifiers already drawn in that call.

    Text.  Fields that hold formatted prose (message, description,
    reasoning, the rounded evidence numbers) are left out of the records;
    every field a decision depends on is kept. *)

From Stdlib Require Import ZArith QArith Floats Lia Bool.
From stdpp Require Import gmap strings list sorting.

Set Warnings "-inexact-float".

(* ===================================================================== *)
(** * Python runtime: exceptions, float and int helpers                    *)
(* ===================================================================== *)

Module Py.

Inductive exn : Set :=
| ZeroDivisionError
| ValueError
| OverflowError
| KeyError
| IndexError.

(** A call either returns or raises. *)
Inductive result (A : Type) : Type :=
| Ok (a : A)
| Raise (e : exn).
Arguments Ok {A} a.
Arguments Raise {A} e.

Definition bind {A B} (r : result A) (k : A -> result B) : result B :=
  match r with
  | Ok a => k a
  | Raise e => Raise e
  end.

Definition returns {A} (r : result A) : Prop := exists a, r = Ok a.

(** [float(n)] for an int that fits 63 bits (exact up to 2^53). *)
Definition float_of_int (n : Z) : float :=
  if (n <? 0)%Z
  then PrimFloat.opp (PrimFloat.of_uint63 (Uint63.of_Z (- n)))
  else PrimFloat.of_uint63 (Uint63.of_Z n).

(** [a / b] on floats: raises on a zero divisor (of either sign). *)
Definition truediv (a b : float) : result float :=
  if PrimFloat.eqb b 0%float then Raise ZeroDivisionError
  else Ok (PrimFloat.div a b).

(** [int(x)]: truncation toward zero; NaN and the infinities raise. *)
Definition int_of_float (x : float) : result Z :=
  match Prim2SF x with
  | S754_zero _ => Ok 0%Z
  | S754_finite s m e =>
      let a := if (0 <=? e)%Z then (Z.pos m * 2 ^ e)%Z
               else (Z.pos m / 2 ^ (- e))%Z in
      Ok (if s then (- a)%Z else a)
  | S754_infinity _ => Raise OverflowError
  | S754_nan => Raise ValueError
  end.

(** [min(a, b)] and [max(a, b)]: the first argument is kept unless the
    second is strictly smaller (greater). *)
Definition min (a b : float) : float := if PrimFloat.ltb b a then b else a.
Definition max (a b : float) : float := if PrimFloat.ltb a b then b else a.

(** [sum(xs)]: the additions left to right from the int 0.  (An
    interpreter that compensates the rounding of the running sum can differ
    in the last bits; the statements below depend on the order of the
    operations, not on those bits.) *)
Definition sum (xs : list float) : float :=
  fold_left PrimFloat.add xs 0%float.

(** [x ** 2]: the C library's [pow]; a finite base whose square leaves the
    double range raises OverflowError. *)
Definition pow2 (x : float) : result float :=
  let y := PrimFloat.mul x x in
  if PrimFloat.is_infinity y && PrimFloat.is_finite x
  then Raise OverflowError else Ok y.

(** [[f(x) for x in xs]] for an [f] that may raise. *)
Fixpoint traverse {A B} (f : A -> result B) (xs : list A) : result (list B) :=
  match xs with
  | [] => Ok []
  | x :: tl =>
      bind (f x) (fun y => bind (traverse f tl) (fun ys => Ok (y :: ys)))
  end.

(** [xs[-n:]] for [n > 0]. *)
Definition last_n {A} (n : nat) (xs : list A) : list A :=
  drop (length xs - n) xs.

(** The values this program stores in a [priority] attribute or uses as
    a multiplier: an int, a float or a string. *)
Inductive value : Type :=
| VInt (n : Z)
| VFloat (x : float)
| VStr (s : string).

(** [n * v] for an int [n] and a number [v]. *)
Definition int_mul (n : Z) (v : value) : result value :=
  match v with
  | VInt m => Ok (VInt (n * m))
  | VFloat x => Ok (VFloat (PrimFloat.mul (float_of_int n) x))
  | VStr _ => Raise ValueError
  end.

(** [int(v)] for a number [v]. *)
Definition int_ (v : value) : result Z :=
  match v with
  | VInt m => Ok m
  | VFloat x => int_of_float x
  | VStr _ => Raise ValueError
  end.

(** [xs.sort(key=key, reverse=True)]: a stable sort, highest key first;
    elements with equal keys keep their order. *)
Fixpoint insert_desc {A} (key : A -> Z) (x : A) (l : list A) : list A :=
  match l with
  | [] => [x]
  | y :: tl =>
      if (key x <? key y)%Z then y :: insert_desc key x tl
      else x :: y :: tl
  end.

Definition sort_desc {A} (key : A -> Z) (l : list A) : list A :=
  fold_right (insert_desc key) [] l.

(** [xs.sort(key=key, reverse=True)] for a key that is not an int: [lt x y]
    is [key(x) < key(y)].  Stable, highest key first. *)
Fixpoint insert_desc_by {A} (lt : A -> A -> bool) (x : A) (l : list A)
  : list A :=
  match l with
  | [] => [x]
  | y :: tl =>
      if lt x y then y :: insert_desc_by lt x tl
      else x :: y :: tl
  end.

Definition sort_desc_by {A} (lt : A -> A -> bool) (l : list A) : list A :=
  fold_right (insert_desc_by lt) [] l.

End Py.

Notation "x <- r ;; k" := (Py.bind r (fun x => k))
  (at level 100, r at next level, right associativity, only parsing).

(** One call's view of the outside world. *)
Record Env : Type := {
  utcnow : Z;             (* datetime.utcnow(), microseconds *)
  uuid4 : nat -> string   (* the k-th identifier drawn in this call *)
}.

(* ===================================================================== *)
(** * app/models.py                                                        *)
(* ===================================================================== *)

Module models.

Inductive AlertSeverity : Set := INFO | WARNING | CRITICAL.

Record Alert : Type := {
  id : string;
  timestamp : Z;
  severity : AlertSeverity;
  category : string;
  system : string;
  resolved : bool
}.

(** The pydantic [Recommendation]: [priority] is a string. *)
Record Recommendation : Type := {
  rec_id : string;
  rec_timestamp : Z;
  rec_priority : string;
  rec_category : string;
  rec_title : string;
  action_required : bool
}.

Record SettlementState : Type := {
  o2_pct : float;
  co2_ppm : float;
  pressure_kpa : float;
  temp_c : float;
  humidity_pct : float;
  solar_kw : float;
  battery_kwh : float;
  load_kw : float;
  crop_health_index : float;
  radiation_msv_hr : float;
  strain_index : float
}.

Definition default_state : SettlementState := {|
  o2_pct := 21.0; co2_ppm := 400.0; pressure_kpa := 101.325;
  temp_c := 20.0; humidity_pct := 50.0; solar_kw := 1000.0;
  battery_kwh := 500.0; load_kw := 800.0; crop_health_index := 85.0;
  radiation_msv_hr := 0.02; strain_index := 0.5 |}.

(** The telemetry values of one subsystem, and [section.get(key, default)]. *)
Definition get (section : gmap string float) (key : string) (default : float)
  : float :=
  match section !! key with
  | Some v => v
  | None => default
  end.

(** [update_settlement_state_from_telemetry(state, telemetry)]: each
    section that is present rewrites its fields of the state; a key that is
    missing in a present section takes the state's own value, converted to
    the telemetry's unit and back.  (The divisors are nonzero constants.) *)
Definition update_settlement_state_from_telemetry (state : SettlementState)
    (telemetry : gmap string (gmap string float)) : SettlementState :=
  let atmosphere := telemetry !! "atmosphere" in
  let power := telemetry !! "power" in
  let agriculture := telemetry !! "agriculture" in
  let radiation := telemetry !! "radiation" in
  let structural := telemetry !! "structural" in
  {| o2_pct :=
       match atmosphere with
       | Some atm => get atm "oxygen_level" (o2_pct state)
       | None => o2_pct state
       end;
     co2_ppm :=
       match atmosphere with
       | Some atm =>
           let co2_level :=
             get atm "co2_level" (PrimFloat.div (co2_ppm state) 10000.0) in
           if PrimFloat.ltb co2_level 1.0
           then PrimFloat.mul co2_level 10000.0 else co2_level
       | None => co2_ppm state
       end;
     pressure_kpa :=
       match atmosphere with
       | Some atm =>
           let pressure_psi :=
             get atm "pressure" (PrimFloat.div (pressure_kpa state) 6.89476) in
           PrimFloat.mul pressure_psi 6.89476
       | None => pressure_kpa state
       end;
     temp_c :=
       match atmosphere with
       | Some atm => get atm "temperature" (temp_c state)
       | None => temp_c state
       end;
     humidity_pct :=
       match atmosphere with
       | Some atm => get atm "humidity" (humidity_pct state)
       | None => humidity_pct state
       end;
     solar_kw :=
       match power with
       | Some pw => get pw "solar_generation" (solar_kw state)
       | None => solar_kw state
       end;
     battery_kwh :=
       match power with
       | Some pw =>
           let battery_pct :=
             get pw "battery_charge"
               (PrimFloat.mul (PrimFloat.div (battery_kwh state) 500.0) 100.0) in
           PrimFloat.mul (PrimFloat.div battery_pct 100.0) 500.0
       | None => battery_kwh state
       end;
     load_kw :=
       match power with
       | Some pw => get pw "power_consumption" (load_kw state)
       | None => load_kw state
       end;
     crop_health_index :=
       match agriculture with
       | Some ag => get ag "crop_health" (crop_health_index state)
       | None => crop_health_index state
       end;
     radiation_msv_hr :=
       match radiation with
       | Some rad =>
           let rad_day :=
             get rad "radiation_level"
               (PrimFloat.mul (radiation_msv_hr state) 24.0) in
           PrimFloat.div rad_day 24.0
       | None => radiation_msv_hr state
       end;
     strain_index :=
       match structural with
       | Some struct =>
           let integrity :=
             get struct "structural_integrity"
               (PrimFloat.sub 100.0 (PrimFloat.mul (strain_index state) 100.0)) in
           Py.max 0.0 (Py.min 1.0
                         (PrimFloat.div (PrimFloat.sub 100.0 integrity) 100.0))
       | None => strain_index state
       end |}.

(** The sensor-side state: the six pydantic models of [SystemState]. *)
Record AtmosphereState : Type := {
  oxygen_level : float;
  co2_level : float;
  pressure : float;
  temperature : float;
  humidity : float
}.

Record LifeSupportState : Type := {
  water_recovery_rate : float;
  waste_processing_efficiency : float;
  air_quality_index : float
}.

Record PowerState : Type := {
  solar_generation : float;
  battery_charge : float;
  power_consumption : float;
  energy_storage_level : float
}.

Record RadiationState : Type := {
  radiation_level : float;
  shielding_effectiveness : float
}.

Record AgricultureState : Type := {
  crop_health : float;
  nutrient_levels : float;
  harvest_readiness : float
}.

Record StructuralState : Type := {
  rotation_rate : float;
  structural_integrity : float;
  module_pressure : float
}.

Record SystemState : Type := {
  atmosphere : AtmosphereState;
  life_support : LifeSupportState;
  power : PowerState;
  radiation : RadiationState;
  agriculture : AgricultureState;
  structural : StructuralState
}.

Definition SystemState_init : SystemState := {|
  atmosphere := {| oxygen_level := 21.0; co2_level := 0.04; pressure := 14.7;
                   temperature := 20.0; humidity := 50.0 |};
  life_support := {| water_recovery_rate := 98.0;
                     waste_processing_efficiency := 95.0;
                     air_quality_index := 95.0 |};
  power := {| solar_generation := 1000.0; battery_charge := 80.0;
              power_consumption := 800.0; energy_storage_level := 80.0 |};
  radiation := {| radiation_level := 0.5; shielding_effectiveness := 95.0 |};
  agriculture := {| crop_health := 85.0; nutrient_levels := 80.0;
                    harvest_readiness := 60.0 |};
  structural := {| rotation_rate := 1.9; structural_integrity := 98.0;
                   module_pressure := 14.7 |} |}.

End models.

(* ===================================================================== *)
(** * app/safety_layer.py                                                  *)
(* ===================================================================== *)

Module safety_layer.
Import Py models.

Definition PRESSURE_LEAK_THRESHOLD : float := 2.0.
Definition RADIATION_SPIKE_THRESHOLD : float := 0.1.
Definition RADIATION_CRITICAL_THRESHOLD : float := 0.5.
Definition PRESSURE_CRITICAL_THRESHOLD : float := 90.0.

Definition ALERT_PRESSURE_LEAK : string := "PRESSURE_LEAK".
Definition ALERT_RADIATION_SPIKE : string := "RADIATION_SPIKE".
Definition ALERT_RADIATION_CRITICAL : string := "RADIATION_CRITICAL".
Definition ALERT_PRESSURE_CRITICAL : string := "PRESSURE_CRITICAL".

(** [timedelta(minutes=m)] in microseconds, and [td.total_seconds()] of a
    difference of [us] microseconds (exact below 2^53 microseconds). *)
Definition timedelta_minutes (m : Z) : Z := (m * 60000000)%Z.
Definition total_seconds (us : Z) : float :=
  PrimFloat.div (float_of_int us) 1000000%float.

Module PressureHistory.

Record t : Type := {
  readings : list (Z * float);
  max_history_minutes : Z
}.

Definition init : t := {| readings := []; max_history_minutes := 5 |}.

Definition add_reading (now : Z) (pressure_kpa : float) (self : t) : t :=
  let appended := readings self ++ [(now, pressure_kpa)] in
  let cutoff_time := (now - timedelta_minutes (max_history_minutes self))%Z in
  {| readings := List.filter (fun r => (cutoff_time <=? fst r)%Z) appended;
     max_history_minutes := max_history_minutes self |}.

Definition get_rate_of_change (self : t) : result (option float) :=
  if (Z.of_nat (length (readings self)) <? 2)%Z then Ok None
  else
    match head (readings self), last (readings self) with
    | Some (oldest_ts, oldest_pressure), Some (newest_ts, newest_pressure) =>
        time_diff <- truediv (total_seconds (newest_ts - oldest_ts)) 60.0 ;;
        if PrimFloat.eqb time_diff 0 then Ok None
        else if PrimFloat.eqb oldest_pressure 0 then Ok None
        else
          quotient <- truediv (newest_pressure - oldest_pressure) oldest_pressure ;;
          let pressure_change_pct := PrimFloat.mul quotient 100.0 in
          rate_per_minute <- truediv pressure_change_pct time_diff ;;
          Ok (Some rate_per_minute)
    | _, _ => Raise IndexError
    end.

End PressureHistory.

Module RadiationHistory.

Record t : Type := {
  baseline : option float;
  readings : list (Z * float);
  max_readings : nat
}.

Definition init : t :=
  {| baseline := None; readings := []; max_readings := 10 |}.

Definition add_reading (now : Z) (radiation_msv_hr : float) (self : t) : t :=
  let appended := readings self ++ [(now, radiation_msv_hr)] in
  let kept :=
    if (max_readings self <? length appended)%nat
    then last_n (max_readings self) appended else appended in
  let baseline' :=
    if (5 <=? length kept)%nat
    then
      let recent := List.map snd (last_n 5 kept) in
      Some (PrimFloat.div (Py.sum recent)
              (float_of_int (Z.of_nat (length recent))))
    else baseline self in
  {| baseline := baseline'; readings := kept;
     max_readings := max_readings self |}.

Definition is_spike (self : t) (current : float) : bool :=
  match baseline self with
  | None => false
  | Some b => PrimFloat.ltb (PrimFloat.add b RADIATION_SPIKE_THRESHOLD) current
  end.

Definition is_critical (self : t) (current : float) : bool :=
  PrimFloat.leb RADIATION_CRITICAL_THRESHOLD current.

End RadiationHistory.

(** An entry of [pending_approvals]. *)
Record Approval : Type := {
  action_id : string;
  ap_category : string;
  ap_title : string;
  ap_timestamp : Z;
  approved : bool;
  approved_by : option string;
  approved_at : option Z
}.

Record SafetyLayer : Type := {
  pressure_history : PressureHistory.t;
  radiation_history : RadiationHistory.t;
  active_alerts : gmap string Alert;
  pending_approvals : gmap string Approval
}.

Definition init : SafetyLayer := {|
  pressure_history := PressureHistory.init;
  radiation_history := RadiationHistory.init;
  active_alerts := ∅;
  pending_approvals := ∅ |}.

Definition set_active_alerts (a : gmap string Alert) (self : SafetyLayer) :=
  {| pressure_history := pressure_history self;
     radiation_history := radiation_history self;
     active_alerts := a;
     pending_approvals := pending_approvals self |}.

Definition set_pending_approvals (p : gmap string Approval) (self : SafetyLayer) :=
  {| pressure_history := pressure_history self;
     radiation_history := radiation_history self;
     active_alerts := active_alerts self;
     pending_approvals := p |}.

(** [alert_id in self.active_alerts] *)
Definition is_active (alert_id : string) (self : SafetyLayer) : bool :=
  bool_decide (is_Some (active_alerts self !! alert_id)).

(** The running outcome of one [check_safety] call: the lists returned so
    far, how many identifiers were drawn, and the layer as mutated. *)
Record Outcome : Type := {
  alerts : list Alert;
  recommendations : list Recommendation;
  drawn : nat;
  layer : SafetyLayer
}.

Definition _create_critical_recommendation (env : Env) (k : nat)
    (action : string) (cat : string) (title : string)
    (requires_approval : bool) (self : SafetyLayer)
  : Recommendation * SafetyLayer :=
  let rid := uuid4 env k in
  let self' :=
    if requires_approval
    then set_pending_approvals
           (<[rid := {| action_id := action; ap_category := cat;
                        ap_title := title; ap_timestamp := utcnow env;
                        approved := false; approved_by := None;
                        approved_at := None |}]> (pending_approvals self))
           self
    else self in
  ({| rec_id := rid; rec_timestamp := utcnow env; rec_priority := "high";
      rec_category := cat; rec_title := title; action_required := true |},
   self').

(** The block shared by the four detectors: a new [Alert] stored under
    [alert_id], and its recommendation with a pending approval. *)
Definition raise_alert (env : Env) (k : nat) (alert_id : string)
    (sev : AlertSeverity) (cat sys action title : string)
    (self : SafetyLayer) : Outcome :=
  let alert := {| id := uuid4 env k; timestamp := utcnow env;
                  severity := sev; category := cat; system := sys;
                  resolved := false |} in
  let self1 := set_active_alerts (<[alert_id := alert]> (active_alerts self)) self in
  let '(rec, self2) :=
    _create_critical_recommendation env (S k) action cat title true self1 in
  {| alerts := [alert]; recommendations := [rec]; drawn := S (S k);
     layer := self2 |}.

Definition nothing (k : nat) (self : SafetyLayer) : Outcome :=
  {| alerts := []; recommendations := []; drawn := k; layer := self |}.

Definition _check_pressure (env : Env) (k : nat) (state : SettlementState)
    (self : SafetyLayer) : result Outcome :=
  rate <- PressureHistory.get_rate_of_change (pressure_history self) ;;
  let leaking :=
    match rate with
    | Some r => PrimFloat.ltb r (PrimFloat.opp PRESSURE_LEAK_THRESHOLD)
    | None => false
    end in
  if leaking then
    if negb (is_active ALERT_PRESSURE_LEAK self)
    then Ok (raise_alert env k ALERT_PRESSURE_LEAK CRITICAL "pressure"
               "atmosphere" "ISOLATE_COMPARTMENTS" "Isolate Compartments" self)
    else Ok (nothing k self)
  else if is_active ALERT_PRESSURE_LEAK self
          && match rate with
             | None => true
             | Some r => PrimFloat.leb (PrimFloat.opp PRESSURE_LEAK_THRESHOLD) r
             end
  then Ok (nothing k (set_active_alerts
                        (delete ALERT_PRESSURE_LEAK (active_alerts self)) self))
  else Ok (nothing k self).

Definition _check_radiation (env : Env) (k : nat) (state : SettlementState)
    (self : SafetyLayer) : Outcome :=
  let hist := radiation_history self in
  if RadiationHistory.is_critical hist (radiation_msv_hr state) then
    if negb (is_active ALERT_RADIATION_CRITICAL self)
    then raise_alert env k ALERT_RADIATION_CRITICAL CRITICAL "radiation"
           "radiation" "ACTIVATE_STORM_SHELTER"
           "Activate Storm Shelter Protocol" self
    else nothing k self
  else if RadiationHistory.is_spike hist (radiation_msv_hr state) then
    if negb (is_active ALERT_RADIATION_SPIKE self)
    then raise_alert env k ALERT_RADIATION_SPIKE WARNING "radiation"
           "radiation" "PREPARE_STORM_SHELTER" "Prepare Storm Shelter" self
    else nothing k self
  else if is_active ALERT_RADIATION_SPIKE self
          && negb (RadiationHistory.is_spike hist (radiation_msv_hr state))
  then nothing k (set_active_alerts
                    (delete ALERT_RADIATION_SPIKE (active_alerts self)) self)
  else nothing k self.

(** The critical-pressure block written inline in [check_safety]. *)
Definition check_pressure_critical (env : Env) (k : nat)
    (state : SettlementState) (self : SafetyLayer) : Outcome :=
  if PrimFloat.ltb (pressure_kpa state) PRESSURE_CRITICAL_THRESHOLD then
    if negb (is_active ALERT_PRESSURE_CRITICAL self)
    then raise_alert env k ALERT_PRESSURE_CRITICAL CRITICAL "pressure"
           "atmosphere" "IMMEDIATE_EVACUATION"
           "Immediate Evacuation Required" self
    else nothing k self
  else nothing k self.

(** [check_safety(state, telemetry)]; [telemetry] is not read. *)
Definition check_safety (env : Env) (state : SettlementState)
    (self : SafetyLayer) : result Outcome :=
  let self1 :=
    {| pressure_history :=
         PressureHistory.add_reading (utcnow env) (pressure_kpa state)
           (pressure_history self);
       radiation_history :=
         RadiationHistory.add_reading (utcnow env) (radiation_msv_hr state)
           (radiation_history self);
       active_alerts := active_alerts self;
       pending_approvals := pending_approvals self |} in
  p <- _check_pressure env 0 state self1 ;;
  let c := check_pressure_critical env (drawn p) state (layer p) in
  let r := _check_radiation env (drawn c) state (layer c) in
  Ok {| alerts := alerts p ++ alerts c ++ alerts r;
        recommendations := recommendations p ++ recommendations c
                           ++ recommendations r;
        drawn := drawn r;
        layer := layer r |}.

Definition approve_action (env : Env) (recommendation_id approver : string)
    (self : SafetyLayer) : bool * SafetyLayer :=
  match pending_approvals self !! recommendation_id with
  | None => (false, self)
  | Some approval =>
      if approved approval then (false, self)
      else
        (true,
         set_pending_approvals
           (<[recommendation_id :=
                {| action_id := action_id approval;
                   ap_category := ap_category approval;
                   ap_title := ap_title approval;
                   ap_timestamp := ap_timestamp approval;
                   approved := true;
                   approved_by := Some approver;
                   approved_at := Some (utcnow env) |}]>
              (pending_approvals self))
           self)
  end.

Definition get_approval_status (recommendation_id : string)
    (self : SafetyLayer) : option Approval :=
  pending_approvals self !! recommendation_id.

(** The hazard named [alert_id] is Active when its alert is in the
    active set. *)
Definition Active (alert_id : string) (self : SafetyLayer) : Prop :=
  is_Some (active_alerts self !! alert_id).

(** Feeding a run of readings, each with the clock value of its call. *)
Fixpoint run (uu : nat -> string) (inputs : list (Z * SettlementState))
    (self : SafetyLayer) : result SafetyLayer :=
  match inputs with
  | [] => Ok self
  | (now, st) :: tl =>
      o <- check_safety {| utcnow := now; uuid4 := uu |} st self ;;
      run uu tl (layer o)
  end.

(** [get_pending_approvals()]: the entries that are not approved, keyed by
    recommendation id.  (The source returns them as a list in the order of
    the dict; that order is not kept here.) *)
Definition get_pending_approvals (self : SafetyLayer) : gmap string Approval :=
  filter (fun entry => approved (snd entry) = false) (pending_approvals self).

End safety_layer.

(* ===================================================================== *)
(** * app/anomaly_detector.py                                              *)
(* ===================================================================== *)

Module anomaly_detector.
Import Py models.

Definition Z_SCORE_THRESHOLD : float := 2.5.
Definition Z_SCORE_CRITICAL : float := 3.5.
Definition EWMA_ALPHA : float := 0.3.

Record MetricStatistics : Type := {
  mean : float;
  std_dev : float;
  ewma : float;
  min_value : float;
  max_value : float;
  sample_count : Z;
  last_value : float
}.

Definition MetricStatistics_init : MetricStatistics := {|
  mean := 0.0; std_dev := 0.0; ewma := 0.0;
  min_value := PrimFloat.infinity; max_value := PrimFloat.neg_infinity;
  sample_count := 0; last_value := 0.0 |}.

(** Of [evidence], the two tags are kept; its numbers are rounded copies
    of the statistics. *)
Record AnomalyAlert : Type := {
  id : string;
  timestamp : Z;
  metric : string;
  severity : AlertSeverity;
  current_value : float;
  z_score : float;
  confidence : float;
  anomaly_type : string;
  statistical_significance : string
}.

Record AnomalyDetector : Type := {
  pressure_stats : MetricStatistics;
  radiation_stats : MetricStatistics;
  battery_stats : MetricStatistics;
  history : gmap string (list float);
  max_history_size : nat
}.

Definition empty_history : gmap string (list float) :=
  <["pressure" := []]> (<["radiation" := []]> (<["battery" := []]> ∅)).

Definition init : AnomalyDetector := {|
  pressure_stats := MetricStatistics_init;
  radiation_stats := MetricStatistics_init;
  battery_stats := MetricStatistics_init;
  history := empty_history;
  max_history_size := 100 |}.

Definition _get_stats (metric_name : string) (self : AnomalyDetector)
  : result MetricStatistics :=
  if String.eqb metric_name "pressure" then Ok (pressure_stats self)
  else if String.eqb metric_name "radiation" then Ok (radiation_stats self)
  else if String.eqb metric_name "battery" then Ok (battery_stats self)
  else Raise ValueError.

(** Writing through the reference [_get_stats] returned. *)
Definition set_stats (metric_name : string) (st : MetricStatistics)
    (h : gmap string (list float)) (self : AnomalyDetector) : AnomalyDetector :=
  {| pressure_stats :=
       if String.eqb metric_name "pressure" then st else pressure_stats self;
     radiation_stats :=
       if String.eqb metric_name "radiation" then st else radiation_stats self;
     battery_stats :=
       if String.eqb metric_name "battery" then st else battery_stats self;
     history := h;
     max_history_size := max_history_size self |}.

(** The history of a metric after [append] and the eviction of the oldest
    sample beyond [max_history_size]. *)
Definition push (limit : nat) (value : float) (h : list float) : list float :=
  let appended := h ++ [value] in
  if (limit <? length appended)%nat then tail appended else appended.

Definition update_metric (metric_name : string) (value : float)
    (self : AnomalyDetector) : result AnomalyDetector :=
  stats <- _get_stats metric_name self ;;
  let history1 :=
    match history self !! metric_name with
    | Some h => <[metric_name := push (max_history_size self) value h]> (history self)
    | None => history self
    end in
  let count1 := (sample_count stats + 1)%Z in
  let ewma1 :=
    if (count1 =? 1)%Z then value
    else PrimFloat.add (PrimFloat.mul EWMA_ALPHA value)
           (PrimFloat.mul (PrimFloat.sub 1 EWMA_ALPHA) (ewma stats)) in
  values <- match history1 !! metric_name with
            | Some v => Ok v
            | None => Raise KeyError
            end ;;
  if (2 <=? length values)%nat then
    let n := float_of_int (Z.of_nat (length values)) in
    let mean1 := PrimFloat.div (Py.sum values) n in
    squares <- traverse (fun x => pow2 (PrimFloat.sub x mean1)) values ;;
    let variance := PrimFloat.div (Py.sum squares) n in
    let std1 := if PrimFloat.ltb 0 variance then PrimFloat.sqrt variance else 0.0%float in
    Ok (set_stats metric_name
          {| mean := mean1; std_dev := std1; ewma := ewma1;
             min_value := Py.min (min_value stats) value;
             max_value := Py.max (max_value stats) value;
             sample_count := count1; last_value := value |}
          history1 self)
  else
    Ok (set_stats metric_name
          {| mean := mean stats; std_dev := std_dev stats; ewma := ewma1;
             min_value := Py.min (min_value stats) value;
             max_value := Py.max (max_value stats) value;
             sample_count := count1; last_value := value |}
          history1 self).

(** [(value - stats.mean) / stats.std_dev if stats.std_dev > 0 else 0.0];
    the divisor is positive where the division runs. *)
Definition z_of (value : float) (stats : MetricStatistics) : float :=
  if PrimFloat.ltb 0 (std_dev stats)
  then PrimFloat.div (PrimFloat.sub value (mean stats)) (std_dev stats)
  else 0.0.

Definition critical_confidence (abs_z_score : float) : float :=
  Py.min 0.99 (PrimFloat.add 0.7
                 (PrimFloat.mul (PrimFloat.sub abs_z_score Z_SCORE_CRITICAL) 0.1)).

Definition warning_confidence (abs_z_score : float) : float :=
  Py.min 0.95 (PrimFloat.add 0.5
                 (PrimFloat.mul (PrimFloat.sub abs_z_score Z_SCORE_THRESHOLD) 0.15)).

Definition significance (abs_z_score : float) : string :=
  if PrimFloat.leb Z_SCORE_CRITICAL abs_z_score then "critical" else "significant".

Definition _detect_pressure_anomaly (env : Env) (k : nat) (value : float)
    (self : AnomalyDetector) : option AnomalyAlert :=
  let stats := pressure_stats self in
  if (sample_count stats <? 10)%Z then None
  else if PrimFloat.eqb (std_dev stats) 0 then None
  else
    let z := z_of value stats in
    let abs_z_score := PrimFloat.abs z in
    let verdict :=
      if PrimFloat.leb Z_SCORE_CRITICAL abs_z_score
      then Some (critical_confidence abs_z_score, CRITICAL)
      else if PrimFloat.leb Z_SCORE_THRESHOLD abs_z_score
      then Some (warning_confidence abs_z_score, WARNING)
      else None in
    match verdict with
    | None => None
    | Some (conf, sev) =>
        let is_high := PrimFloat.ltb 0 z in
        Some {| id := uuid4 env k; timestamp := utcnow env;
                metric := "pressure"; severity := sev;
                current_value := value; z_score := z; confidence := conf;
                anomaly_type := if is_high then "high" else "low";
                statistical_significance := significance abs_z_score |}
    end.

Definition _detect_radiation_anomaly (env : Env) (k : nat) (value : float)
    (self : AnomalyDetector) : option AnomalyAlert :=
  let stats := radiation_stats self in
  if (sample_count stats <? 10)%Z then None
  else if PrimFloat.eqb (std_dev stats) 0 then None
  else
    let z := z_of value stats in
    let abs_z_score := PrimFloat.abs z in
    let verdict :=
      if PrimFloat.leb Z_SCORE_CRITICAL abs_z_score && PrimFloat.ltb 0 z
      then Some (critical_confidence abs_z_score, CRITICAL)
      else if PrimFloat.leb Z_SCORE_THRESHOLD abs_z_score && PrimFloat.ltb 0 z
      then Some (warning_confidence abs_z_score, WARNING)
      else None in
    match verdict with
    | None => None
    | Some (conf, sev) =>
        Some {| id := uuid4 env k; timestamp := utcnow env;
                metric := "radiation"; severity := sev;
                current_value := value; z_score := z; confidence := conf;
                anomaly_type := "spike";
                statistical_significance := significance abs_z_score |}
    end.

Definition _detect_battery_anomaly (env : Env) (k : nat) (value : float)
    (self : AnomalyDetector) : option AnomalyAlert :=
  let stats := battery_stats self in
  if (sample_count stats <? 10)%Z then None
  else if PrimFloat.eqb (std_dev stats) 0 then None
  else
    let z := z_of value stats in
    let abs_z_score := PrimFloat.abs z in
    let verdict :=
      if PrimFloat.leb Z_SCORE_CRITICAL abs_z_score
      then Some (critical_confidence abs_z_score, CRITICAL)
      else if PrimFloat.leb Z_SCORE_THRESHOLD abs_z_score
      then Some (warning_confidence abs_z_score, WARNING)
      else None in
    match verdict with
    | None => None
    | Some (conf, sev) =>
        let is_high := PrimFloat.ltb 0 z in
        Some {| id := uuid4 env k; timestamp := utcnow env;
                metric := "battery"; severity := sev;
                current_value := value; z_score := z; confidence := conf;
                anomaly_type := if is_high then "high" else "low";
                statistical_significance := significance abs_z_score |}
    end.

(** [alerts.append(a)] under [if a:]. *)
Definition append_alert (acc : list AnomalyAlert) (a : option AnomalyAlert)
  : list AnomalyAlert :=
  match a with
  | Some x => acc ++ [x]
  | None => acc
  end.

Definition detect_anomalies (env : Env) (pressure radiation battery : float)
    (self : AnomalyDetector) : result (list AnomalyAlert * AnomalyDetector) :=
  self1 <- update_metric "pressure" pressure self ;;
  self2 <- update_metric "radiation" radiation self1 ;;
  self3 <- update_metric "battery" battery self2 ;;
  let a1 := append_alert [] (_detect_pressure_anomaly env 0 pressure self3) in
  let a2 := append_alert a1
              (_detect_radiation_anomaly env (length a1) radiation self3) in
  let a3 := append_alert a2
              (_detect_battery_anomaly env (length a2) battery self3) in
  Ok (a3, self3).

(** Feeding a run of samples of one metric. *)
Fixpoint feed (metric_name : string) (samples : list float)
    (self : AnomalyDetector) : result AnomalyDetector :=
  match samples with
  | [] => Ok self
  | x :: tl =>
      self1 <- update_metric metric_name x self ;;
      feed metric_name tl self1
  end.

Definition reset_statistics (metric_name : option string)
    (self : AnomalyDetector) : result AnomalyDetector :=
  match metric_name with
  | None =>
      Ok {| pressure_stats := MetricStatistics_init;
            radiation_stats := MetricStatistics_init;
            battery_stats := MetricStatistics_init;
            history := empty_history;
            max_history_size := max_history_size self |}
  | Some name =>
      stats <- _get_stats name self ;;
      Ok (set_stats name MetricStatistics_init
            (match history self !! name with
             | Some _ => <[name := []]> (history self)
             | None => history self
             end)
            self)
  end.

(** Detection cycles one after the other, as the periodic task runs them
    while no cycle raises. *)
Fixpoint cycles (env : Env) (inputs : list (float * float * float))
    (self : AnomalyDetector)
  : result (list (list AnomalyAlert) * AnomalyDetector) :=
  match inputs with
  | [] => Ok ([], self)
  | (pressure, radiation, battery) :: tl =>
      r <- detect_anomalies env pressure radiation battery self ;;
      rest <- cycles env tl (snd r) ;;
      Ok (fst r :: fst rest, snd rest)
  end.

End anomaly_detector.

(* ===================================================================== *)
(** * app/decision_engine.py                                               *)
(* ===================================================================== *)

Module decision_engine.
Import Py models.

(** LIFE_SUPPORT_THRESHOLDS *)
Definition o2_min : float := 20.0.
Definition o2_optimal_min : float := 20.5.
Definition o2_optimal_max : float := 21.5.
Definition co2_max : float := 500.0.
Definition co2_warning : float := 450.0.
Definition pressure_min : float := 95.0.
Definition pressure_optimal_min : float := 98.0.
Definition pressure_optimal_max : float := 103.0.
Definition temp_min : float := 18.0.
Definition temp_max : float := 22.0.
Definition humidity_min : float := 40.0.
Definition humidity_max : float := 60.0.
Definition crop_health_min : float := 75.0.
Definition crop_health_optimal : float := 85.0.

(** ENERGY_THRESHOLDS *)
Definition battery_min : float := 30.0.
Definition battery_warning : float := 50.0.
Definition battery_optimal_min : float := 60.0.
Definition battery_optimal_max : float := 90.0.
Definition solar_min : float := 500.0.
Definition load_max : float := 900.0.
Definition load_optimal_max : float := 850.0.
Definition energy_reserve_min : float := 0.2.

(** The dataclass [Recommendation] of the decision engine: [priority] is
    an int. *)
Record Recommendation : Type := {
  id : string;
  priority : Z;
  category : string;
  action : string;
  title : string;
  current_value : float;
  threshold_value : float;
  impact : string;
  confidence : float
}.

(** [impact_multiplier.get(impact_level, 1.0)] *)
Definition impact_multiplier (impact_level : string) : value :=
  if String.eqb impact_level "critical" then VInt 2
  else if String.eqb impact_level "high" then VFloat 1.5
  else if String.eqb impact_level "medium" then VFloat 1.0
  else if String.eqb impact_level "low" then VFloat 0.5
  else VFloat 1.0.

Definition calculate_priority (deviation_from_threshold : float)
    (impact_level : string) (is_critical : bool) : result Z :=
  let base_priority := 5%Z in
  let base_priority :=
    if PrimFloat.ltb 20 (PrimFloat.abs deviation_from_threshold)
    then (base_priority + 3)%Z
    else if PrimFloat.ltb 10 (PrimFloat.abs deviation_from_threshold)
    then (base_priority + 2)%Z
    else if PrimFloat.ltb 5 (PrimFloat.abs deviation_from_threshold)
    then (base_priority + 1)%Z
    else base_priority in
  product <- int_mul base_priority (impact_multiplier impact_level) ;;
  base_priority <- int_ product ;;
  let base_priority :=
    if is_critical then (base_priority + 2)%Z else base_priority in
  Ok (Z.min 10 (Z.max 1 base_priority)).

(** One [return Recommendation(...)] of an analyzer. *)
Definition recommend (env : Env) (k : nat) (deviation : float)
    (impact_level : string) (is_critical : bool)
    (cat act ttl : string) (current threshold conf : float)
  : result (option Recommendation) :=
  p <- calculate_priority deviation impact_level is_critical ;;
  Ok (Some {| id := uuid4 env k; priority := p; category := cat;
              action := act; title := ttl; current_value := current;
              threshold_value := threshold; impact := impact_level;
              confidence := conf |}).

Definition _analyze_oxygen (env : Env) (k : nat) (state : SettlementState)
  : result (option Recommendation) :=
  let o2 := o2_pct state in
  if PrimFloat.ltb o2 o2_min then
    recommend env k (PrimFloat.sub o2_min o2) "critical" true
      "life_support" "INCREASE_O2_GENERATION"
      "Critical: Increase Oxygen Generation" o2 o2_min 0.95
  else if PrimFloat.ltb o2 o2_optimal_min then
    recommend env k (PrimFloat.sub o2_optimal_min o2) "high" false
      "life_support" "INCREASE_O2_GENERATION"
      "Increase Oxygen Generation" o2 o2_optimal_min 0.85
  else if PrimFloat.ltb o2_optimal_max o2 then
    recommend env k (PrimFloat.sub o2 o2_optimal_max) "medium" false
      "life_support" "REDUCE_O2_GENERATION"
      "Reduce Oxygen Generation" o2 o2_optimal_max 0.80
  else Ok None.

Definition _analyze_co2 (env : Env) (k : nat) (state : SettlementState)
  : result (option Recommendation) :=
  let co2 := co2_ppm state in
  if PrimFloat.ltb co2_max co2 then
    recommend env k (PrimFloat.sub co2 co2_max) "critical" true
      "life_support" "INCREASE_CO2_SCRUBBING"
      "Critical: Increase CO2 Scrubbing" co2 co2_max 0.95
  else if PrimFloat.ltb co2_warning co2 then
    recommend env k (PrimFloat.sub co2 co2_warning) "high" false
      "life_support" "INCREASE_CO2_SCRUBBING"
      "Increase CO2 Scrubbing" co2 co2_warning 0.85
  else Ok None.

Definition _analyze_pressure (env : Env) (k : nat) (state : SettlementState)
  : result (option Recommendation) :=
  let pressure := pressure_kpa state in
  if PrimFloat.ltb pressure pressure_min then
    recommend env k (PrimFloat.sub pressure_min pressure) "critical" true
      "life_support" "INCREASE_PRESSURE"
      "Critical: Increase Atmospheric Pressure" pressure pressure_min 0.95
  else if PrimFloat.ltb pressure pressure_optimal_min then
    recommend env k (PrimFloat.sub pressure_optimal_min pressure) "high" false
      "life_support" "INCREASE_PRESSURE"
      "Increase Atmospheric Pressure" pressure pressure_optimal_min 0.85
  else if PrimFloat.ltb pressure_optimal_max pressure then
    recommend env k (PrimFloat.sub pressure pressure_optimal_max) "medium" false
      "life_support" "REDUCE_PRESSURE"
      "Reduce Atmospheric Pressure" pressure pressure_optimal_max 0.80
  else Ok None.

Definition _analyze_temperature (env : Env) (k : nat) (state : SettlementState)
  : result (option Recommendation) :=
  let temp := temp_c state in
  if PrimFloat.ltb temp temp_min then
    recommend env k (PrimFloat.sub temp_min temp) "high" false
      "life_support" "INCREASE_TEMPERATURE"
      "Increase Temperature" temp temp_min 0.85
  else if PrimFloat.ltb temp_max temp then
    recommend env k (PrimFloat.sub temp temp_max) "high" false
      "life_support" "DECREASE_TEMPERATURE"
      "Decrease Temperature" temp temp_max 0.85
  else Ok None.

Definition _analyze_humidity (env : Env) (k : nat) (state : SettlementState)
  : result (option Recommendation) :=
  let humidity := humidity_pct state in
  if PrimFloat.ltb humidity humidity_min then
    recommend env k (PrimFloat.sub humidity_min humidity) "medium" false
      "life_support" "INCREASE_HUMIDITY"
      "Increase Humidity" humidity humidity_min 0.80
  else if PrimFloat.ltb humidity_max humidity then
    recommend env k (PrimFloat.sub humidity humidity_max) "medium" false
      "life_support" "DECREASE_HUMIDITY"
      "Decrease Humidity" humidity humidity_max 0.80
  else Ok None.

Definition _analyze_crop_health (env : Env) (k : nat) (state : SettlementState)
  : result (option Recommendation) :=
  let crop_health := crop_health_index state in
  if PrimFloat.ltb crop_health crop_health_min then
    recommend env k (PrimFloat.sub crop_health_min crop_health) "high" false
      "life_support" "IMPROVE_CROP_HEALTH"
      "Improve Crop Health" crop_health crop_health_min 0.75
  else if PrimFloat.ltb crop_health crop_health_optimal then
    recommend env k (PrimFloat.sub crop_health_optimal crop_health) "medium" false
      "life_support" "OPTIMIZE_CROP_HEALTH"
      "Optimize Crop Health" crop_health crop_health_optimal 0.70
  else Ok None.

Definition _analyze_battery (env : Env) (k : nat) (state : SettlementState)
  : result (option Recommendation) :=
  let battery := battery_kwh state in
  if PrimFloat.ltb battery battery_min then
    recommend env k (PrimFloat.sub battery_min battery) "critical" true
      "energy_dispatch" "PRIORITIZE_CHARGING"
      "Critical: Prioritize Battery Charging" battery battery_min 0.90
  else if PrimFloat.ltb battery battery_warning then
    recommend env k (PrimFloat.sub battery_warning battery) "high" false
      "energy_dispatch" "INCREASE_CHARGING"
      "Increase Battery Charging" battery battery_warning 0.85
  else if PrimFloat.ltb battery battery_optimal_min then
    recommend env k (PrimFloat.sub battery_optimal_min battery) "medium" false
      "energy_dispatch" "OPTIMIZE_CHARGING"
      "Optimize Battery Charging" battery battery_optimal_min 0.80
  else if PrimFloat.ltb battery_optimal_max battery then
    recommend env k (PrimFloat.sub battery battery_optimal_max) "low" false
      "energy_dispatch" "INCREASE_LOAD"
      "Increase Power Load" battery battery_optimal_max 0.75
  else Ok None.

Definition _analyze_solar (env : Env) (k : nat) (state : SettlementState)
  : result (option Recommendation) :=
  let solar := solar_kw state in
  if PrimFloat.ltb solar solar_min then
    recommend env k (PrimFloat.sub solar_min solar) "high" false
      "energy_dispatch" "REDUCE_NON_ESSENTIAL_LOAD"
      "Reduce Non-Essential Load" solar solar_min 0.85
  else Ok None.

Definition _analyze_load (env : Env) (k : nat) (state : SettlementState)
  : result (option Recommendation) :=
  let load := load_kw state in
  if PrimFloat.ltb load_max load then
    recommend env k (PrimFloat.sub load load_max) "critical" true
      "energy_dispatch" "REDUCE_LOAD"
      "Critical: Reduce Power Load" load load_max 0.95
  else if PrimFloat.ltb load_optimal_max load then
    recommend env k (PrimFloat.sub load load_optimal_max) "high" false
      "energy_dispatch" "OPTIMIZE_LOAD"
      "Optimize Power Load" load load_optimal_max 0.85
  else Ok None.

Definition _analyze_energy_balance (env : Env) (k : nat)
    (state : SettlementState) : result (option Recommendation) :=
  let solar := solar_kw state in
  let load := load_kw state in
  let battery := battery_kwh state in
  let battery_capacity : float := 500.0%float in
  battery_ratio <- truediv battery battery_capacity ;;
  let battery_pct := PrimFloat.mul battery_ratio 100.0 in
  let net_power := PrimFloat.sub solar load in
  reserve_ratio <- truediv battery_pct 100.0 ;;
  if PrimFloat.ltb net_power 0 && PrimFloat.ltb reserve_ratio energy_reserve_min
  then
    recommend env k (PrimFloat.abs net_power) "critical" true
      "energy_dispatch" "EMERGENCY_LOAD_SHEDDING"
      "Critical: Emergency Load Shedding Required"
      reserve_ratio energy_reserve_min 0.95
  else if PrimFloat.ltb net_power 0 then
    recommend env k (PrimFloat.abs net_power) "high" false
      "energy_dispatch" "REDUCE_LOAD_OR_INCREASE_GENERATION"
      "Reduce Load or Increase Generation" net_power 0.0 0.85
  else if PrimFloat.ltb 0 net_power && PrimFloat.ltb battery_pct 90.0 then
    recommend env k net_power "medium" false
      "energy_dispatch" "CHARGE_BATTERY"
      "Charge Battery with Surplus" battery_pct 90.0 0.80
  else Ok None.

(** [recommendations.append(r)] under [if r:]. *)
Definition append_rec (acc : list Recommendation) (r : option Recommendation)
  : list Recommendation :=
  match r with
  | Some x => acc ++ [x]
  | None => acc
  end.

(** Each analyzer draws one identifier per recommendation, so the number
    drawn so far is the number of recommendations so far. *)
Definition _analyze_life_support (env : Env) (k : nat) (state : SettlementState)
  : result (list Recommendation) :=
  o2_rec <- _analyze_oxygen env k state ;;
  let l1 := append_rec [] o2_rec in
  co2_rec <- _analyze_co2 env (k + length l1) state ;;
  let l2 := append_rec l1 co2_rec in
  pressure_rec <- _analyze_pressure env (k + length l2) state ;;
  let l3 := append_rec l2 pressure_rec in
  temp_rec <- _analyze_temperature env (k + length l3) state ;;
  let l4 := append_rec l3 temp_rec in
  humidity_rec <- _analyze_humidity env (k + length l4) state ;;
  let l5 := append_rec l4 humidity_rec in
  crop_rec <- _analyze_crop_health env (k + length l5) state ;;
  Ok (append_rec l5 crop_rec).

Definition _analyze_energy_dispatch (env : Env) (k : nat)
    (state : SettlementState) : result (list Recommendation) :=
  battery_rec <- _analyze_battery env k state ;;
  let l1 := append_rec [] battery_rec in
  solar_rec <- _analyze_solar env (k + length l1) state ;;
  let l2 := append_rec l1 solar_rec in
  load_rec <- _analyze_load env (k + length l2) state ;;
  let l3 := append_rec l2 load_rec in
  balance_rec <- _analyze_energy_balance env (k + length l3) state ;;
  Ok (append_rec l3 balance_rec).

(** [list.sort(key=priority, reverse=True)]: stable, highest first. *)
Fixpoint insert_by_priority (r : Recommendation) (l : list Recommendation)
  : list Recommendation :=
  match l with
  | [] => [r]
  | y :: tl =>
      if (priority r <? priority y)%Z then y :: insert_by_priority r tl
      else r :: y :: tl
  end.

Definition sort_by_priority (l : list Recommendation) : list Recommendation :=
  fold_right insert_by_priority [] l.

Definition generate_recommendations (env : Env) (state : SettlementState)
  : result (list Recommendation) :=
  life <- _analyze_life_support env 0 state ;;
  energy <- _analyze_energy_dispatch env (length life) state ;;
  Ok (sort_by_priority (life ++ energy)).

End decision_engine.

(* ===================================================================== *)
(** * app/sensor_simulator.py                                              *)
(* ===================================================================== *)

Module sensor_simulator.
Import Py models.

(** [random.gauss(0, sigma)] is an input: [gauss k] is the value of the
    k-th draw of one pass over the sensors. *)

(** [max(lo, min(hi, x))] *)
Definition clamp (lo hi x : float) : float := Py.max lo (Py.min hi x).

Definition _update_atmosphere (gauss : nat -> float) (k : nat)
    (s : SystemState) : SystemState :=
  {| atmosphere :=
       {| oxygen_level := clamp 19.0 23.0 (PrimFloat.add 21.0 (gauss k));
          co2_level := clamp 0.03 0.05 (PrimFloat.add 0.04 (gauss (k + 1)%nat));
          pressure := clamp 14.0 15.5 (PrimFloat.add 14.7 (gauss (k + 2)%nat));
          temperature := clamp 18.0 22.0 (PrimFloat.add 20.0 (gauss (k + 3)%nat));
          humidity := clamp 45.0 55.0 (PrimFloat.add 50.0 (gauss (k + 4)%nat)) |};
     life_support := life_support s; power := power s;
     radiation := radiation s; agriculture := agriculture s;
     structural := structural s |}.

Definition _update_life_support (gauss : nat -> float) (k : nat)
    (s : SystemState) : SystemState :=
  {| atmosphere := atmosphere s;
     life_support :=
       {| water_recovery_rate :=
            clamp 96.0 99.5 (PrimFloat.add 98.0 (gauss k));
          waste_processing_efficiency :=
            clamp 92.0 97.0 (PrimFloat.add 95.0 (gauss (k + 1)%nat));
          air_quality_index :=
            clamp 90.0 100.0 (PrimFloat.add 95.0 (gauss (k + 2)%nat)) |};
     power := power s; radiation := radiation s;
     agriculture := agriculture s; structural := structural s |}.

Definition _update_power (gauss : nat -> float) (k : nat)
    (s : SystemState) : SystemState :=
  let base_power : float := 1000.0%float in
  let time_factor :=
    PrimFloat.add 0.7 (PrimFloat.mul 0.3 (PrimFloat.abs (gauss k))) in
  {| atmosphere := atmosphere s; life_support := life_support s;
     power :=
       {| solar_generation :=
            clamp 0.0 1100.0
              (PrimFloat.add (PrimFloat.mul base_power time_factor)
                 (gauss (k + 1)%nat));
          battery_charge :=
            clamp 60.0 100.0 (PrimFloat.add 80.0 (gauss (k + 2)%nat));
          power_consumption :=
            clamp 700.0 900.0 (PrimFloat.add 800.0 (gauss (k + 3)%nat));
          energy_storage_level :=
            clamp 70.0 95.0 (PrimFloat.add 80.0 (gauss (k + 4)%nat)) |};
     radiation := radiation s; agriculture := agriculture s;
     structural := structural s |}.

Definition _update_radiation (gauss : nat -> float) (k : nat)
    (s : SystemState) : SystemState :=
  {| atmosphere := atmosphere s; life_support := life_support s;
     power := power s;
     radiation :=
       {| radiation_level := clamp 0.3 0.7 (PrimFloat.add 0.5 (gauss k));
          shielding_effectiveness :=
            clamp 92.0 98.0 (PrimFloat.add 95.0 (gauss (k + 1)%nat)) |};
     agriculture := agriculture s; structural := structural s |}.

Definition _update_agriculture (gauss : nat -> float) (k : nat)
    (s : SystemState) : SystemState :=
  {| atmosphere := atmosphere s; life_support := life_support s;
     power := power s; radiation := radiation s;
     agriculture :=
       {| crop_health := clamp 75.0 95.0 (PrimFloat.add 85.0 (gauss k));
          nutrient_levels :=
            clamp 70.0 90.0 (PrimFloat.add 80.0 (gauss (k + 1)%nat));
          harvest_readiness :=
            clamp 40.0 80.0 (PrimFloat.add 60.0 (gauss (k + 2)%nat)) |};
     structural := structural s |}.

Definition _update_structural (gauss : nat -> float) (k : nat)
    (s : SystemState) : SystemState :=
  {| atmosphere := atmosphere s; life_support := life_support s;
     power := power s; radiation := radiation s;
     agriculture := agriculture s;
     structural :=
       {| rotation_rate := clamp 1.85 1.95 (PrimFloat.add 1.9 (gauss k));
          structural_integrity :=
            clamp 96.0 100.0 (PrimFloat.add 98.0 (gauss (k + 1)%nat));
          module_pressure :=
            clamp 14.5 14.9 (PrimFloat.add 14.7 (gauss (k + 2)%nat)) |} |}.

(** One pass of the loop of [_update_sensors]: the six updates in order,
    21 draws in all. *)
Definition update_once (gauss : nat -> float) (s : SystemState) : SystemState :=
  let s1 := _update_atmosphere gauss 0 s in
  let s2 := _update_life_support gauss 5 s1 in
  let s3 := _update_power gauss 8 s2 in
  let s4 := _update_radiation gauss 13 s3 in
  let s5 := _update_agriculture gauss 15 s4 in
  _update_structural gauss 18 s5.

End sensor_simulator.

(* ===================================================================== *)
(** * app/routers: alerts.py, recommendations.py and decisions.py          *)
(* ===================================================================== *)

Module routers_alerts.
Import Py models.

(** [alerts_db] is a list of alerts, oldest entry first. *)

(** [next((a for a in alerts_db if a.id == alert_id), None)] *)
Definition find_alert (alert_id : string) (alerts_db : list Alert)
  : option Alert :=
  List.find (fun a => String.eqb (id a) alert_id) alerts_db.

(** [get_alert]: None stands for the 404 answer. *)
Definition get_alert (alert_id : string) (alerts_db : list Alert)
  : option Alert :=
  find_alert alert_id alerts_db.

Definition set_resolved (a : Alert) : Alert :=
  {| id := id a; timestamp := timestamp a; severity := severity a;
     category := category a; system := system a; resolved := true |}.

(** The store after [alert.resolved = True] on the first alert with the
    given id. *)
Fixpoint resolve_first (alert_id : string) (alerts_db : list Alert)
  : list Alert :=
  match alerts_db with
  | [] => []
  | a :: tl =>
      if String.eqb (id a) alert_id then set_resolved a :: tl
      else a :: resolve_first alert_id tl
  end.

(** [resolve_alert]: the alert as answered and the store afterwards, or
    None for the 404 answer (the store is then untouched). *)
Definition resolve_alert (alert_id : string) (alerts_db : list Alert)
  : option (Alert * list Alert) :=
  match find_alert alert_id alerts_db with
  | None => None
  | Some a => Some (set_resolved a, resolve_first alert_id alerts_db)
  end.

Definition severity_eqb (a b : AlertSeverity) : bool :=
  match a, b with
  | INFO, INFO | WARNING, WARNING | CRITICAL, CRITICAL => true
  | _, _ => false
  end.

(** [get_alerts(severity, system, resolved, limit)]: the three optional
    filters ([if system:] also skips the empty string), newest first, cut
    to [limit]. *)
Definition get_alerts (sev : option AlertSeverity) (sys : option string)
    (res : option bool) (limit : nat) (alerts_db : list Alert) : list Alert :=
  let filtered := alerts_db in
  let filtered :=
    match sev with
    | Some s => List.filter (fun a => severity_eqb (severity a) s) filtered
    | None => filtered
    end in
  let filtered :=
    match sys with
    | Some s =>
        if String.eqb s "" then filtered
        else List.filter (fun a => String.eqb (system a) s) filtered
    | None => filtered
    end in
  let filtered :=
    match res with
    | Some r => List.filter (fun a => Bool.eqb (resolved a) r) filtered
    | None => filtered
    end in
  take limit (sort_desc timestamp filtered).

End routers_alerts.

Module routers_recommendations.
Import Py models.

(** [recommendations_db] is a list of recommendations, oldest entry
    first. *)

(** [priority_order.get(x.priority, 0)] *)
Definition priority_order (p : string) : Z :=
  if String.eqb p "high" then 3
  else if String.eqb p "medium" then 2
  else if String.eqb p "low" then 1
  else 0.

(** The sort key [(priority_order.get(x.priority, 0), x.timestamp)] and
    the comparison of two such tuples. *)
Definition sort_key (r : Recommendation) : Z * Z :=
  (priority_order (rec_priority r), rec_timestamp r).

Definition tuple_lt (a b : Z * Z) : bool :=
  if (fst a =? fst b)%Z then (snd a <? snd b)%Z else (fst a <? fst b)%Z.

(** [get_recommendations(priority, category, action_required, limit)]:
    [if priority:] and [if category:] also skip the empty string. *)
Definition get_recommendations (priority category : option string)
    (act : option bool) (limit : nat)
    (recommendations_db : list Recommendation) : list Recommendation :=
  let filtered_recs := recommendations_db in
  let filtered_recs :=
    match priority with
    | Some p =>
        if String.eqb p "" then filtered_recs
        else List.filter (fun r => String.eqb (rec_priority r) p) filtered_recs
    | None => filtered_recs
    end in
  let filtered_recs :=
    match category with
    | Some c =>
        if String.eqb c "" then filtered_recs
        else List.filter (fun r => String.eqb (rec_category r) c) filtered_recs
    | None => filtered_recs
    end in
  let filtered_recs :=
    match act with
    | Some a => List.filter (fun r => Bool.eqb (action_required r) a) filtered_recs
    | None => filtered_recs
    end in
  take limit
    (sort_desc_by (fun x y => tuple_lt (sort_key x) (sort_key y)) filtered_recs).

End routers_recommendations.

Module routers_decisions.
Import Py models.

(** The two filters of [get_recommendations] ([if category:] also skips
    the empty string). *)
Definition apply_filters (cat : option string) (min_priority : Z)
    (recs : list decision_engine.Recommendation)
  : list decision_engine.Recommendation :=
  let recs :=
    match cat with
    | Some c =>
        if String.eqb c "" then recs
        else List.filter
               (fun r => String.eqb (decision_engine.category r) c) recs
    | None => recs
    end in
  List.filter (fun r => (min_priority <=? decision_engine.priority r)%Z) recs.

(** [get_recommendations(category, min_priority)] on the snapshot the
    endpoint built from the telemetry. *)
Definition get_recommendations (env : Env) (state : SettlementState)
    (cat : option string) (min_priority : Z)
  : result (list decision_engine.Recommendation) :=
  recs <- decision_engine.generate_recommendations env state ;;
  Ok (apply_filters cat min_priority recs).

End routers_decisions.

(* ===================================================================== *)
(** * Statements: the vocabulary of the specification                      *)
(* ===================================================================== *)

Module PH := safety_layer.PressureHistory.
Module RH := safety_layer.RadiationHistory.
Module SL := safety_layer.
Module AD := anomaly_detector.
Module DE := decision_engine.

(** The elapsed minutes between two timestamps. *)
Definition elapsed_minutes (oldest_ts newest_ts : Z) : float :=
  PrimFloat.div (SL.total_seconds (newest_ts - oldest_ts)) 60.

(** The leak rate in the words of the specification: with at least two
    samples, the percentage change from the oldest to the newest sample
    divided by the elapsed minutes; undefined with fewer samples, and where
    a division cannot be carried out. *)
Definition spec_leak_rate (window : list (Z * float)) : option float :=
  match head window, last window with
  | Some (oldest_ts, oldest), Some (newest_ts, newest) =>
      if (length window <? 2)%nat then None
      else if PrimFloat.eqb (elapsed_minutes oldest_ts newest_ts) 0
              || PrimFloat.eqb oldest 0
      then None
      else Some (PrimFloat.div
                   (PrimFloat.mul
                      (PrimFloat.div (PrimFloat.sub newest oldest) oldest) 100)
                   (elapsed_minutes oldest_ts newest_ts))
  | _, _ => None
  end.

(** The rate is below the leak threshold of -2.0 percent per minute. *)
Definition breach (rate : option float) : Prop :=
  exists r, rate = Some r /\ PrimFloat.ltb r (-2.0) = true.

(** The rate is at or above -2.0, or undefined. *)
Definition no_breach (rate : option float) : Prop :=
  rate = None \/ exists r, rate = Some r /\ PrimFloat.leb (-2.0) r = true.

(** The three ways a window has no rate. *)
Definition no_rate (window : list (Z * float)) : Prop :=
  (length window < 2)%nat \/
  exists oldest_ts oldest newest_ts newest,
    head window = Some (oldest_ts, oldest) /\
    last window = Some (newest_ts, newest) /\
    (newest_ts = oldest_ts \/ PrimFloat.eqb oldest 0 = true).

(** ** Concrete inputs *)

Definition ids (k : nat) : string :=
  String.append "uuid-" (String (Ascii.ascii_of_nat (48 + k)) EmptyString).

Definition env_at (now : Z) : Env := {| utcnow := now; uuid4 := ids |}.

(** The default snapshot with a given pressure and radiation. *)
Definition reading (pressure radiation : float) : models.SettlementState := {|
  models.o2_pct := 21.0; models.co2_ppm := 400.0;
  models.pressure_kpa := pressure;
  models.temp_c := 20.0; models.humidity_pct := 50.0;
  models.solar_kw := 1000.0; models.battery_kwh := 500.0;
  models.load_kw := 800.0; models.crop_health_index := 85.0;
  models.radiation_msv_hr := radiation; models.strain_index := 0.5 |}.

Definition seconds (n : Z) : Z := (n * 1000000)%Z.

(** A layer whose pressure window holds 101.0 kPa at 0 s and 95.0 kPa one
    minute later. *)
Definition layer_two_samples : SL.SafetyLayer := {|
  SL.pressure_history :=
    {| PH.readings := [(seconds 0, 101.0%float); (seconds 60, 95.0%float)];
       PH.max_history_minutes := 5 |};
  SL.radiation_history := RH.init;
  SL.active_alerts := ∅;
  SL.pending_approvals := ∅ |}.

(** A layer whose pressure window holds a single sample. *)
Definition layer_one_sample : SL.SafetyLayer := {|
  SL.pressure_history :=
    {| PH.readings := [(seconds 0, 101.0%float)];
       PH.max_history_minutes := 5 |};
  SL.radiation_history := RH.init;
  SL.active_alerts := ∅;
  SL.pending_approvals := ∅ |}.

(** ** Approvals *)

Definition pending_isolate : SL.Approval := {|
  SL.action_id := "ISOLATE_COMPARTMENTS"; SL.ap_category := "pressure";
  SL.ap_title := "Isolate Compartments"; SL.ap_timestamp := seconds 60;
  SL.approved := false; SL.approved_by := None; SL.approved_at := None |}.

Definition layer_pending : SL.SafetyLayer :=
  SL.set_pending_approvals {[ ids 1 := pending_isolate ]} SL.init.

(** The record [approve_action] writes over a pending one. *)
Definition approved_record (a : SL.Approval) (approver : string) (now : Z)
  : SL.Approval := {|
  SL.action_id := SL.action_id a; SL.ap_category := SL.ap_category a;
  SL.ap_title := SL.ap_title a; SL.ap_timestamp := SL.ap_timestamp a;
  SL.approved := true; SL.approved_by := Some approver;
  SL.approved_at := Some now |}.

(** ** Anomaly classification *)

(** Too little evidence to classify a sample of a metric. *)
Definition insufficient (st : AD.MetricStatistics) : Prop :=
  (AD.sample_count st < 10)%Z \/ PrimFloat.eqb (AD.std_dev st) 0 = true.

(** Severity and confidence in the words of the specification. *)
Definition spec_verdict (abs_z : float)
  : option (models.AlertSeverity * float) :=
  if PrimFloat.leb 3.5 abs_z
  then Some (models.CRITICAL,
             Py.min 0.99 (PrimFloat.add 0.7
                            (PrimFloat.mul (PrimFloat.sub abs_z 3.5) 0.1)))
  else if PrimFloat.leb 2.5 abs_z
  then Some (models.WARNING,
             Py.min 0.95 (PrimFloat.add 0.5
                            (PrimFloat.mul (PrimFloat.sub abs_z 2.5) 0.15)))
  else None.

(** The mean and the standard deviation of [st] are those of the window
    [w]: the population variance of [w] around its mean, zero where the
    variance is not positive. *)
Definition recomputed (w : list float) (st : AD.MetricStatistics) : Prop :=
  let n := Py.float_of_int (Z.of_nat (length w)) in
  AD.mean st = PrimFloat.div (Py.sum w) n /\
  exists squares,
    Py.traverse (fun x => Py.pow2 (PrimFloat.sub x (AD.mean st))) w
      = Py.Ok squares /\
    AD.std_dev st =
      (let variance := PrimFloat.div (Py.sum squares) n in
       if PrimFloat.ltb 0 variance then PrimFloat.sqrt variance else 0%float).

(** Statistics of twenty samples around 100 with deviation 2. *)
Definition stats_sample : AD.MetricStatistics := {|
  AD.mean := 100.0; AD.std_dev := 2.0; AD.ewma := 100.0;
  AD.min_value := 96.0; AD.max_value := 104.0;
  AD.sample_count := 20; AD.last_value := 100.0 |}.

Definition detector_sample : AD.AnomalyDetector := {|
  AD.pressure_stats := stats_sample;
  AD.radiation_stats := stats_sample;
  AD.battery_stats := stats_sample;
  AD.history := AD.empty_history;
  AD.max_history_size := 100 |}.



(** The default snapshot with a given oxygen percentage. *)
Definition reading_o2 (o2 : float) : models.SettlementState := {|
  models.o2_pct := o2; models.co2_ppm := 400.0;
  models.pressure_kpa := 101.325;
  models.temp_c := 20.0; models.humidity_pct := 50.0;
  models.solar_kw := 1000.0; models.battery_kwh := 500.0;
  models.load_kw := 800.0; models.crop_health_index := 85.0;
  models.radiation_msv_hr := 0.02; models.strain_index := 0.5 |}.

(** ** Priorities *)

(** The priority in the words of the specification: base 5, plus 3, 2 or 1
    as the magnitude of the deviation exceeds 20, 10 or 5; times the impact
    factor, truncated to an integer; plus 2 if flagged critical; clamped to
    the interval from 1 to 10. *)
Definition spec_bonus (deviation : float) : Z :=
  if PrimFloat.ltb 20 (PrimFloat.abs deviation) then 3
  else if PrimFloat.ltb 10 (PrimFloat.abs deviation) then 2
  else if PrimFloat.ltb 5 (PrimFloat.abs deviation) then 1
  else 0.

Definition spec_factor (impact_level : string) : option Q :=
  if String.eqb impact_level "critical" then Some 2%Q
  else if String.eqb impact_level "high" then Some (3 # 2)%Q
  else if String.eqb impact_level "medium" then Some 1%Q
  else if String.eqb impact_level "low" then Some (1 # 2)%Q
  else None.

Definition truncate (q : Q) : Z := Z.quot (Qnum q) (Z.pos (Qden q)).

Definition clamp (lo hi x : Z) : Z := Z.min hi (Z.max lo x).

Definition spec_priority (deviation : float) (factor : Q) (is_critical : bool)
  : Z :=
  clamp 1 10
    (truncate (inject_Z (5 + spec_bonus deviation) * factor)
     + (if is_critical then 2 else 0))%Z.

(** A priority that is an integer from 1 to 10. *)
Definition priority_in_range (v : Py.value) : Prop :=
  exists n, v = Py.VInt n /\ (1 <= n <= 10)%Z.

(** The [priority] attribute of the two kinds of recommendation. *)
Definition engine_priority (r : DE.Recommendation) : Py.value :=
  Py.VInt (DE.priority r).
Definition safety_priority (r : models.Recommendation) : Py.value :=
  Py.VStr (models.rec_priority r).
(** An analyzer returns, and what it returns has a priority from 1 to 10. *)
Definition well_ranked (res : Py.result (option DE.Recommendation)) : Prop :=
  exists o, res = Py.Ok o /\
            forall r, o = Some r -> (1 <= DE.priority r <= 10)%Z.

(** A list of recommendations that returns, all ranked from 1 to 10. *)
Definition all_ranked (res : Py.result (list DE.Recommendation)) : Prop :=
  exists l, res = Py.Ok l /\
            forall r, r ∈ l -> (1 <= DE.priority r <= 10)%Z.

(** Every recommendation of an outcome of the safety layer has the
    priority "high". *)
Definition all_high (o : SL.Outcome) : Prop :=
  forall r, r ∈ SL.recommendations o -> models.rec_priority r = "high".

(** ** Runs of the safety layer *)

(** The layer after a run from the initial layer. *)
Definition after (inputs : list (Z * models.SettlementState)) : SL.SafetyLayer :=
  match SL.run ids inputs SL.init with
  | Py.Ok s => s
  | Py.Raise _ => SL.init
  end.


(** One reading of 85.0 kPa, below the critical pressure. *)
Definition low_pressure : list (Z * models.SettlementState) :=
  [(seconds 0, reading 85 0.02)].

(** The mean of the five most recent stored readings. *)
Definition spec_baseline (stored : list (Z * float)) : float :=
  PrimFloat.div (Py.sum (List.map snd (Py.last_n 5 stored))) 5.

(** Five background readings of 0.02 mSv/hr. *)
Definition background : list (Z * models.SettlementState) :=
  [(seconds 0, reading 101.325 0.02); (seconds 1, reading 101.325 0.02);
   (seconds 2, reading 101.325 0.02); (seconds 3, reading 101.325 0.02);
   (seconds 4, reading 101.325 0.02)].


(** The outcome of checking a normal reading (101.325 kPa, 0.02 mSv/hr)
    five seconds after the reading of 85.0 kPa. *)
Definition outcome_recovered : SL.Outcome :=
  match SL.check_safety (env_at (seconds 5)) (reading 101.325 0.02)
          (after low_pressure) with
  | Py.Ok o => o
  | Py.Raise _ => SL.nothing 0 SL.init
  end.

(** ** Sensor ranges *)

Module SIM := sensor_simulator.

(** [lo <= x <= hi] on floats. *)
Definition within (lo hi x : float) : Prop :=
  PrimFloat.leb lo x = true /\ PrimFloat.leb x hi = true.

(** Every reading of the sensor state lies in the range its update clamps
    it to. *)
Definition in_sensor_ranges (s : models.SystemState) : Prop :=
  let atm := models.atmosphere s in
  let ls := models.life_support s in
  let pw := models.power s in
  let rad := models.radiation s in
  let ag := models.agriculture s in
  let st := models.structural s in
  (within 19.0 23.0 (models.oxygen_level atm) /\
   within 0.03 0.05 (models.co2_level atm) /\
   within 14.0 15.5 (models.pressure atm) /\
   within 18.0 22.0 (models.temperature atm) /\
   within 45.0 55.0 (models.humidity atm)) /\
  (within 96.0 99.5 (models.water_recovery_rate ls) /\
   within 92.0 97.0 (models.waste_processing_efficiency ls) /\
   within 90.0 100.0 (models.air_quality_index ls)) /\
  (within 0.0 1100.0 (models.solar_generation pw) /\
   within 60.0 100.0 (models.battery_charge pw) /\
   within 700.0 900.0 (models.power_consumption pw) /\
   within 70.0 95.0 (models.energy_storage_level pw)) /\
  (within 0.3 0.7 (models.radiation_level rad) /\
   within 92.0 98.0 (models.shielding_effectiveness rad)) /\
  (within 75.0 95.0 (models.crop_health ag) /\
   within 70.0 90.0 (models.nutrient_levels ag) /\
   within 40.0 80.0 (models.harvest_readiness ag)) /\
  (within 1.85 1.95 (models.rotation_rate st) /\
   within 96.0 100.0 (models.structural_integrity st) /\
   within 14.5 14.9 (models.module_pressure st)).

(** ** Ranking *)

(** Highest key first. *)
Definition descending {A} (key : A -> Z) (l : list A) : Prop :=
  StronglySorted (fun a b => (key b <= key a)%Z) l.

(** The elements of [l] with the key [k], in their order in [l]. *)
Definition with_key {A} (key : A -> Z) (k : Z) (l : list A) : list A :=
  List.filter (fun a => (key a =? k)%Z) l.

(** The priorities an impact level can come with. *)
Definition in_band (impact_level : string) (p : Z) : Prop :=
  if String.eqb impact_level "critical" then p = 10%Z
  else if String.eqb impact_level "high" then (7 <= p <= 10)%Z
  else if String.eqb impact_level "medium" then (5 <= p <= 8)%Z
  else if String.eqb impact_level "low" then (2 <= p <= 4)%Z
  else False.

(** An analyzer returns, and what it returns is ranked within the band of
    its impact level. *)
Definition well_banded (res : Py.result (option DE.Recommendation)) : Prop :=
  exists o, res = Py.Ok o /\
            forall r, o = Some r -> in_band (DE.impact r) (DE.priority r).

Definition all_banded (res : Py.result (list DE.Recommendation)) : Prop :=
  exists l, res = Py.Ok l /\
            forall r, r ∈ l -> in_band (DE.impact r) (DE.priority r).

Module RD := routers_decisions.
Module RA := routers_alerts.

(** ** Alert store *)

(** An unresolved critical pressure alert with the id "a-1", and a store
    holding it between two other alerts. *)
Definition stored_alert (alert_id : string) (ts : Z) : models.Alert := {|
  models.id := alert_id; models.timestamp := ts;
  models.severity := models.CRITICAL; models.category := "pressure";
  models.system := "atmosphere"; models.resolved := false |}.

Definition store_sample : list models.Alert :=
  [stored_alert "a-0" 10; stored_alert "a-1" 20; stored_alert "a-2" 30].

(** ** Telemetry *)

(** The telemetry carries a value under [key] of [section]. *)
Definition has (telemetry : gmap string (gmap string float))
    (section key : string) : Prop :=
  exists s v, telemetry !! section = Some s /\ s !! key = Some v.

(** The telemetry carries every reading the snapshot is built from. *)
Definition complete (telemetry : gmap string (gmap string float)) : Prop :=
  has telemetry "atmosphere" "oxygen_level" /\
  has telemetry "atmosphere" "co2_level" /\
  has telemetry "atmosphere" "pressure" /\
  has telemetry "atmosphere" "temperature" /\
  has telemetry "atmosphere" "humidity" /\
  has telemetry "power" "solar_generation" /\
  has telemetry "power" "battery_charge" /\
  has telemetry "power" "power_consumption" /\
  has telemetry "agriculture" "crop_health" /\
  has telemetry "radiation" "radiation_level" /\
  has telemetry "structural" "structural_integrity".

(** A telemetry message with the readings of the default sensor state. *)
Definition telemetry_sample : gmap string (gmap string float) :=
  <["atmosphere" :=
      <["oxygen_level" := 21.0%float]>
        (<["co2_level" := 0.04%float]>
           (<["pressure" := 14.7%float]>
              (<["temperature" := 20.0%float]>
                 (<["humidity" := 50.0%float]> ∅))))]>
    (<["power" :=
         <["solar_generation" := 1000.0%float]>
           (<["battery_charge" := 80.0%float]>
              (<["power_consumption" := 800.0%float]> ∅))]>
       (<["agriculture" := <["crop_health" := 85.0%float]> ∅]>
          (<["radiation" := <["radiation_level" := 0.5%float]> ∅]>
             (<["structural" := <["structural_integrity" := 98.0%float]> ∅]>
                ∅)))).

(** A message with a structural section whose integrity reading is NaN. *)
Definition telemetry_nan_integrity : gmap string (gmap string float) :=
  <["structural" := <["structural_integrity" := PrimFloat.nan]> ∅]> ∅.

(** A snapshot that differs from the default one in every field. *)
Definition other_state : models.SettlementState := {|
  models.o2_pct := 1.0; models.co2_ppm := 2.0; models.pressure_kpa := 3.0;
  models.temp_c := 4.0; models.humidity_pct := 5.0; models.solar_kw := 6.0;
  models.battery_kwh := 7.0; models.load_kw := 8.0;
  models.crop_health_index := 9.0; models.radiation_msv_hr := 10.0;
  models.strain_index := 11.0 |}.

(** ** Approvals of a safety check *)

(** The layer holds an approval under [rid] that is not approved. *)
Definition unapproved_at (self : SL.SafetyLayer) (rid : string) : Prop :=
  exists ap, SL.pending_approvals self !! rid = Some ap /\
             SL.approved ap = false.

(** What one detector's pass from the layer [s], with [k] identifiers
    drawn before, leaves in its outcome [o]. *)
Definition step_paired (env : Env) (k : nat) (s : SL.SafetyLayer)
    (o : SL.Outcome) : Prop :=
  length (SL.alerts o) = length (SL.recommendations o) /\
  (length (SL.alerts o) <= 1)%nat /\
  SL.drawn o = (k + 2 * length (SL.alerts o))%nat /\
  (forall r, r ∈ SL.recommendations o ->
     models.action_required r = true /\ unapproved_at (SL.layer o) (models.rec_id r)) /\
  (forall rid, unapproved_at s rid -> unapproved_at (SL.layer o) rid) /\
  (forall rid, (forall j, (k <= j < SL.drawn o)%nat -> uuid4 env j <> rid) ->
     SL.pending_approvals (SL.layer o) !! rid = SL.pending_approvals s !! rid).

(** The outcome of checking a reading of 85.0 kPa on a fresh layer: one
    alert, two identifiers drawn. *)
Definition outcome_low : SL.Outcome :=
  match SL.check_safety (env_at 0) (reading 85 0.02) SL.init with
  | Py.Ok o => o
  | Py.Raise _ => SL.nothing 0 SL.init
  end.

(** The four hazard identifiers of the safety layer. *)
Definition hazard_ids : list string :=
  [SL.ALERT_PRESSURE_LEAK; SL.ALERT_PRESSURE_CRITICAL;
   SL.ALERT_RADIATION_SPIKE; SL.ALERT_RADIATION_CRITICAL].

(** The radiation and the pressure samples of a run of inputs, each with
    the clock value of its call. *)
Definition radiation_inputs (inputs : list (Z * models.SettlementState))
  : list (Z * float) :=
  List.map (fun i => (fst i, models.radiation_msv_hr (snd i))) inputs.

Definition pressure_inputs (inputs : list (Z * models.SettlementState))
  : list (Z * float) :=
  List.map (fun i => (fst i, models.pressure_kpa (snd i))) inputs.

(** What a layer holds after it was fed [fed] from a fresh start. *)
Definition fed_from_start (fed : list (Z * models.SettlementState))
    (self : SL.SafetyLayer) : Prop :=
  let rh := SL.radiation_history self in
  let ph := SL.pressure_history self in
  RH.max_readings rh = 10%nat /\
  RH.readings rh = Py.last_n 10 (radiation_inputs fed) /\
  RH.baseline rh
  = (if (5 <=? length fed)%nat
     then Some (spec_baseline (radiation_inputs fed)) else None) /\
  PH.max_history_minutes ph = 5%Z /\
  (forall x, x ∈ PH.readings ph -> x ∈ pressure_inputs fed) /\
  (forall now st, last fed = Some (now, st) ->
     last (PH.readings ph) = Some (now, models.pressure_kpa st) /\
     forall ts value, (ts, value) ∈ PH.readings ph ->
                      (now - seconds 300 <= ts)%Z) /\
  (forall a, SL.Active a self -> a ∈ hazard_ids).

(** What a detector's pass leaves alone. *)
Definition step_kept (s : SL.SafetyLayer) (o : SL.Outcome) : Prop :=
  SL.pressure_history (SL.layer o) = SL.pressure_history s /\
  SL.radiation_history (SL.layer o) = SL.radiation_history s /\
  (forall a, SL.Active a (SL.layer o) -> SL.Active a s \/ a ∈ hazard_ids).

(** A snapshot whose pressure and radiation readings are both NaN. *)
Definition reading_nan : models.SettlementState :=
  reading PrimFloat.nan PrimFloat.nan.

(** The radiation history after the five background readings and one
    reading that is not a number. *)
Definition history_nan : RH.t :=
  RH.add_reading (seconds 5) PrimFloat.nan
    (SL.radiation_history (after background)).

(** The three metrics the detector tracks. *)
Definition metric_names : list string := ["pressure"; "radiation"; "battery"].

(** What feeding [xs] to the metric [name] of [self] leaves in [self']. *)
Definition fed_window (name : string) (h xs : list float)
    (self self' : AD.AnomalyDetector) : Prop :=
  AD.history self' !! name
  = Some (Py.last_n (AD.max_history_size self) (h ++ xs)) /\
  AD.max_history_size self' = AD.max_history_size self /\
  (exists st st',
     AD._get_stats name self = Py.Ok st /\
     AD._get_stats name self' = Py.Ok st' /\
     AD.sample_count st' = (AD.sample_count st + Z.of_nat (length xs))%Z) /\
  (forall other, other <> name ->
     AD.history self' !! other = AD.history self !! other /\
     AD._get_stats other self' = AD._get_stats other self).

(** Three pressure samples for a fresh detector. *)
Definition three_samples : list float := [101.0; 101.5; 100.5]%float.

(** Statistics a consumer can rely on: the deviation is a number that is
    not negative, and the extrema are numbers. *)
Definition sound_stats (st : AD.MetricStatistics) : Prop :=
  PrimFloat.leb 0 (AD.std_dev st) = true /\
  PrimFloat.is_nan (AD.min_value st) = false /\
  PrimFloat.is_nan (AD.max_value st) = false.

(** The statistics [st'] after feeding [xs] to a metric whose statistics
    were [st]. *)
Definition tracks (st : AD.MetricStatistics) (xs : list float)
    (st' : AD.MetricStatistics) : Prop :=
  sound_stats st' /\
  PrimFloat.leb (AD.min_value st') (AD.min_value st) = true /\
  PrimFloat.leb (AD.max_value st) (AD.max_value st') = true /\
  (forall x, x ∈ xs -> PrimFloat.is_nan x = false ->
     PrimFloat.leb (AD.min_value st') x = true /\
     PrimFloat.leb x (AD.max_value st') = true) /\
  (forall v, last xs = Some v -> AD.last_value st' = v).

(** A fresh detector after three pressure samples. *)
Definition detector_three : AD.AnomalyDetector :=
  match AD.feed "pressure" three_samples AD.init with
  | Py.Ok s => s
  | Py.Raise _ => AD.init
  end.

(** Two detection cycles of ordinary readings, and what a fresh detector
    returns for them. *)
Definition two_cycles : list (float * float * float) :=
  [(101.0, 0.02, 80.0); (101.5, 0.021, 79.5)]%float.

Definition after_cycles (start : AD.AnomalyDetector)
    (inputs : list (float * float * float))
  : list (list AD.AnomalyAlert) * AD.AnomalyDetector :=
  match AD.cycles (env_at 0) inputs start with
  | Py.Ok r => r
  | Py.Raise _ => ([], start)
  end.

(** The detector [detector_sample] after its pressure statistics were
    reset. *)
Definition detector_reset : AD.AnomalyDetector :=
  match AD.reset_statistics (Some "pressure") detector_sample with
  | Py.Ok s => s
  | Py.Raise _ => detector_sample
  end.

(** Ten quiet cycles, the detector they leave, and the cycle of a pressure
    outlier after them. *)
Definition ten_cycles : list (float * float * float) :=
  [(100.0, 0.02, 80.0); (102.0, 0.021, 79.0); (100.0, 0.02, 80.0);
   (102.0, 0.021, 79.0); (100.0, 0.02, 80.0); (102.0, 0.021, 79.0);
   (100.0, 0.02, 80.0); (102.0, 0.021, 79.0); (100.0, 0.02, 80.0);
   (102.0, 0.021, 79.0)]%float.

Definition detector_warm : AD.AnomalyDetector :=
  snd (after_cycles AD.init ten_cycles).

Definition cycle_outlier : list AD.AnomalyAlert * AD.AnomalyDetector :=
  match AD.detect_anomalies (env_at 0) 150.0 0.02 80.0 detector_warm with
  | Py.Ok r => r
  | Py.Raise _ => ([], detector_warm)
  end.

(** The metric and the value an alert reports. *)
Definition reported (a : AD.AnomalyAlert) : string * float :=
  (AD.metric a, AD.current_value a).

Module RR := routers_recommendations.

(** [a] is listed before [b]: a higher priority rank, or the same rank and
    not older. *)
Definition listed_before (a b : models.Recommendation) : Prop :=
  (RR.priority_order (models.rec_priority b)
   < RR.priority_order (models.rec_priority a))%Z \/
  (RR.priority_order (models.rec_priority b)
   = RR.priority_order (models.rec_priority a) /\
   (models.rec_timestamp b <= models.rec_timestamp a)%Z).

(* ===================================================================== *)
(** * Properties                                                           *)
(* ===================================================================== *)

(** ** Order of binary64 values *)
Lemma SFcompare_antisym (a b : spec_float) :
  SFcompare b a = option_map CompOpp (SFcompare a b).
Proof.
  destruct a as [sa|sa| |sa ma ea], b as [sb|sb| |sb mb eb]; simpl;
    try reflexivity;
    try (destruct sa; reflexivity); try (destruct sb; reflexivity);
    try (destruct sa, sb; reflexivity).
  rewrite !Pos.compare_cont_spec; simpl.
  rewrite (Z.compare_antisym ea eb), (Pos.compare_antisym ma mb).
  destruct sa, sb; simpl; try reflexivity;
    destruct (ea ?= eb)%Z; simpl; try reflexivity;
    destruct (ma ?= mb)%positive; reflexivity.
Qed.


Lemma leb_ltb_false (a b : float) :
  PrimFloat.leb a b = true -> PrimFloat.ltb b a = false.
Proof.
  rewrite ltb_spec, leb_spec. unfold SFltb, SFleb.
  rewrite (SFcompare_antisym (Prim2SF a) (Prim2SF b)).
  destruct (SFcompare (Prim2SF a) (Prim2SF b)) as [[]|]; simpl; congruence.
Qed.

Lemma SFleb_trans (a b c : spec_float) :
  SFleb a b = true -> SFleb b c = true -> SFleb a c = true.
Proof.
  unfold SFleb.
  destruct a as [sa|sa| |sa ma ea], b as [sb|sb| |sb mb eb], c as [sc|sc| |sc mc ec];
    simpl; try congruence;
    try (destruct sa; simpl; congruence);
    try (destruct sb; simpl; congruence);
    try (destruct sc; simpl; congruence);
    try (destruct sa, sb; simpl; congruence);
    try (destruct sa, sc; simpl; congruence);
    try (destruct sb, sc; simpl; congruence);
    try (destruct sa, sb, sc; simpl; congruence).
  rewrite !Pos.compare_cont_spec; simpl.
  destruct sa, sb, sc; simpl; try congruence;
    destruct (Z.compare_spec ea eb), (Z.compare_spec eb ec), (Z.compare_spec ea ec);
    try lia; try congruence; simpl;
    destruct (Pos.compare_spec ma mb), (Pos.compare_spec mb mc), (Pos.compare_spec ma mc);
    simpl; try lia; try congruence.
Qed.

Lemma leb_trans (a b c : float) :
  PrimFloat.leb a b = true -> PrimFloat.leb b c = true -> PrimFloat.leb a c = true.
Proof. rewrite !leb_spec. apply SFleb_trans. Qed.

(** ** Results *)

Lemma bind_Ok {A B} (r : Py.result A) (k : A -> Py.result B) (b : B) :
  Py.bind r k = Py.Ok b -> exists a, r = Py.Ok a /\ k a = Py.Ok b.
Proof. destruct r as [a|e]; simpl; [eauto | discriminate]. Qed.

Lemma truediv_nonzero (a b : float) :
  PrimFloat.eqb b 0 = false -> Py.truediv a b = Py.Ok (PrimFloat.div a b).
Proof. intros H. unfold Py.truediv. now rewrite H. Qed.

(** ** Pressure window and leak rate *)

Lemma head_last_of_two {A} (l : list A) :
  (2 <= length l)%nat -> exists a b, head l = Some a /\ last l = Some b.
Proof.
  destruct l as [|a l]; simpl; [lia|]. intros _.
  exists a. destruct (last (a :: l)) as [b|] eqn:E; [eauto|].
  apply last_None in E. discriminate.
Qed.

Lemma elapsed_minutes_same (ts : Z) :
  PrimFloat.eqb (elapsed_minutes ts ts) 0 = true.
Proof. unfold elapsed_minutes. rewrite Z.sub_diag. reflexivity. Qed.

Lemma rate_unfold (h : PH.t) oldest_ts oldest_pressure newest_ts newest_pressure :
  (2 <= length (PH.readings h))%nat ->
  head (PH.readings h) = Some (oldest_ts, oldest_pressure) ->
  last (PH.readings h) = Some (newest_ts, newest_pressure) ->
  PH.get_rate_of_change h =
    if PrimFloat.eqb (elapsed_minutes oldest_ts newest_ts) 0 then Py.Ok None
    else if PrimFloat.eqb oldest_pressure 0 then Py.Ok None
    else Py.Ok (Some (PrimFloat.div
                        (PrimFloat.mul
                           (PrimFloat.div
                              (PrimFloat.sub newest_pressure oldest_pressure)
                              oldest_pressure) 100)
                        (elapsed_minutes oldest_ts newest_ts))).
Proof.
  intros Hlen Hh Hl. unfold PH.get_rate_of_change.
  destruct (Z.ltb_spec (Z.of_nat (length (PH.readings h))) 2); [lia|].
  rewrite Hh, Hl. rewrite truediv_nonzero by reflexivity. simpl.
  fold (elapsed_minutes oldest_ts newest_ts).
  destruct (PrimFloat.eqb (elapsed_minutes oldest_ts newest_ts) 0) eqn:Et; [reflexivity|].
  destruct (PrimFloat.eqb oldest_pressure 0) eqn:Ep; [reflexivity|].
  rewrite truediv_nonzero by exact Ep. simpl.
  rewrite truediv_nonzero by exact Et. reflexivity.
Qed.

Lemma rate_short (h : PH.t) :
  (length (PH.readings h) < 2)%nat -> PH.get_rate_of_change h = Py.Ok None.
Proof.
  intros H. unfold PH.get_rate_of_change.
  destruct (Z.ltb_spec (Z.of_nat (length (PH.readings h))) 2); [reflexivity|lia].
Qed.

Lemma rate_total (h : PH.t) : exists r, PH.get_rate_of_change h = Py.Ok r.
Proof.
  destruct (le_lt_dec 2 (length (PH.readings h))) as [Hlen|Hlen].
  - destruct (head_last_of_two _ Hlen) as ([to po] & [tn pn] & Hh & Hl).
    rewrite (rate_unfold h to po tn pn Hlen Hh Hl).
    destruct (PrimFloat.eqb _ 0); [eauto|].
    destruct (PrimFloat.eqb _ 0); eauto.
  - rewrite rate_short by exact Hlen. eauto.
Qed.

Lemma rate_refines (h : PH.t) :
  PH.get_rate_of_change h = Py.Ok (spec_leak_rate (PH.readings h)).
Proof.
  unfold spec_leak_rate.
  destruct (le_lt_dec 2 (length (PH.readings h))) as [Hlen|Hlen].
  - destruct (head_last_of_two _ Hlen) as ([to po] & [tn pn] & Hh & Hl).
    rewrite (rate_unfold h to po tn pn Hlen Hh Hl), Hh, Hl.
    destruct (Nat.ltb_spec (length (PH.readings h)) 2); [lia|].
    destruct (PrimFloat.eqb (elapsed_minutes to tn) 0); [reflexivity|].
    destruct (PrimFloat.eqb po 0); reflexivity.
  - rewrite rate_short by exact Hlen.
    destruct (head (PH.readings h)) as [[? ?]|]; [|reflexivity].
    destruct (last (PH.readings h)) as [[? ?]|]; [|reflexivity].
    destruct (Nat.ltb_spec (length (PH.readings h)) 2); [reflexivity|lia].
Qed.

Lemma no_rate_None (window : list (Z * float)) :
  no_rate window -> spec_leak_rate window = None.
Proof.
  unfold spec_leak_rate.
  intros [Hlen | (to & po & tn & pn & Hh & Hl & Hz)].
  - destruct (head window) as [[? ?]|]; [|reflexivity].
    destruct (last window) as [[? ?]|]; [|reflexivity].
    destruct (Nat.ltb_spec (length window) 2); [reflexivity|lia].
  - rewrite Hh, Hl. destruct (length window <? 2)%nat; [reflexivity|].
    destruct Hz as [-> | ->].
    + now rewrite elapsed_minutes_same.
    + now rewrite orb_true_r.
Qed.

(** ** The active-hazard set *)

Lemma is_active_true (a : string) (self : SL.SafetyLayer) :
  SL.is_active a self = true <-> SL.Active a self.
Proof. unfold SL.is_active, SL.Active. apply bool_decide_eq_true. Qed.

Lemma is_active_false (a : string) (self : SL.SafetyLayer) :
  SL.is_active a self = false <-> ~ SL.Active a self.
Proof. unfold SL.is_active, SL.Active. apply bool_decide_eq_false. Qed.

Lemma raise_alert_alerts env k a sev cat sys act ttl self :
  exists x,
    SL.alerts (SL.raise_alert env k a sev cat sys act ttl self) = [x] /\
    SL.active_alerts (SL.layer (SL.raise_alert env k a sev cat sys act ttl self))
    = <[a := x]> (SL.active_alerts self).
Proof. eexists. split; reflexivity. Qed.

Lemma Active_delete (a b : string) self :
  SL.Active a (SL.set_active_alerts (delete b (SL.active_alerts self)) self)
  <-> a <> b /\ SL.Active a self.
Proof.
  unfold SL.Active; simpl. rewrite lookup_delete.
  case_decide as Hd; subst; split.
  - intros [? Hx]; discriminate.
  - intros [Hx _]; congruence.
  - intros Hx; split; [congruence|exact Hx].
  - intros [_ Hx]; exact Hx.
Qed.

Lemma Active_raise env k a b sev cat sys act ttl self :
  SL.Active a (SL.layer (SL.raise_alert env k b sev cat sys act ttl self))
  <-> a = b \/ SL.Active a self.
Proof.
  unfold SL.Active.
  destruct (raise_alert_alerts env k b sev cat sys act ttl self) as (x & _ & ->).
  rewrite lookup_insert. case_decide as Hd; subst; split; intros Hx; eauto.
  destruct Hx as [Hx|Hx]; [congruence|exact Hx].
Qed.

Lemma check_pressure_unfold env k st self :
  SL._check_pressure env k st self =
  let rate := spec_leak_rate (PH.readings (SL.pressure_history self)) in
  let leaking :=
    match rate with
    | Some r => PrimFloat.ltb r (-2.0)
    | None => false
    end in
  Py.Ok
    (if leaking then
       if negb (SL.is_active SL.ALERT_PRESSURE_LEAK self)
       then SL.raise_alert env k SL.ALERT_PRESSURE_LEAK models.CRITICAL
              "pressure" "atmosphere" "ISOLATE_COMPARTMENTS"
              "Isolate Compartments" self
       else SL.nothing k self
     else if SL.is_active SL.ALERT_PRESSURE_LEAK self
             && match rate with
                | None => true
                | Some r => PrimFloat.leb (-2.0) r
                end
     then SL.nothing k (SL.set_active_alerts
                          (delete SL.ALERT_PRESSURE_LEAK (SL.active_alerts self))
                          self)
     else SL.nothing k self).
Proof.
  unfold SL._check_pressure. rewrite rate_refines. simpl.
  change (PrimFloat.opp SL.PRESSURE_LEAK_THRESHOLD) with (-2.0)%float.
  destruct (spec_leak_rate _) as [r|]; simpl.
  - destruct (PrimFloat.ltb r (-2.0)); simpl.
    + destruct (SL.is_active _ _); reflexivity.
    + destruct (SL.is_active _ _ && _); reflexivity.
  - destruct (SL.is_active _ _ && _); reflexivity.
Qed.

(** Case analysis over the branches of a detector. *)
Ltac hazard_cases :=
  repeat match goal with
         | |- _ /\ _ => split
         | |- _ <-> _ => split
         end;
  intros;
  repeat match goal with
         | H : exists _, _ |- _ => destruct H
         | H : _ /\ _ |- _ => destruct H
         | H : _ \/ _ |- _ => destruct H
         | H : Some _ = Some _ |- _ => injection H as H; subst
         | H : ?a = true, H' : ?a = false |- _ => congruence
         | H : PrimFloat.leb _ _ = true |- _ => apply leb_ltb_false in H
         end;
  try discriminate; try congruence; try tauto;
  try (rewrite Active_delete; tauto);
  try (apply Active_raise; tauto);
  try assumption;
  try (split; eauto; fail);
  try (eexists; split; [reflexivity | apply lookup_insert_eq]);
  try (exfalso;
       match goal with H : ~ _ |- _ => apply H; split; eauto; fail end).

(** What one pass of the leak detector does, by the rate of the window. *)
Lemma check_pressure_behaviour (env : Env) (k : nat)
    (st : models.SettlementState) (self : SL.SafetyLayer) :
  let rate := spec_leak_rate (PH.readings (SL.pressure_history self)) in
  exists o, SL._check_pressure env k st self = Py.Ok o /\
    ((exists a, SL.alerts o = [a] /\
                SL.active_alerts (SL.layer o) !! SL.ALERT_PRESSURE_LEAK = Some a)
     <-> breach rate /\ ~ SL.Active SL.ALERT_PRESSURE_LEAK self) /\
    (~ (breach rate /\ ~ SL.Active SL.ALERT_PRESSURE_LEAK self) ->
     SL.alerts o = [] /\ SL.recommendations o = []) /\
    (breach rate -> SL.Active SL.ALERT_PRESSURE_LEAK (SL.layer o)) /\
    (no_breach rate -> ~ SL.Active SL.ALERT_PRESSURE_LEAK (SL.layer o)).
Proof.
  intros rate. rewrite check_pressure_unfold. fold rate. cbv zeta.
  eexists; split; [reflexivity|].
  unfold breach, no_breach.
  destruct rate as [r|];
    [destruct (PrimFloat.ltb r (-2.0)) eqn:Hlt|];
    (destruct (SL.is_active SL.ALERT_PRESSURE_LEAK self) eqn:Ha;
     [apply is_active_true in Ha | apply is_active_false in Ha]);
    try (destruct (PrimFloat.leb (-2.0) r) eqn:Hle);
    cbn [andb negb SL.nothing SL.alerts SL.recommendations SL.layer];
    hazard_cases.
Qed.

(** What [add_reading] stores: the new sample last, and nothing older
    than five minutes. *)
Lemma add_reading_window (now : Z) (pressure : float) (h : PH.t) :
  PH.max_history_minutes h = 5%Z ->
  let stored := PH.readings (PH.add_reading now pressure h) in
  last stored = Some (now, pressure) /\
  forall ts value, (ts, value) ∈ stored -> (now - seconds 300 <= ts)%Z.
Proof.
  intros Hm. unfold PH.add_reading. cbn [PH.readings]. rewrite Hm. split.
  - rewrite List.filter_app. cbn [List.filter fst].
    destruct (Z.leb_spec (now - SL.timedelta_minutes 5) now) as [_|Hlt].
    + apply last_snoc.
    + unfold SL.timedelta_minutes in Hlt. lia.
  - intros ts value Hin. apply list_elem_of_In, List.filter_In in Hin as [_ Hin].
    apply Z.leb_le in Hin. unfold SL.timedelta_minutes in Hin.
    unfold seconds. simpl in Hin. lia.
Qed.

(** C4. The window keeps the samples of the last five minutes, the new
    one last.  With at least two samples in the window the leak rate is
    ((newest - oldest) / oldest) * 100 divided by the minutes elapsed
    between the oldest and the newest sample, and nothing else of the
    window is read.  One pass of the leak detector emits an alert exactly
    when the rate is below -2.0 and the hazard was Idle; while the breach
    lasts the hazard stays Active and no further alert is emitted; the
    hazard is Idle after the first pass whose rate is at least -2.0 or
    undefined. *)
Theorem C4_pressure_leak (env : Env) (k : nat) (st : models.SettlementState)
    (self : SL.SafetyLayer) :
  let window := PH.readings (SL.pressure_history self) in
  let rate := spec_leak_rate window in
  (forall now pressure,
     PH.max_history_minutes (SL.pressure_history self) = 5%Z ->
     let stored :=
       PH.readings (PH.add_reading now pressure (SL.pressure_history self)) in
     last stored = Some (now, pressure) /\
     forall ts value, (ts, value) ∈ stored -> (now - seconds 300 <= ts)%Z) /\
  (forall oldest_ts oldest newest_ts newest,
     (2 <= length window)%nat ->
     head window = Some (oldest_ts, oldest) ->
     last window = Some (newest_ts, newest) ->
     PrimFloat.eqb (elapsed_minutes oldest_ts newest_ts) 0 = false ->
     PrimFloat.eqb oldest 0 = false ->
     PH.get_rate_of_change (SL.pressure_history self) =
       Py.Ok (Some (PrimFloat.div
                      (PrimFloat.mul
                         (PrimFloat.div (PrimFloat.sub newest oldest) oldest) 100)
                      (elapsed_minutes oldest_ts newest_ts)))) /\
  PH.get_rate_of_change (SL.pressure_history self) = Py.Ok rate /\
  exists o, SL._check_pressure env k st self = Py.Ok o /\
    ((exists a, SL.alerts o = [a] /\
                SL.active_alerts (SL.layer o) !! SL.ALERT_PRESSURE_LEAK = Some a)
     <-> breach rate /\ ~ SL.Active SL.ALERT_PRESSURE_LEAK self) /\
    (~ (breach rate /\ ~ SL.Active SL.ALERT_PRESSURE_LEAK self) ->
     SL.alerts o = [] /\ SL.recommendations o = []) /\
    (breach rate -> SL.Active SL.ALERT_PRESSURE_LEAK (SL.layer o)) /\
    (no_breach rate -> ~ SL.Active SL.ALERT_PRESSURE_LEAK (SL.layer o)).
Proof.
  intros window rate. split_and!.
  - intros now pressure Hm. now apply add_reading_window.
  - intros to po tn pn Hlen Hh Hl Ht Hp.
    rewrite (rate_unfold _ to po tn pn Hlen Hh Hl), Ht, Hp. reflexivity.
  - apply rate_refines.
  - apply check_pressure_behaviour.
Qed.

Lemma C4_pressure_leak_witness :
  PH.get_rate_of_change (SL.pressure_history layer_two_samples) =
    Py.Ok (Some (PrimFloat.div
                   (PrimFloat.mul (PrimFloat.div (PrimFloat.sub 95 101) 101) 100)
                   (elapsed_minutes (seconds 0) (seconds 60)))).
Proof.
  apply (proj1 (proj2 (C4_pressure_leak (env_at 0) 0 (reading 95 0.02)
                         layer_two_samples))
           (seconds 0) 101%float (seconds 60) 95%float);
    [simpl; lia | reflexivity | reflexivity | reflexivity | reflexivity].
Defined.

(** C10. The rate computation always returns (no division by zero, no
    other exception), and it returns None with fewer than two samples in
    the window, with the oldest and newest sample at the same instant, and
    with an oldest pressure of zero.  In each of these cases the leak
    detector emits nothing and the leak hazard is Idle afterwards. *)
Theorem C10_rate_of_change_total (env : Env) (k : nat)
    (st : models.SettlementState) (self : SL.SafetyLayer) :
  let window := PH.readings (SL.pressure_history self) in
  (exists r, PH.get_rate_of_change (SL.pressure_history self) = Py.Ok r) /\
  (no_rate window ->
   PH.get_rate_of_change (SL.pressure_history self) = Py.Ok None /\
   exists o, SL._check_pressure env k st self = Py.Ok o /\
     SL.alerts o = [] /\ SL.recommendations o = [] /\
     ~ SL.Active SL.ALERT_PRESSURE_LEAK (SL.layer o)).
Proof.
  intros window. split; [apply rate_total|].
  intros Hno. apply no_rate_None in Hno.
  split; [rewrite rate_refines; fold window; now rewrite Hno|].
  destruct (check_pressure_behaviour env k st self) as (o & Ho & _ & Hq & _ & Hc).
  fold window in Hq, Hc. rewrite Hno in Hq, Hc.
  exists o. split; [exact Ho|].
  destruct Hq as [Ha Hr].
  { intros [(r & Hr & _) _]. discriminate. }
  repeat split; [exact Ha | exact Hr |]. apply Hc. now left.
Qed.

Lemma C10_rate_of_change_total_witness :
  PH.get_rate_of_change (SL.pressure_history layer_one_sample) = Py.Ok None /\
  exists o, SL._check_pressure (env_at 0) 0 (reading 101 0.02) layer_one_sample
            = Py.Ok o /\
    SL.alerts o = [] /\ SL.recommendations o = [] /\
    ~ SL.Active SL.ALERT_PRESSURE_LEAK (SL.layer o).
Proof.
  apply (proj2 (C10_rate_of_change_total (env_at 0) 0 (reading 101 0.02)
                  layer_one_sample)).
  left. simpl. lia.
Defined.

(** ** Approval gate *)

(** C7. [approve_action] returns false and leaves the layer, hence the
    stored record and its [approved_at], as it was when the identifier is
    unknown or the record is already approved.  Otherwise it returns true
    and the stored record becomes approved, with the given approver and the
    current time, every other field and every other record kept; from then
    on every further approval of that identifier returns false and changes
    nothing, so [approved] goes from false to true once. *)
Theorem C7_approve_action (env : Env) (rid approver : string)
    (self : SL.SafetyLayer) :
  (SL.pending_approvals self !! rid = None \/
   (exists a, SL.pending_approvals self !! rid = Some a /\ SL.approved a = true) ->
   SL.approve_action env rid approver self = (false, self)) /\
  (forall a,
     SL.pending_approvals self !! rid = Some a -> SL.approved a = false ->
     exists self',
       SL.approve_action env rid approver self = (true, self') /\
       SL.pending_approvals self' !! rid
         = Some (approved_record a approver (utcnow env)) /\
       (forall other, other <> rid ->
          SL.pending_approvals self' !! other = SL.pending_approvals self !! other) /\
       SL.active_alerts self' = SL.active_alerts self /\
       SL.pressure_history self' = SL.pressure_history self /\
       SL.radiation_history self' = SL.radiation_history self /\
       (forall env2 approver2,
          SL.approve_action env2 rid approver2 self' = (false, self'))).
Proof.
  split.
  - intros [Hn | (a & Ha & Hap)]; unfold SL.approve_action.
    + now rewrite Hn.
    + now rewrite Ha, Hap.
  - intros a Ha Hap. unfold SL.approve_action at 1. rewrite Ha, Hap.
    eexists. split; [reflexivity|]. simpl.
    split; [apply lookup_insert_eq|].
    split; [intros other Hne; now apply lookup_insert_ne|].
    repeat split.
    intros env2 approver2. unfold SL.approve_action. simpl.
    now rewrite lookup_insert_eq.
Qed.

Lemma C7_approve_action_witness :
  exists self',
    SL.approve_action (env_at (seconds 90)) (ids 1) "operator" layer_pending
      = (true, self') /\
    SL.pending_approvals self' !! ids 1
      = Some (approved_record pending_isolate "operator" (seconds 90)).
Proof.
  destruct (proj2 (C7_approve_action (env_at (seconds 90)) (ids 1) "operator"
                     layer_pending) pending_isolate)
    as (self' & H1 & H2 & _); [reflexivity | reflexivity |].
  exists self'. split; assumption.
Defined.

(** ** Anomaly classifier *)


Lemma detect_pressure_unfold env k value self :
  AD._detect_pressure_anomaly env k value self =
  let st := AD.pressure_stats self in
  let z := AD.z_of value st in
  if (AD.sample_count st <? 10)%Z then None
  else if PrimFloat.eqb (AD.std_dev st) 0 then None
  else match spec_verdict (PrimFloat.abs z) with
       | None => None
       | Some (sev, conf) =>
           Some {| AD.id := uuid4 env k; AD.timestamp := utcnow env;
                   AD.metric := "pressure"; AD.severity := sev;
                   AD.current_value := value; AD.z_score := z;
                   AD.confidence := conf;
                   AD.anomaly_type := if PrimFloat.ltb 0 z then "high" else "low";
                   AD.statistical_significance :=
                     AD.significance (PrimFloat.abs z) |}
       end.
Proof.
  unfold AD._detect_pressure_anomaly, spec_verdict. cbv zeta.
  destruct (_ <? _)%Z; [reflexivity|].
  destruct (PrimFloat.eqb _ 0); [reflexivity|].
  change AD.Z_SCORE_CRITICAL with 3.5%float.
  change AD.Z_SCORE_THRESHOLD with 2.5%float.
  destruct (PrimFloat.leb 3.5 _); [reflexivity|].
  destruct (PrimFloat.leb 2.5 _); reflexivity.
Qed.

Lemma detect_battery_unfold env k value self :
  AD._detect_battery_anomaly env k value self =
  let st := AD.battery_stats self in
  let z := AD.z_of value st in
  if (AD.sample_count st <? 10)%Z then None
  else if PrimFloat.eqb (AD.std_dev st) 0 then None
  else match spec_verdict (PrimFloat.abs z) with
       | None => None
       | Some (sev, conf) =>
           Some {| AD.id := uuid4 env k; AD.timestamp := utcnow env;
                   AD.metric := "battery"; AD.severity := sev;
                   AD.current_value := value; AD.z_score := z;
                   AD.confidence := conf;
                   AD.anomaly_type := if PrimFloat.ltb 0 z then "high" else "low";
                   AD.statistical_significance :=
                     AD.significance (PrimFloat.abs z) |}
       end.
Proof.
  unfold AD._detect_battery_anomaly, spec_verdict. cbv zeta.
  destruct (_ <? _)%Z; [reflexivity|].
  destruct (PrimFloat.eqb _ 0); [reflexivity|].
  change AD.Z_SCORE_CRITICAL with 3.5%float.
  change AD.Z_SCORE_THRESHOLD with 2.5%float.
  destruct (PrimFloat.leb 3.5 _); [reflexivity|].
  destruct (PrimFloat.leb 2.5 _); reflexivity.
Qed.

Lemma detect_radiation_unfold env k value self :
  AD._detect_radiation_anomaly env k value self =
  let st := AD.radiation_stats self in
  let z := AD.z_of value st in
  if (AD.sample_count st <? 10)%Z then None
  else if PrimFloat.eqb (AD.std_dev st) 0 then None
  else if PrimFloat.ltb 0 z then
    match spec_verdict (PrimFloat.abs z) with
    | None => None
    | Some (sev, conf) =>
        Some {| AD.id := uuid4 env k; AD.timestamp := utcnow env;
                AD.metric := "radiation"; AD.severity := sev;
                AD.current_value := value; AD.z_score := z;
                AD.confidence := conf;
                AD.anomaly_type := "spike";
                AD.statistical_significance :=
                  AD.significance (PrimFloat.abs z) |}
    end
  else None.
Proof.
  unfold AD._detect_radiation_anomaly, spec_verdict. cbv zeta.
  destruct (_ <? _)%Z; [reflexivity|].
  destruct (PrimFloat.eqb _ 0); [reflexivity|].
  change AD.Z_SCORE_CRITICAL with 3.5%float.
  change AD.Z_SCORE_THRESHOLD with 2.5%float.
  destruct (PrimFloat.ltb 0 _);
    destruct (PrimFloat.leb 3.5 _); try reflexivity;
    destruct (PrimFloat.leb 2.5 _); reflexivity.
Qed.


Lemma detect_pressure_Some env k value self a :
  AD._detect_pressure_anomaly env k value self = Some a ->
  let z := AD.z_of value (AD.pressure_stats self) in
  AD.metric a = "pressure" /\
  ~ insufficient (AD.pressure_stats self) /\
  spec_verdict (PrimFloat.abs z) = Some (AD.severity a, AD.confidence a) /\
  AD.z_score a = z /\
  AD.anomaly_type a = (if PrimFloat.ltb 0 z then "high" else "low").
Proof.
  rewrite detect_pressure_unfold. cbv zeta. unfold insufficient.
  destruct (Z.ltb_spec (AD.sample_count (AD.pressure_stats self)) 10);
    [discriminate|].
  destruct (PrimFloat.eqb _ 0) eqn:Hs; [discriminate|].
  destruct (spec_verdict _) as [[sev conf]|]; [|discriminate].
  intros [= <-]. simpl. repeat split. intros [?|?]; [lia|congruence].
Qed.

Lemma detect_battery_Some env k value self a :
  AD._detect_battery_anomaly env k value self = Some a ->
  let z := AD.z_of value (AD.battery_stats self) in
  AD.metric a = "battery" /\
  ~ insufficient (AD.battery_stats self) /\
  spec_verdict (PrimFloat.abs z) = Some (AD.severity a, AD.confidence a) /\
  AD.z_score a = z /\
  AD.anomaly_type a = (if PrimFloat.ltb 0 z then "high" else "low").
Proof.
  rewrite detect_battery_unfold. cbv zeta. unfold insufficient.
  destruct (Z.ltb_spec (AD.sample_count (AD.battery_stats self)) 10);
    [discriminate|].
  destruct (PrimFloat.eqb _ 0) eqn:Hs; [discriminate|].
  destruct (spec_verdict _) as [[sev conf]|]; [|discriminate].
  intros [= <-]. simpl. repeat split. intros [?|?]; [lia|congruence].
Qed.

Lemma detect_radiation_Some env k value self a :
  AD._detect_radiation_anomaly env k value self = Some a ->
  let z := AD.z_of value (AD.radiation_stats self) in
  AD.metric a = "radiation" /\
  ~ insufficient (AD.radiation_stats self) /\
  spec_verdict (PrimFloat.abs z) = Some (AD.severity a, AD.confidence a) /\
  AD.z_score a = z /\
  PrimFloat.ltb 0 z = true /\
  AD.anomaly_type a = "spike".
Proof.
  rewrite detect_radiation_unfold. cbv zeta. unfold insufficient.
  destruct (Z.ltb_spec (AD.sample_count (AD.radiation_stats self)) 10);
    [discriminate|].
  destruct (PrimFloat.eqb _ 0) eqn:Hs; [discriminate|].
  destruct (PrimFloat.ltb 0 _) eqn:Hz; [|discriminate].
  destruct (spec_verdict _) as [[sev conf]|]; [|discriminate].
  intros [= <-]. simpl. repeat split. intros [?|?]; [lia|congruence].
Qed.

Lemma elem_of_append_alert (acc : list AD.AnomalyAlert) o a :
  a ∈ AD.append_alert acc o <-> a ∈ acc \/ o = Some a.
Proof.
  destruct o as [x|]; simpl.
  - rewrite elem_of_app, list_elem_of_singleton. split; intros [?|?]; auto.
    + right. congruence.
    + right. congruence.
  - split; [auto | intros [?|?]; [assumption|discriminate]].
Qed.

Lemma detect_anomalies_inv env p r b self alerts self' :
  AD.detect_anomalies env p r b self = Py.Ok (alerts, self') ->
  (exists s1 s2,
     AD.update_metric "pressure" p self = Py.Ok s1 /\
     AD.update_metric "radiation" r s1 = Py.Ok s2 /\
     AD.update_metric "battery" b s2 = Py.Ok self') /\
  forall a, a ∈ alerts ->
    exists k,
      AD._detect_pressure_anomaly env k p self' = Some a \/
      AD._detect_radiation_anomaly env k r self' = Some a \/
      AD._detect_battery_anomaly env k b self' = Some a.
Proof.
  unfold AD.detect_anomalies. intros H.
  apply bind_Ok in H as (s1 & H1 & H).
  apply bind_Ok in H as (s2 & H2 & H).
  apply bind_Ok in H as (s3 & H3 & H).
  injection H as <- <-. split; [eauto|].
  intros a Ha.
  apply elem_of_append_alert in Ha as [Ha|Ha]; [|eauto].
  apply elem_of_append_alert in Ha as [Ha|Ha]; [|eauto].
  apply elem_of_append_alert in Ha as [Ha|Ha]; [|eauto].
  apply elem_of_nil in Ha. contradiction.
Qed.

(** C5. For each of the three metrics and every sample value, the
    classifier returns None (an absent alert, not an exception) when the
    metric has fewer than 10 samples or a zero standard deviation; and
    every alert a detection cycle returns belongs to a metric that, after
    the cycle's update, has at least 10 samples and a nonzero standard
    deviation. *)
Theorem C5_insufficient_evidence (env : Env) (k : nat) (value : float)
    (self : AD.AnomalyDetector) :
  (insufficient (AD.pressure_stats self) ->
   AD._detect_pressure_anomaly env k value self = None) /\
  (insufficient (AD.radiation_stats self) ->
   AD._detect_radiation_anomaly env k value self = None) /\
  (insufficient (AD.battery_stats self) ->
   AD._detect_battery_anomaly env k value self = None) /\
  (forall p r b alerts self',
     AD.detect_anomalies env p r b self = Py.Ok (alerts, self') ->
     forall a, a ∈ alerts ->
       exists st, AD._get_stats (AD.metric a) self' = Py.Ok st /\
                  ~ insufficient st).
Proof.
  split; [|split; [|split]].
  - intros Hq. destruct (AD._detect_pressure_anomaly env k value self) eqn:E;
      [|reflexivity].
    apply detect_pressure_Some in E. tauto.
  - intros Hq. destruct (AD._detect_radiation_anomaly env k value self) eqn:E;
      [|reflexivity].
    apply detect_radiation_Some in E. tauto.
  - intros Hq. destruct (AD._detect_battery_anomaly env k value self) eqn:E;
      [|reflexivity].
    apply detect_battery_Some in E. tauto.
  - intros p r b alerts self' H a Ha.
    apply detect_anomalies_inv in H as [_ H].
    destruct (H a Ha) as (k' & [E | [E | E]]).
    + apply detect_pressure_Some in E as (-> & Hn & _). eauto.
    + apply detect_radiation_Some in E as (-> & Hn & _). eauto.
    + apply detect_battery_Some in E as (-> & Hn & _). eauto.
Qed.

Lemma C5_insufficient_evidence_witness :
  AD._detect_pressure_anomaly (env_at 0) 0 1000000 AD.init = None.
Proof.
  apply (proj1 (C5_insufficient_evidence (env_at 0) 0 1000000 AD.init)).
  left. simpl. lia.
Defined.

(** C6. A radiation alert is never returned for a z-score at or below
    zero, whatever its magnitude, and a radiation alert that is returned
    has a positive z-score; the pressure and the battery classifier return
    an alert for every z-score of magnitude at least 2.5, above the mean
    (high) and below it (low) alike. *)
Theorem C6_radiation_direction (env : Env) (k : nat) (value : float)
    (self : AD.AnomalyDetector) :
  (PrimFloat.leb (AD.z_of value (AD.radiation_stats self)) 0 = true ->
   AD._detect_radiation_anomaly env k value self = None) /\
  (forall a, AD._detect_radiation_anomaly env k value self = Some a ->
             PrimFloat.ltb 0 (AD.z_score a) = true) /\
  (~ insufficient (AD.pressure_stats self) ->
   PrimFloat.leb 2.5 (PrimFloat.abs (AD.z_of value (AD.pressure_stats self))) = true ->
   exists a, AD._detect_pressure_anomaly env k value self = Some a /\
     AD.anomaly_type a =
       (if PrimFloat.ltb 0 (AD.z_of value (AD.pressure_stats self))
        then "high" else "low")) /\
  (~ insufficient (AD.battery_stats self) ->
   PrimFloat.leb 2.5 (PrimFloat.abs (AD.z_of value (AD.battery_stats self))) = true ->
   exists a, AD._detect_battery_anomaly env k value self = Some a /\
     AD.anomaly_type a =
       (if PrimFloat.ltb 0 (AD.z_of value (AD.battery_stats self))
        then "high" else "low")).
Proof.
  split; [|split; [|split]].
  - intros Hz. apply leb_ltb_false in Hz.
    destruct (AD._detect_radiation_anomaly env k value self) eqn:E;
      [|reflexivity].
    apply detect_radiation_Some in E. cbv zeta in E. intuition congruence.
  - intros a E. apply detect_radiation_Some in E as (_ & _ & _ & -> & Hz & _).
    exact Hz.
  - intros Hs Hz. rewrite detect_pressure_unfold. cbv zeta.
    unfold insufficient in Hs.
    destruct (Z.ltb_spec (AD.sample_count (AD.pressure_stats self)) 10);
      [tauto|].
    destruct (PrimFloat.eqb _ 0); [tauto|].
    unfold spec_verdict. rewrite Hz.
    destruct (PrimFloat.leb 3.5 _); eexists; split; reflexivity.
  - intros Hs Hz. rewrite detect_battery_unfold. cbv zeta.
    unfold insufficient in Hs.
    destruct (Z.ltb_spec (AD.sample_count (AD.battery_stats self)) 10);
      [tauto|].
    destruct (PrimFloat.eqb _ 0); [tauto|].
    unfold spec_verdict. rewrite Hz.
    destruct (PrimFloat.leb 3.5 _); eexists; split; reflexivity.
Qed.

Lemma C6_radiation_direction_witness :
  AD._detect_radiation_anomaly (env_at 0) 0 90 detector_sample = None /\
  exists a, AD._detect_pressure_anomaly (env_at 0) 0 90 detector_sample = Some a /\
    AD.anomaly_type a =
      (if PrimFloat.ltb 0 (AD.z_of 90 (AD.pressure_stats detector_sample))
       then "high" else "low").
Proof.
  split.
  - apply (proj1 (C6_radiation_direction (env_at 0) 0 90 detector_sample)).
    reflexivity.
  - apply (proj1 (proj2 (proj2
             (C6_radiation_direction (env_at 0) 0 90 detector_sample)))).
    + intros [H|H]; [simpl in H; lia | discriminate H].
    + reflexivity.
Defined.

(** ** Detection cycle *)

Lemma get_stats_set name st h self st0 :
  AD._get_stats name self = Py.Ok st0 ->
  AD._get_stats name (AD.set_stats name st h self) = Py.Ok st.
Proof.
  unfold AD._get_stats, AD.set_stats; simpl.
  destruct (String.eqb name "pressure"); [reflexivity|].
  destruct (String.eqb name "radiation"); [reflexivity|].
  destruct (String.eqb name "battery"); [reflexivity|discriminate].
Qed.

(** One [update_metric]: the window gains the sample, and the mean and the
    standard deviation of the metric are recomputed over that window. *)
Lemma update_metric_spec name value self self' h :
  AD.history self !! name = Some h ->
  AD.update_metric name value self = Py.Ok self' ->
  let w := AD.push (AD.max_history_size self) value h in
  AD.history self' = <[name := w]> (AD.history self) /\
  AD.max_history_size self' = AD.max_history_size self /\
  exists st st',
    AD._get_stats name self = Py.Ok st /\
    AD._get_stats name self' = Py.Ok st' /\
    AD.sample_count st' = (AD.sample_count st + 1)%Z /\
    ((2 <= length w)%nat -> recomputed w st').
Proof.
  intros Hh H w. unfold AD.update_metric in H.
  apply bind_Ok in H as (st & Hst & H). rewrite Hh in H.
  rewrite lookup_insert_eq in H. cbn [Py.bind] in H. fold w in H.
  destruct (Nat.leb_spec 2 (length w)) as [Hlen|Hlen].
  - apply bind_Ok in H as (squares & Hsq & H). injection H as <-.
    split; [reflexivity|]. split; [reflexivity|].
    exists st. eexists. split; [exact Hst|].
    split; [eapply get_stats_set; exact Hst|].
    split; [reflexivity|]. intros _. split; [reflexivity|].
    exists squares. split; [exact Hsq | reflexivity].
  - injection H as <-.
    split; [reflexivity|]. split; [reflexivity|].
    exists st. eexists. split; [exact Hst|].
    split; [eapply get_stats_set; exact Hst|].
    split; [reflexivity|]. intros ?. lia.
Qed.


Lemma update_metric_shape name value self self' :
  AD.update_metric name value self = Py.Ok self' ->
  exists st h, self' = AD.set_stats name st h self.
Proof.
  unfold AD.update_metric. intros H.
  apply bind_Ok in H as (st & _ & H).
  apply bind_Ok in H as (values & _ & H).
  destruct (2 <=? length values)%nat.
  - apply bind_Ok in H as (squares & _ & H). injection H as <-. eauto.
  - injection H as <-. eauto.
Qed.

(** A cycle updates the three metrics in turn; each metric's statistics
    are those of its own update. *)
Lemma cycle_windows env p r b self alerts self' hp hr hb :
  AD.detect_anomalies env p r b self = Py.Ok (alerts, self') ->
  AD.history self !! "pressure" = Some hp ->
  AD.history self !! "radiation" = Some hr ->
  AD.history self !! "battery" = Some hb ->
  let limit := AD.max_history_size self in
  let wp := AD.push limit p hp in
  let wr := AD.push limit r hr in
  let wb := AD.push limit b hb in
  AD.history self' !! "pressure" = Some wp /\
  AD.history self' !! "radiation" = Some wr /\
  AD.history self' !! "battery" = Some wb /\
  ((2 <= length wp)%nat -> recomputed wp (AD.pressure_stats self')) /\
  ((2 <= length wr)%nat -> recomputed wr (AD.radiation_stats self')) /\
  ((2 <= length wb)%nat -> recomputed wb (AD.battery_stats self')).
Proof.
  intros H Hp Hr Hb limit wp wr wb.
  apply detect_anomalies_inv in H as [(s1 & s2 & H1 & H2 & H3) _].
  destruct (update_metric_spec _ _ _ _ _ Hp H1)
    as (Hh1 & Hm1 & st1 & st1' & _ & Hg1 & _ & Hrec1).
  assert (Hr1 : AD.history s1 !! "radiation" = Some hr)
    by (rewrite Hh1, lookup_insert_ne; [exact Hr | discriminate]).
  destruct (update_metric_spec _ _ _ _ _ Hr1 H2)
    as (Hh2 & Hm2 & st2 & st2' & _ & Hg2 & _ & Hrec2).
  assert (Hb2 : AD.history s2 !! "battery" = Some hb).
  { rewrite Hh2, lookup_insert_ne by discriminate.
    rewrite Hh1, lookup_insert_ne by discriminate. exact Hb. }
  destruct (update_metric_spec _ _ _ _ _ Hb2 H3)
    as (Hh3 & Hm3 & st3 & st3' & _ & Hg3 & _ & Hrec3).
  rewrite Hm1 in Hrec2, Hh2. rewrite Hm2, Hm1 in Hrec3, Hh3.
  fold limit in Hrec1, Hrec2, Hrec3, Hh1, Hh2, Hh3.
  fold wp in Hrec1, Hh1. fold wr in Hrec2, Hh2. fold wb in Hrec3, Hh3.
  apply update_metric_shape in H2 as (x2 & y2 & E2).
  apply update_metric_shape in H3 as (x3 & y3 & E3).
  injection Hg1 as <-. injection Hg2 as <-. injection Hg3 as <-.
  assert (Ep : AD.pressure_stats self' = AD.pressure_stats s1)
    by (rewrite E3, E2; reflexivity).
  assert (Er : AD.radiation_stats self' = AD.radiation_stats s2)
    by (rewrite E3; reflexivity).
  rewrite Ep, Er. rewrite Hh3, Hh2, Hh1.
  split_and!; [| | | exact Hrec1 | exact Hrec2 | exact Hrec3].
  - rewrite lookup_insert_ne by discriminate.
    rewrite lookup_insert_ne by discriminate. apply lookup_insert_eq.
  - rewrite lookup_insert_ne by discriminate. apply lookup_insert_eq.
  - apply lookup_insert_eq.
Qed.





(** ** Decision engine *)

Lemma spec_factor_cases impact_level factor :
  spec_factor impact_level = Some factor ->
  (impact_level = "critical" /\ factor = 2%Q) \/
  (impact_level = "high" /\ factor = (3 # 2)%Q) \/
  (impact_level = "medium" /\ factor = 1%Q) \/
  (impact_level = "low" /\ factor = (1 # 2)%Q).
Proof.
  unfold spec_factor.
  destruct (String.eqb_spec impact_level "critical");
    [intros [= <-]; tauto|].
  destruct (String.eqb_spec impact_level "high"); [intros [= <-]; tauto|].
  destruct (String.eqb_spec impact_level "medium"); [intros [= <-]; tauto|].
  destruct (String.eqb_spec impact_level "low"); [intros [= <-]; tauto|].
  discriminate.
Qed.

Lemma calculate_priority_refines deviation impact_level factor is_critical :
  spec_factor impact_level = Some factor ->
  DE.calculate_priority deviation impact_level is_critical
  = Py.Ok (spec_priority deviation factor is_critical).
Proof.
  intros H.
  apply spec_factor_cases in H as [[-> ->] | [[-> ->] | [[-> ->] | [-> ->]]]];
    unfold DE.calculate_priority, spec_priority, spec_bonus;
    destruct (PrimFloat.ltb 20 _); try (destruct is_critical; reflexivity);
    destruct (PrimFloat.ltb 10 _); try (destruct is_critical; reflexivity);
    destruct (PrimFloat.ltb 5 _); destruct is_critical; reflexivity.
Qed.

Lemma calculate_priority_range deviation impact_level is_critical :
  exists p, DE.calculate_priority deviation impact_level is_critical = Py.Ok p
            /\ (1 <= p <= 10)%Z.
Proof.
  unfold DE.calculate_priority.
  destruct (Py.bind _ _) as [p|e] eqn:E.
  - exists p. split; [reflexivity|]. revert E.
    destruct (Py.int_mul _ _); simpl; [|discriminate].
    destruct (Py.int_ _); simpl; [|discriminate].
    intros [= <-]. lia.
  - exfalso. revert E. unfold DE.impact_multiplier.
    destruct (String.eqb impact_level "critical");
      [|destruct (String.eqb impact_level "high");
        [|destruct (String.eqb impact_level "medium");
          [|destruct (String.eqb impact_level "low")]]];
      (destruct (PrimFloat.ltb 20 _); [vm_compute; discriminate|]);
      (destruct (PrimFloat.ltb 10 _); [vm_compute; discriminate|]);
      (destruct (PrimFloat.ltb 5 _); vm_compute; discriminate).
Qed.

Lemma recommend_ranked env k d lvl crit cat act ttl cur thr conf :
  well_ranked (DE.recommend env k d lvl crit cat act ttl cur thr conf).
Proof.
  unfold DE.recommend.
  destruct (calculate_priority_range d lvl crit) as (p & -> & Hp). simpl.
  eexists. split; [reflexivity|]. intros r [= <-]. exact Hp.
Qed.

Lemma none_ranked : well_ranked (Py.Ok None).
Proof. exists None. split; [reflexivity | discriminate]. Qed.

Ltac ranked :=
  repeat match goal with
         | |- well_ranked (if ?c then _ else _) => destruct c
         end;
  first [apply recommend_ranked | apply none_ranked].

Lemma analyze_oxygen_ranked env k st : well_ranked (DE._analyze_oxygen env k st).
Proof. unfold DE._analyze_oxygen. cbv zeta. ranked. Qed.

Lemma analyze_co2_ranked env k st : well_ranked (DE._analyze_co2 env k st).
Proof. unfold DE._analyze_co2. cbv zeta. ranked. Qed.

Lemma analyze_pressure_ranked env k st :
  well_ranked (DE._analyze_pressure env k st).
Proof. unfold DE._analyze_pressure. cbv zeta. ranked. Qed.

Lemma analyze_temperature_ranked env k st :
  well_ranked (DE._analyze_temperature env k st).
Proof. unfold DE._analyze_temperature. cbv zeta. ranked. Qed.

Lemma analyze_humidity_ranked env k st :
  well_ranked (DE._analyze_humidity env k st).
Proof. unfold DE._analyze_humidity. cbv zeta. ranked. Qed.

Lemma analyze_crop_health_ranked env k st :
  well_ranked (DE._analyze_crop_health env k st).
Proof. unfold DE._analyze_crop_health. cbv zeta. ranked. Qed.

Lemma analyze_battery_ranked env k st :
  well_ranked (DE._analyze_battery env k st).
Proof. unfold DE._analyze_battery. cbv zeta. ranked. Qed.

Lemma analyze_solar_ranked env k st : well_ranked (DE._analyze_solar env k st).
Proof. unfold DE._analyze_solar. cbv zeta. ranked. Qed.

Lemma analyze_load_ranked env k st : well_ranked (DE._analyze_load env k st).
Proof. unfold DE._analyze_load. cbv zeta. ranked. Qed.

Lemma analyze_energy_balance_ranked env k st :
  well_ranked (DE._analyze_energy_balance env k st).
Proof.
  unfold DE._analyze_energy_balance. cbv zeta.
  rewrite truediv_nonzero by reflexivity. cbn [Py.bind].
  rewrite truediv_nonzero by reflexivity. cbn [Py.bind].
  ranked.
Qed.

Lemma append_rec_ranked acc o :
  (forall r, r ∈ acc -> (1 <= DE.priority r <= 10)%Z) ->
  (forall r, o = Some r -> (1 <= DE.priority r <= 10)%Z) ->
  forall r, r ∈ DE.append_rec acc o -> (1 <= DE.priority r <= 10)%Z.
Proof.
  intros Ha Ho r. destruct o as [x|]; simpl; [|apply Ha].
  rewrite elem_of_app, list_elem_of_singleton. intros [H | ->]; auto.
Qed.

Ltac step_analyzer lem :=
  match goal with
  | |- all_ranked (Py.bind (?f ?env ?k ?st) _) =>
      let o := fresh "o" in
      let E := fresh "E" in
      let R := fresh "R" in
      destruct (lem env k st) as (o & E & R); rewrite E; cbn [Py.bind]
  end.

Lemma analyze_life_support_ranked env k st :
  all_ranked (DE._analyze_life_support env k st).
Proof.
  unfold DE._analyze_life_support.
  step_analyzer analyze_oxygen_ranked.
  step_analyzer analyze_co2_ranked.
  step_analyzer analyze_pressure_ranked.
  step_analyzer analyze_temperature_ranked.
  step_analyzer analyze_humidity_ranked.
  step_analyzer analyze_crop_health_ranked.
  eexists. split; [reflexivity|].
  repeat (apply append_rec_ranked; [|assumption]).
  intros r Hr. apply elem_of_nil in Hr. contradiction.
Qed.

Lemma analyze_energy_dispatch_ranked env k st :
  all_ranked (DE._analyze_energy_dispatch env k st).
Proof.
  unfold DE._analyze_energy_dispatch.
  step_analyzer analyze_battery_ranked.
  step_analyzer analyze_solar_ranked.
  step_analyzer analyze_load_ranked.
  step_analyzer analyze_energy_balance_ranked.
  eexists. split; [reflexivity|].
  repeat (apply append_rec_ranked; [|assumption]).
  intros r Hr. apply elem_of_nil in Hr. contradiction.
Qed.

Lemma elem_of_insert_by_priority r x l :
  x ∈ DE.insert_by_priority r l <-> x = r \/ x ∈ l.
Proof.
  induction l as [|y l IH]; simpl.
  - rewrite list_elem_of_singleton. rewrite elem_of_nil. tauto.
  - destruct (DE.priority r <? DE.priority y)%Z.
    + rewrite !elem_of_cons, IH. tauto.
    + rewrite !elem_of_cons. tauto.
Qed.

Lemma elem_of_sort_by_priority x l :
  x ∈ DE.sort_by_priority l <-> x ∈ l.
Proof.
  unfold DE.sort_by_priority. induction l as [|y l IH]; simpl.
  - reflexivity.
  - rewrite elem_of_insert_by_priority, IH, elem_of_cons. tauto.
Qed.

Lemma generate_recommendations_ranked env st :
  all_ranked (DE.generate_recommendations env st).
Proof.
  unfold DE.generate_recommendations.
  destruct (analyze_life_support_ranked env 0 st) as (life & -> & Hl).
  cbn [Py.bind].
  destruct (analyze_energy_dispatch_ranked env (length life) st)
    as (energy & -> & He).
  cbn [Py.bind]. eexists. split; [reflexivity|].
  intros r. rewrite elem_of_sort_by_priority, elem_of_app.
  intros [H|H]; auto.
Qed.

(** C8. For every deviation and critical flag and each of the four impact
    levels, [calculate_priority] returns the priority of the
    specification.  With 19.0 percent oxygen the oxygen analyzer returns
    the action INCREASE_O2_GENERATION with impact critical and priority
    min(10, (5 + 0) * 2 + 2) = 10; and for critical impact with the
    critical flag the priority is 10 whatever the deviation. *)
Theorem C8_priority_formula (env : Env) (k : nat) (deviation : float)
    (is_critical : bool) (state : models.SettlementState) :
  (forall impact_level factor,
     spec_factor impact_level = Some factor ->
     DE.calculate_priority deviation impact_level is_critical
     = Py.Ok (spec_priority deviation factor is_critical)) /\
  (models.o2_pct state = 19.0%float ->
   exists r,
     DE._analyze_oxygen env k state = Py.Ok (Some r) /\
     DE.action r = "INCREASE_O2_GENERATION" /\
     DE.impact r = "critical" /\
     DE.threshold_value r = 20.0%float /\
     DE.calculate_priority (PrimFloat.sub 20.0 19.0) "critical" true
       = Py.Ok (DE.priority r) /\
     DE.priority r = Z.min 10 ((5 + 0) * 2 + 2) /\
     DE.priority r = 10%Z) /\
  DE.calculate_priority deviation "critical" true = Py.Ok 10%Z.
Proof.
  split_and!.
  - intros lvl factor H. now apply calculate_priority_refines.
  - intros H. unfold DE._analyze_oxygen. rewrite H.
    eexists. split; [vm_compute; reflexivity|].
    split_and!; reflexivity.
  - rewrite (calculate_priority_refines deviation "critical" 2%Q true)
      by reflexivity.
    unfold spec_priority, spec_bonus.
    destruct (PrimFloat.ltb 20 _); [reflexivity|].
    destruct (PrimFloat.ltb 10 _); [reflexivity|].
    destruct (PrimFloat.ltb 5 _); reflexivity.
Qed.

Lemma C8_priority_formula_witness :
  DE.calculate_priority 1000 "high" false
  = Py.Ok (spec_priority 1000 (3 # 2)%Q false) /\
  exists r,
    DE._analyze_oxygen (env_at 0) 0 (reading_o2 19.0) = Py.Ok (Some r) /\
    DE.action r = "INCREASE_O2_GENERATION" /\
    DE.impact r = "critical" /\
    DE.priority r = 10%Z.
Proof.
  split.
  - apply (proj1 (C8_priority_formula (env_at 0) 0 1000 false (reading_o2 19.0))).
    reflexivity.
  - destruct (proj1 (proj2 (C8_priority_formula (env_at 0) 0 1000 false
                              (reading_o2 19.0))))
      as (r & H1 & H2 & H3 & _ & _ & _ & H4); [reflexivity|].
    exists r. split_and!; assumption.
Defined.

(** ** Priorities of the safety layer *)

Lemma nothing_high k self : all_high (SL.nothing k self).
Proof. intros r Hr. apply elem_of_nil in Hr. contradiction. Qed.

Lemma raise_alert_high env k a sev cat sys act ttl self :
  all_high (SL.raise_alert env k a sev cat sys act ttl self).
Proof.
  intros r Hr. simpl in Hr. apply list_elem_of_singleton in Hr. now subst.
Qed.

Ltac high :=
  repeat match goal with
         | |- all_high (if ?c then _ else _) => destruct c
         end;
  first [apply raise_alert_high | apply nothing_high].

Lemma check_radiation_high env k st self :
  all_high (SL._check_radiation env k st self).
Proof. unfold SL._check_radiation. cbv zeta. high. Qed.

Lemma check_pressure_critical_high env k st self :
  all_high (SL.check_pressure_critical env k st self).
Proof. unfold SL.check_pressure_critical. high. Qed.

Lemma check_pressure_high env k st self o :
  SL._check_pressure env k st self = Py.Ok o -> all_high o.
Proof.
  rewrite check_pressure_unfold. cbv zeta. intros [= <-]. high.
Qed.

Lemma check_safety_high env st self o :
  SL.check_safety env st self = Py.Ok o -> all_high o.
Proof.
  unfold SL.check_safety. intros H.
  apply bind_Ok in H as (p & Hp & H). injection H as <-.
  apply check_pressure_high in Hp.
  intros r. simpl. rewrite !elem_of_app. intros [H | [H | H]].
  - now apply Hp.
  - eapply check_pressure_critical_high; exact H.
  - eapply check_radiation_high; exact H.
Qed.

(** C3, amended.  The decision engine always returns, and each of its
    recommendations has an integer priority from 1 to 10; every
    recommendation of the safety layer has the string "high" as its
    priority. *)
Theorem C3_priority_by_source (env : Env) (st : models.SettlementState)
    (self : SL.SafetyLayer) :
  (exists l, DE.generate_recommendations env st = Py.Ok l /\
             forall r, r ∈ l -> priority_in_range (engine_priority r)) /\
  (forall o r, SL.check_safety env st self = Py.Ok o ->
               r ∈ SL.recommendations o ->
               safety_priority r = Py.VStr "high").
Proof.
  split.
  - destruct (generate_recommendations_ranked env st) as (l & Hl & Hr).
    exists l. split; [exact Hl|]. intros r H.
    exists (DE.priority r). split; [reflexivity | now apply Hr].
  - intros o r H Hr. unfold safety_priority. f_equal.
    now apply (check_safety_high _ _ _ _ H).
Qed.

(** C3 as stated fails: the recommendation the safety layer returns for a
    pressure of 85.0 kPa has the priority "high", which is no integer. *)
Lemma C3_counterexample :
  exists o r,
    SL.check_safety (env_at 0) (reading 85 0.02) SL.init = Py.Ok o /\
    r ∈ SL.recommendations o /\
    ~ priority_in_range (safety_priority r).
Proof.
  eexists. eexists. split; [vm_compute; reflexivity|].
  split; [apply list_elem_of_here|].
  intros (n & H & _). discriminate H.
Qed.

(** ** Radiation detector and the frame of each detector *)

Lemma check_pressure_frame env k st self o :
  SL._check_pressure env k st self = Py.Ok o ->
  SL.radiation_history (SL.layer o) = SL.radiation_history self /\
  forall a, a <> SL.ALERT_PRESSURE_LEAK ->
            (SL.Active a (SL.layer o) <-> SL.Active a self).
Proof.
  rewrite check_pressure_unfold. cbv zeta. intros [= <-].
  destruct (match spec_leak_rate _ with Some _ => _ | None => _ end).
  - destruct (negb _); split; try reflexivity; intros a Ha.
    rewrite Active_raise. tauto.
  - destruct (_ && _); split; try reflexivity; intros a Ha.
    cbn [SL.layer SL.nothing]. rewrite Active_delete. tauto.
Qed.

Lemma check_pressure_critical_frame env k st self :
  let o := SL.check_pressure_critical env k st self in
  SL.radiation_history (SL.layer o) = SL.radiation_history self /\
  (forall a, a <> SL.ALERT_PRESSURE_CRITICAL ->
             (SL.Active a (SL.layer o) <-> SL.Active a self)) /\
  (forall a, SL.Active a self -> SL.Active a (SL.layer o)).
Proof.
  unfold SL.check_pressure_critical.
  destruct (PrimFloat.ltb _ _); [destruct (negb _)|];
    split_and!; try reflexivity; intros a Ha;
    try rewrite Active_raise; tauto.
Qed.

Lemma critical_ne_leak : SL.ALERT_RADIATION_CRITICAL <> SL.ALERT_PRESSURE_LEAK.
Proof. discriminate. Qed.
Lemma pressure_critical_ne_leak :
  SL.ALERT_PRESSURE_CRITICAL <> SL.ALERT_PRESSURE_LEAK.
Proof. discriminate. Qed.

(** One pass of the radiation detector. *)
Lemma check_radiation_behaviour env k st self :
  let o := SL._check_radiation env k st self in
  let current := models.radiation_msv_hr st in
  let hist := SL.radiation_history self in
  SL.radiation_history (SL.layer o) = hist /\
  (PrimFloat.leb 0.5 current = false ->
   (SL.Active SL.ALERT_RADIATION_SPIKE (SL.layer o)
    <-> RH.is_spike hist current = true)) /\
  (PrimFloat.leb 0.5 current = true ->
   (SL.Active SL.ALERT_RADIATION_SPIKE (SL.layer o)
    <-> SL.Active SL.ALERT_RADIATION_SPIKE self)) /\
  (SL.Active SL.ALERT_RADIATION_CRITICAL self ->
   SL.Active SL.ALERT_RADIATION_CRITICAL (SL.layer o)) /\
  (forall a, a <> SL.ALERT_RADIATION_SPIKE ->
             SL.Active a self -> SL.Active a (SL.layer o)) /\
  (length (SL.alerts o) <= 1)%nat.
Proof.
  unfold SL._check_radiation. cbv zeta. unfold RH.is_critical.
  change SL.RADIATION_CRITICAL_THRESHOLD with 0.5%float.
  destruct (PrimFloat.leb 0.5 _) eqn:Hc;
    [destruct (SL.is_active SL.ALERT_RADIATION_CRITICAL self) eqn:Ha
    |destruct (RH.is_spike _ _) eqn:Hs;
     (destruct (SL.is_active SL.ALERT_RADIATION_SPIKE self) eqn:Ha;
      [apply is_active_true in Ha | apply is_active_false in Ha])];
    cbn [negb andb SL.nothing SL.layer SL.alerts];
    split_and!; try reflexivity; try discriminate;
    try (simpl; lia); intros;
    try rewrite Active_raise; try rewrite Active_delete;
    try tauto;
    try (split; [intros [?|?]; [discriminate | assumption] | tauto]);
    try (split; [tauto | discriminate]);
    try (split; [discriminate | assumption]).
Qed.

Lemma last_n_snoc {A} (n : nat) (l : list A) (x : A) :
  (1 <= n)%nat -> exists l', Py.last_n n (l ++ [x]) = l' ++ [x].
Proof.
  intros Hn. unfold Py.last_n. rewrite length_app. simpl.
  exists (drop (length l + 1 - n) l). apply drop_app_le. lia.
Qed.

Lemma add_reading_stored now x (h : RH.t) :
  let h' := RH.add_reading now x h in
  ((1 <= RH.max_readings h)%nat ->
   last (Py.last_n 5 (RH.readings h')) = Some (now, x)) /\
  ((5 <= length (RH.readings h'))%nat ->
   RH.baseline h' = Some (spec_baseline (RH.readings h'))).
Proof.
  unfold RH.add_reading. cbv zeta. cbn [RH.readings RH.baseline].
  set (kept := if (RH.max_readings h <? length (RH.readings h ++ [(now, x)]))%nat
               then _ else _).
  split.
  - intros Hm.
    assert (exists l', kept = l' ++ [(now, x)]) as (l' & ->).
    { unfold kept. destruct (_ <? _)%nat; [|eauto]. now apply last_n_snoc. }
    destruct (last_n_snoc 5 l' (now, x)) as (l'' & ->); [lia|].
    apply last_snoc.
  - intros Hlen. destruct (Nat.leb_spec 5 (length kept)); [|lia].
    unfold spec_baseline. f_equal. f_equal.
    rewrite length_map. unfold Py.last_n. rewrite length_drop.
    replace (length kept - (length kept - 5))%nat with 5%nat by lia.
    reflexivity.
Qed.




(** C1 fails on the code for the two critical hazards: no check removes
    the critical-pressure or the critical-radiation alert from the active
    set, whatever the reading.  (The leak hazard does clear, see C4, and
    the spike hazard clears on readings below the critical level, see C2.) *)
Theorem C1_critical_hazards_stay_active (env : Env)
    (st : models.SettlementState) (self : SL.SafetyLayer) (o : SL.Outcome) :
  SL.check_safety env st self = Py.Ok o ->
  (SL.Active SL.ALERT_PRESSURE_CRITICAL self ->
   SL.Active SL.ALERT_PRESSURE_CRITICAL (SL.layer o)) /\
  (SL.Active SL.ALERT_RADIATION_CRITICAL self ->
   SL.Active SL.ALERT_RADIATION_CRITICAL (SL.layer o)).
Proof.
  intros H. unfold SL.check_safety in H.
  apply bind_Ok in H as (p & Hp & H). injection H as <-. cbn [SL.layer].
  apply check_pressure_frame in Hp as [_ Hp].
  destruct (check_pressure_critical_frame env (SL.drawn p) st (SL.layer p))
    as (_ & _ & Hc).
  set (c := SL.check_pressure_critical env (SL.drawn p) st (SL.layer p)) in *.
  destruct (check_radiation_behaviour env (SL.drawn c) st (SL.layer c))
    as (_ & _ & _ & _ & Hr & _).
  split; intros Ha.
  - apply Hr; [discriminate|]. apply Hc.
    apply Hp; [apply pressure_critical_ne_leak | exact Ha].
  - apply Hr; [discriminate|]. apply Hc.
    apply Hp; [apply critical_ne_leak | exact Ha].
Qed.

Lemma C1_critical_hazards_stay_active_witness :
  PrimFloat.leb 90 (models.pressure_kpa (reading 101.325 0.02)) = true /\
  SL.Active SL.ALERT_PRESSURE_CRITICAL (SL.layer outcome_recovered).
Proof.
  split; [reflexivity|].
  apply (proj1 (C1_critical_hazards_stay_active (env_at (seconds 5))
                  (reading 101.325 0.02) (after low_pressure)
                  outcome_recovered ltac:(vm_compute; reflexivity))).
  apply is_active_true. vm_compute. reflexivity.
Defined.

(** ** More on the order of binary64 values: NaN and totality *)

Lemma SFcompare_refl (a : spec_float) :
  a <> S754_nan -> SFcompare a a = Some Eq.
Proof.
  destruct a as [s|s| |s m e]; simpl; try congruence; intros _.
  - destruct s; reflexivity.
  - rewrite Z.compare_refl, Pos.compare_cont_refl. destruct s; reflexivity.
Qed.

Lemma SFcompare_None (a b : spec_float) :
  SFcompare a b = None <-> a = S754_nan \/ b = S754_nan.
Proof.
  destruct a as [sa|sa| |sa ma ea], b as [sb|sb| |sb mb eb]; simpl;
    split; intros H; try discriminate; try tauto;
    destruct H; discriminate.
Qed.

Lemma is_nan_spec (x : float) :
  PrimFloat.is_nan x = true <-> Prim2SF x = S754_nan.
Proof.
  unfold PrimFloat.is_nan. rewrite FloatAxioms.eqb_spec. unfold SFeqb. split.
  - intros H. destruct (Prim2SF x) eqn:E; try reflexivity;
      rewrite SFcompare_refl in H by congruence; discriminate.
  - intros ->. reflexivity.
Qed.

Lemma is_nan_false (x : float) :
  PrimFloat.is_nan x = false <-> Prim2SF x <> S754_nan.
Proof.
  rewrite <- is_nan_spec. destruct (PrimFloat.is_nan x); split; congruence.
Qed.

Lemma ltb_nan_l (x y : float) :
  PrimFloat.is_nan x = true -> PrimFloat.ltb x y = false.
Proof. rewrite is_nan_spec, ltb_spec. intros ->. reflexivity. Qed.

Lemma ltb_nan_r (x y : float) :
  PrimFloat.is_nan y = true -> PrimFloat.ltb x y = false.
Proof.
  rewrite is_nan_spec, ltb_spec. intros ->. unfold SFltb.
  destruct (Prim2SF x); reflexivity.
Qed.

Lemma leb_nan_l (x y : float) :
  PrimFloat.is_nan x = true -> PrimFloat.leb x y = false.
Proof. rewrite is_nan_spec, leb_spec. intros ->. reflexivity. Qed.

Lemma leb_nan_r (x y : float) :
  PrimFloat.is_nan y = true -> PrimFloat.leb x y = false.
Proof.
  rewrite is_nan_spec, leb_spec. intros ->. unfold SFleb.
  destruct (Prim2SF x); reflexivity.
Qed.

Lemma eqb_nan_l (x y : float) :
  PrimFloat.is_nan x = true -> PrimFloat.eqb x y = false.
Proof. rewrite is_nan_spec, FloatAxioms.eqb_spec. intros ->. reflexivity. Qed.

Lemma ltb_leb (a b : float) :
  PrimFloat.ltb a b = true -> PrimFloat.leb a b = true.
Proof.
  rewrite ltb_spec, leb_spec. unfold SFltb, SFleb.
  destruct (SFcompare _ _) as [[]|]; congruence.
Qed.

Lemma leb_refl (a : float) :
  PrimFloat.is_nan a = false -> PrimFloat.leb a a = true.
Proof.
  rewrite is_nan_false, leb_spec. intros H. unfold SFleb.
  now rewrite SFcompare_refl.
Qed.

(** Two values that are not NaN are comparable. *)
Lemma not_ltb_leb (a b : float) :
  PrimFloat.is_nan a = false -> PrimFloat.is_nan b = false ->
  PrimFloat.ltb b a = false -> PrimFloat.leb a b = true.
Proof.
  rewrite !is_nan_false, ltb_spec, leb_spec. intros Ha Hb.
  unfold SFltb, SFleb. rewrite (SFcompare_antisym (Prim2SF a) (Prim2SF b)).
  destruct (SFcompare (Prim2SF a) (Prim2SF b)) as [[]|] eqn:E; simpl;
    try congruence.
  apply SFcompare_None in E. tauto.
Qed.

Lemma leb_is_nan_l (a b : float) :
  PrimFloat.leb a b = true -> PrimFloat.is_nan a = false.
Proof.
  intros H. destruct (PrimFloat.is_nan a) eqn:E; [|reflexivity].
  rewrite (leb_nan_l a b E) in H. discriminate.
Qed.

Lemma leb_is_nan_r (a b : float) :
  PrimFloat.leb a b = true -> PrimFloat.is_nan b = false.
Proof.
  intros H. destruct (PrimFloat.is_nan b) eqn:E; [|reflexivity].
  rewrite (leb_nan_r a b E) in H. discriminate.
Qed.

(** NaN is absorbing for the arithmetic. *)
Lemma add_nan_l (x y : float) :
  PrimFloat.is_nan x = true -> PrimFloat.is_nan (PrimFloat.add x y) = true.
Proof. rewrite !is_nan_spec, add_spec. intros ->. reflexivity. Qed.

Lemma add_nan_r (x y : float) :
  PrimFloat.is_nan y = true -> PrimFloat.is_nan (PrimFloat.add x y) = true.
Proof.
  rewrite !is_nan_spec, add_spec. intros ->.
  destruct (Prim2SF x); reflexivity.
Qed.

Lemma sub_nan_l (x y : float) :
  PrimFloat.is_nan x = true -> PrimFloat.is_nan (PrimFloat.sub x y) = true.
Proof. rewrite !is_nan_spec, sub_spec. intros ->. reflexivity. Qed.

Lemma sub_nan_r (x y : float) :
  PrimFloat.is_nan y = true -> PrimFloat.is_nan (PrimFloat.sub x y) = true.
Proof.
  rewrite !is_nan_spec, sub_spec. intros ->.
  destruct (Prim2SF x); reflexivity.
Qed.

Lemma mul_nan_l (x y : float) :
  PrimFloat.is_nan x = true -> PrimFloat.is_nan (PrimFloat.mul x y) = true.
Proof. rewrite !is_nan_spec, mul_spec. intros ->. reflexivity. Qed.

Lemma mul_nan_r (x y : float) :
  PrimFloat.is_nan y = true -> PrimFloat.is_nan (PrimFloat.mul x y) = true.
Proof.
  rewrite !is_nan_spec, mul_spec. intros ->.
  destruct (Prim2SF x); reflexivity.
Qed.

Lemma div_nan_l (x y : float) :
  PrimFloat.is_nan x = true -> PrimFloat.is_nan (PrimFloat.div x y) = true.
Proof. rewrite !is_nan_spec, div_spec. intros ->. reflexivity. Qed.

Lemma div_nan_r (x y : float) :
  PrimFloat.is_nan y = true -> PrimFloat.is_nan (PrimFloat.div x y) = true.
Proof.
  rewrite !is_nan_spec, div_spec. intros ->.
  destruct (Prim2SF x); reflexivity.
Qed.

Lemma abs_nan (x : float) :
  PrimFloat.is_nan x = true -> PrimFloat.is_nan (PrimFloat.abs x) = true.
Proof. rewrite !is_nan_spec, abs_spec. intros ->. reflexivity. Qed.

(** A square root is never below zero. *)
Lemma sqrt_not_negative (x : float) :
  PrimFloat.ltb (PrimFloat.sqrt x) 0 = false.
Proof.
  rewrite ltb_spec, sqrt_spec. unfold SF64sqrt, SFsqrt.
  change (Prim2SF 0) with (S754_zero false).
  destruct (Prim2SF x) as [s|[]| |[] m e]; try reflexivity.
  - destruct (SFsqrt_core_binary prec emax (Z.pos m) e) as [[mz ez] lz].
    unfold binary_round_aux.
    destruct (shr_fexp prec emax mz ez lz) as [mrs' e'].
    destruct (shr_fexp prec emax _ e' loc_Exact) as [mrs'' e''].
    destruct (shr_m mrs''); [reflexivity| |reflexivity].
    destruct (e'' <=? emax - prec)%Z; reflexivity.
Qed.

(** ** Sensor simulator *)

(** [max(lo, min(hi, x))] lies between the bounds for every [x], NaN and
    the infinities included. *)
Lemma clamp_within (lo hi x : float) :
  PrimFloat.leb lo hi = true -> within lo hi (SIM.clamp lo hi x).
Proof.
  intros Hb. unfold within, SIM.clamp, Py.max, Py.min.
  pose proof (leb_is_nan_l _ _ Hb) as Hlo.
  pose proof (leb_is_nan_r _ _ Hb) as Hhi.
  destruct (PrimFloat.ltb x hi) eqn:Hx.
  - destruct (PrimFloat.ltb lo x) eqn:Hl.
    + split; now apply ltb_leb.
    + split; [now apply leb_refl | exact Hb].
  - destruct (PrimFloat.ltb lo hi) eqn:Hl.
    + split; [exact Hb | now apply leb_refl].
    + split; [now apply leb_refl | exact Hb].
Qed.

(** X1. After one pass of the simulator over its sensors every reading
    lies within the bounds of its clamp, whatever the random draws and
    whatever the state before. *)
Theorem X1_sensor_ranges (gauss : nat -> float) (s : models.SystemState) :
  in_sensor_ranges (SIM.update_once gauss s).
Proof.
  unfold in_sensor_ranges, SIM.update_once. cbv zeta.
  cbn [SIM._update_structural SIM._update_agriculture SIM._update_radiation
       SIM._update_power SIM._update_life_support SIM._update_atmosphere
       models.atmosphere models.life_support models.power models.radiation
       models.agriculture models.structural
       models.oxygen_level models.co2_level models.pressure
       models.temperature models.humidity models.water_recovery_rate
       models.waste_processing_efficiency models.air_quality_index
       models.solar_generation models.battery_charge
       models.power_consumption models.energy_storage_level
       models.radiation_level models.shielding_effectiveness
       models.crop_health models.nutrient_levels models.harvest_readiness
       models.rotation_rate models.structural_integrity
       models.module_pressure].
  repeat split_and; apply clamp_within; reflexivity.
Qed.

(** ** Stable descending sort *)

Lemma insert_desc_perm {A} (key : A -> Z) (x : A) (l : list A) :
  Py.insert_desc key x l ≡ₚ x :: l.
Proof.
  induction l as [|y l IH]; simpl; [reflexivity|].
  destruct (key x <? key y)%Z; [|reflexivity].
  rewrite IH. apply Permutation_swap.
Qed.

Lemma sort_desc_perm {A} (key : A -> Z) (l : list A) :
  Py.sort_desc key l ≡ₚ l.
Proof.
  unfold Py.sort_desc. induction l as [|x l IH]; simpl; [reflexivity|].
  rewrite insert_desc_perm. now rewrite IH.
Qed.

Lemma insert_desc_descending {A} (key : A -> Z) (x : A) (l : list A) :
  descending key l -> descending key (Py.insert_desc key x l).
Proof.
  unfold descending. induction 1 as [|y l Hs IH Hy]; simpl.
  - repeat constructor.
  - destruct (Z.ltb_spec (key x) (key y)).
    + constructor; [exact IH|].
      rewrite insert_desc_perm. constructor; [lia | exact Hy].
    + constructor; [now constructor|].
      constructor; [lia|].
      eapply Forall_impl; [exact Hy|]. simpl. intros; lia.
Qed.

Lemma sort_desc_descending {A} (key : A -> Z) (l : list A) :
  descending key (Py.sort_desc key l).
Proof.
  unfold Py.sort_desc. induction l as [|x l IH]; simpl.
  - constructor.
  - now apply insert_desc_descending.
Qed.

Lemma insert_desc_with_key {A} (key : A -> Z) (k : Z) (x : A) (l : list A) :
  descending key l ->
  with_key key k (Py.insert_desc key x l) = with_key key k (x :: l).
Proof.
  unfold descending, with_key. induction 1 as [|y l Hs IH Hy]; [reflexivity|].
  cbn [Py.insert_desc]. destruct (Z.ltb_spec (key x) (key y)); [|reflexivity].
  cbn [List.filter] in *. rewrite IH.
  destruct (Z.eqb_spec (key x) k), (Z.eqb_spec (key y) k);
    try reflexivity. lia.
Qed.

Lemma sort_desc_with_key {A} (key : A -> Z) (k : Z) (l : list A) :
  with_key key k (Py.sort_desc key l) = with_key key k l.
Proof.
  induction l as [|x l IH]; [reflexivity|].
  change (Py.sort_desc key (x :: l))
    with (Py.insert_desc key x (Py.sort_desc key l)).
  rewrite insert_desc_with_key by apply sort_desc_descending.
  unfold with_key in *. cbn [List.filter]. now rewrite IH.
Qed.

Lemma sort_by_priority_desc (l : list DE.Recommendation) :
  DE.sort_by_priority l = Py.sort_desc DE.priority l.
Proof.
  unfold DE.sort_by_priority, Py.sort_desc.
  induction l as [|x l IH]; simpl; [reflexivity|]. rewrite IH.
  generalize (fold_right (Py.insert_desc DE.priority) [] l). intros m.
  induction m as [|y m IHm]; simpl; [reflexivity|]. now rewrite IHm.
Qed.

(** ** Ranked output of the decision engine *)

Lemma append_rec_length acc o :
  (length (DE.append_rec acc o) <= S (length acc))%nat.
Proof. destruct o; simpl; [rewrite length_app; simpl|]; lia. Qed.

Lemma analyze_life_support_length env k st l :
  DE._analyze_life_support env k st = Py.Ok l -> (length l <= 6)%nat.
Proof.
  unfold DE._analyze_life_support. intros H.
  repeat (apply bind_Ok in H as (? & _ & H)). injection H as <-.
  repeat (etransitivity; [apply append_rec_length|]; apply le_n_S).
  simpl. lia.
Qed.

Lemma analyze_energy_dispatch_length env k st l :
  DE._analyze_energy_dispatch env k st = Py.Ok l -> (length l <= 4)%nat.
Proof.
  unfold DE._analyze_energy_dispatch. intros H.
  repeat (apply bind_Ok in H as (? & _ & H)). injection H as <-.
  repeat (etransitivity; [apply append_rec_length|]; apply le_n_S).
  simpl. lia.
Qed.

(** X2. [generate_recommendations] returns the life-support
    recommendations followed by the energy recommendations, reordered so
    that priorities never increase along the list; recommendations of equal
    priority keep their evaluation order; there are at most ten. *)
Theorem X2_recommendations_ranked (env : Env) (st : models.SettlementState) :
  exists life energy l,
    DE._analyze_life_support env 0 st = Py.Ok life /\
    DE._analyze_energy_dispatch env (length life) st = Py.Ok energy /\
    DE.generate_recommendations env st = Py.Ok l /\
    descending DE.priority l /\
    l ≡ₚ life ++ energy /\
    (forall p, with_key DE.priority p l = with_key DE.priority p (life ++ energy)) /\
    (length l <= 10)%nat.
Proof.
  destruct (analyze_life_support_ranked env 0 st) as (life & Hl & _).
  destruct (analyze_energy_dispatch_ranked env (length life) st)
    as (energy & He & _).
  exists life, energy, (DE.sort_by_priority (life ++ energy)).
  split; [exact Hl|]. split; [exact He|].
  split; [unfold DE.generate_recommendations; rewrite Hl; cbn [Py.bind];
          rewrite He; reflexivity|].
  rewrite sort_by_priority_desc.
  split; [apply sort_desc_descending|].
  split; [apply sort_desc_perm|].
  split; [intros p; apply sort_desc_with_key|].
  rewrite sort_desc_perm, length_app.
  apply analyze_life_support_length in Hl.
  apply analyze_energy_dispatch_length in He. lia.
Qed.

(** ** Priority bands *)

Lemma calculate_priority_band deviation impact_level is_critical :
  (impact_level = "critical" /\ is_critical = true) \/
  (is_critical = false /\
   (impact_level = "high" \/ impact_level = "medium" \/ impact_level = "low")) ->
  exists p, DE.calculate_priority deviation impact_level is_critical = Py.Ok p
            /\ in_band impact_level p.
Proof.
  intros [[-> ->] | [-> [-> | [-> | ->]]]];
    unfold DE.calculate_priority;
    destruct (PrimFloat.ltb 20 (PrimFloat.abs deviation));
    try (eexists; split; [vm_compute; reflexivity | unfold in_band; simpl; first [reflexivity | lia]]);
    destruct (PrimFloat.ltb 10 (PrimFloat.abs deviation));
    try (eexists; split; [vm_compute; reflexivity | unfold in_band; simpl; first [reflexivity | lia]]);
    destruct (PrimFloat.ltb 5 (PrimFloat.abs deviation));
    eexists; (split; [vm_compute; reflexivity | unfold in_band; simpl; first [reflexivity | lia]]).
Qed.

Lemma recommend_banded env k d lvl crit cat act ttl cur thr conf :
  (lvl = "critical" /\ crit = true) \/
  (crit = false /\ (lvl = "high" \/ lvl = "medium" \/ lvl = "low")) ->
  well_banded (DE.recommend env k d lvl crit cat act ttl cur thr conf).
Proof.
  intros H. unfold DE.recommend.
  destruct (calculate_priority_band d lvl crit H) as (p & -> & Hp). simpl.
  eexists. split; [reflexivity|]. intros r [= <-]. exact Hp.
Qed.

Lemma none_banded : well_banded (Py.Ok None).
Proof. exists None. split; [reflexivity | discriminate]. Qed.

Ltac banded :=
  repeat match goal with
         | |- well_banded (if ?c then _ else _) => destruct c
         end;
  first [apply none_banded | apply recommend_banded; tauto].

Lemma analyze_oxygen_banded env k st : well_banded (DE._analyze_oxygen env k st).
Proof. unfold DE._analyze_oxygen. cbv zeta. banded. Qed.

Lemma analyze_co2_banded env k st : well_banded (DE._analyze_co2 env k st).
Proof. unfold DE._analyze_co2. cbv zeta. banded. Qed.

Lemma analyze_pressure_banded env k st :
  well_banded (DE._analyze_pressure env k st).
Proof. unfold DE._analyze_pressure. cbv zeta. banded. Qed.

Lemma analyze_temperature_banded env k st :
  well_banded (DE._analyze_temperature env k st).
Proof. unfold DE._analyze_temperature. cbv zeta. banded. Qed.

Lemma analyze_humidity_banded env k st :
  well_banded (DE._analyze_humidity env k st).
Proof. unfold DE._analyze_humidity. cbv zeta. banded. Qed.

Lemma analyze_crop_health_banded env k st :
  well_banded (DE._analyze_crop_health env k st).
Proof. unfold DE._analyze_crop_health. cbv zeta. banded. Qed.

Lemma analyze_battery_banded env k st :
  well_banded (DE._analyze_battery env k st).
Proof. unfold DE._analyze_battery. cbv zeta. banded. Qed.

Lemma analyze_solar_banded env k st : well_banded (DE._analyze_solar env k st).
Proof. unfold DE._analyze_solar. cbv zeta. banded. Qed.

Lemma analyze_load_banded env k st : well_banded (DE._analyze_load env k st).
Proof. unfold DE._analyze_load. cbv zeta. banded. Qed.

Lemma analyze_energy_balance_banded env k st :
  well_banded (DE._analyze_energy_balance env k st).
Proof.
  unfold DE._analyze_energy_balance. cbv zeta.
  rewrite truediv_nonzero by reflexivity. cbn [Py.bind].
  rewrite truediv_nonzero by reflexivity. cbn [Py.bind].
  banded.
Qed.

Lemma append_rec_banded acc o :
  (forall r, r ∈ acc -> in_band (DE.impact r) (DE.priority r)) ->
  (forall r, o = Some r -> in_band (DE.impact r) (DE.priority r)) ->
  forall r, r ∈ DE.append_rec acc o -> in_band (DE.impact r) (DE.priority r).
Proof.
  intros Ha Ho r. destruct o as [x|]; simpl; [|apply Ha].
  rewrite elem_of_app, list_elem_of_singleton. intros [H | ->]; auto.
Qed.

Ltac step_banded lem :=
  match goal with
  | |- all_banded (Py.bind (?f ?env ?k ?st) _) =>
      let o := fresh "o" in
      let E := fresh "E" in
      let R := fresh "R" in
      destruct (lem env k st) as (o & E & R); rewrite E; cbn [Py.bind]
  end.

Lemma analyze_life_support_banded env k st :
  all_banded (DE._analyze_life_support env k st).
Proof.
  unfold DE._analyze_life_support.
  step_banded analyze_oxygen_banded.
  step_banded analyze_co2_banded.
  step_banded analyze_pressure_banded.
  step_banded analyze_temperature_banded.
  step_banded analyze_humidity_banded.
  step_banded analyze_crop_health_banded.
  eexists. split; [reflexivity|].
  repeat (apply append_rec_banded; [|assumption]).
  intros r Hr. apply elem_of_nil in Hr. contradiction.
Qed.

Lemma analyze_energy_dispatch_banded env k st :
  all_banded (DE._analyze_energy_dispatch env k st).
Proof.
  unfold DE._analyze_energy_dispatch.
  step_banded analyze_battery_banded.
  step_banded analyze_solar_banded.
  step_banded analyze_load_banded.
  step_banded analyze_energy_balance_banded.
  eexists. split; [reflexivity|].
  repeat (apply append_rec_banded; [|assumption]).
  intros r Hr. apply elem_of_nil in Hr. contradiction.
Qed.

(** X3. Every recommendation of the decision engine is ranked within the
    band of its impact level: critical at 10, high from 7 to 10, medium
    from 5 to 8, low from 2 to 4.  So a low-impact recommendation always
    comes after every medium, high or critical one in the ranked list. *)
Theorem X3_priority_bands (env : Env) (st : models.SettlementState) :
  exists l, DE.generate_recommendations env st = Py.Ok l /\
    (forall r, r ∈ l -> in_band (DE.impact r) (DE.priority r)) /\
    (forall r r', r ∈ l -> r' ∈ l ->
       DE.impact r = "low" -> DE.impact r' <> "low" ->
       (DE.priority r < DE.priority r')%Z).
Proof.
  unfold DE.generate_recommendations.
  destruct (analyze_life_support_banded env 0 st) as (life & -> & Hl).
  cbn [Py.bind].
  destruct (analyze_energy_dispatch_banded env (length life) st)
    as (energy & -> & He).
  cbn [Py.bind]. eexists. split; [reflexivity|].
  assert (Hb : forall r, r ∈ DE.sort_by_priority (life ++ energy) ->
                         in_band (DE.impact r) (DE.priority r)).
  { intros r. rewrite elem_of_sort_by_priority, elem_of_app.
    intros [H|H]; auto. }
  split; [exact Hb|].
  intros r r' Hr Hr' Hlow Hn. apply Hb in Hr, Hr'.
  rewrite Hlow in Hr. unfold in_band in Hr, Hr'. simpl in Hr.
  destruct (String.eqb (DE.impact r') "critical"); [lia|].
  destruct (String.eqb (DE.impact r') "high"); [lia|].
  destruct (String.eqb (DE.impact r') "medium"); [lia|].
  destruct (String.eqb_spec (DE.impact r') "low"); [congruence|contradiction].
Qed.

(** ** NaN readings in the decision engine *)

(** X4. A reading that is NaN yields no recommendation for its dimension:
    every threshold comparison is false on it.  For the energy balance this
    holds when the solar or the load reading is NaN. *)
Theorem X4_nan_reading_no_recommendation (env : Env) (k : nat)
    (st : models.SettlementState) :
  (PrimFloat.is_nan (models.o2_pct st) = true ->
   DE._analyze_oxygen env k st = Py.Ok None) /\
  (PrimFloat.is_nan (models.co2_ppm st) = true ->
   DE._analyze_co2 env k st = Py.Ok None) /\
  (PrimFloat.is_nan (models.pressure_kpa st) = true ->
   DE._analyze_pressure env k st = Py.Ok None) /\
  (PrimFloat.is_nan (models.temp_c st) = true ->
   DE._analyze_temperature env k st = Py.Ok None) /\
  (PrimFloat.is_nan (models.humidity_pct st) = true ->
   DE._analyze_humidity env k st = Py.Ok None) /\
  (PrimFloat.is_nan (models.crop_health_index st) = true ->
   DE._analyze_crop_health env k st = Py.Ok None) /\
  (PrimFloat.is_nan (models.battery_kwh st) = true ->
   DE._analyze_battery env k st = Py.Ok None) /\
  (PrimFloat.is_nan (models.solar_kw st) = true ->
   DE._analyze_solar env k st = Py.Ok None) /\
  (PrimFloat.is_nan (models.load_kw st) = true ->
   DE._analyze_load env k st = Py.Ok None) /\
  (PrimFloat.is_nan (models.solar_kw st) = true \/
   PrimFloat.is_nan (models.load_kw st) = true ->
   DE._analyze_energy_balance env k st = Py.Ok None).
Proof.
  split_and!; intros H.
  - unfold DE._analyze_oxygen. cbv zeta.
    now rewrite !(ltb_nan_l _ _ H), (ltb_nan_r _ _ H).
  - unfold DE._analyze_co2. cbv zeta. now rewrite !(ltb_nan_r _ _ H).
  - unfold DE._analyze_pressure. cbv zeta.
    now rewrite !(ltb_nan_l _ _ H), (ltb_nan_r _ _ H).
  - unfold DE._analyze_temperature. cbv zeta.
    now rewrite (ltb_nan_l _ _ H), (ltb_nan_r _ _ H).
  - unfold DE._analyze_humidity. cbv zeta.
    now rewrite (ltb_nan_l _ _ H), (ltb_nan_r _ _ H).
  - unfold DE._analyze_crop_health. cbv zeta. now rewrite !(ltb_nan_l _ _ H).
  - unfold DE._analyze_battery. cbv zeta.
    now rewrite !(ltb_nan_l _ _ H), (ltb_nan_r _ _ H).
  - unfold DE._analyze_solar. cbv zeta. now rewrite (ltb_nan_l _ _ H).
  - unfold DE._analyze_load. cbv zeta. now rewrite !(ltb_nan_r _ _ H).
  - assert (Hn : PrimFloat.is_nan
                   (PrimFloat.sub (models.solar_kw st) (models.load_kw st)) = true)
      by (destruct H; [now apply sub_nan_l | now apply sub_nan_r]).
    unfold DE._analyze_energy_balance. cbv zeta.
    rewrite truediv_nonzero by reflexivity. cbn [Py.bind].
    rewrite truediv_nonzero by reflexivity. cbn [Py.bind].
    now rewrite !(ltb_nan_l _ _ Hn), (ltb_nan_r _ _ Hn).
Qed.

Lemma X4_nan_reading_no_recommendation_witness :
  DE._analyze_oxygen (env_at 0) 0 (reading_o2 PrimFloat.nan) = Py.Ok None.
Proof.
  apply (proj1 (X4_nan_reading_no_recommendation (env_at 0) 0
                  (reading_o2 PrimFloat.nan))).
  reflexivity.
Defined.

(** ** Filters of the recommendations endpoint *)

Lemma filter_descending {A} (key : A -> Z) (f : A -> bool) (l : list A) :
  descending key l -> descending key (List.filter f l).
Proof.
  unfold descending. induction 1 as [|x l Hs IH Hx]; simpl; [constructor|].
  destruct (f x); [|exact IH]. constructor; [exact IH|].
  rewrite Forall_forall in *. intros y Hy.
  apply list_elem_of_In, List.filter_In in Hy as [Hy _].
  apply Hx. now apply list_elem_of_In.
Qed.

Lemma filter_all {A} (f : A -> bool) (l : list A) :
  (forall x, x ∈ l -> f x = true) -> List.filter f l = l.
Proof.
  induction l as [|x l IH]; simpl; [reflexivity|]. intros H.
  rewrite (H x) by apply list_elem_of_here. f_equal. apply IH.
  intros y Hy. apply H. now apply list_elem_of_further.
Qed.

(** The engine's list: it returns, ranked highest first, every priority
    from 1 to 10. *)
Lemma generated_ranked (env : Env) (st : models.SettlementState) :
  exists l, DE.generate_recommendations env st = Py.Ok l /\
            descending DE.priority l /\
            forall r, r ∈ l -> (1 <= DE.priority r <= 10)%Z.
Proof.
  destruct (generate_recommendations_ranked env st) as (l & Hl & Hr).
  exists l. split; [exact Hl|]. split; [|exact Hr].
  unfold DE.generate_recommendations in Hl.
  apply bind_Ok in Hl as (life & _ & Hl).
  apply bind_Ok in Hl as (energy & _ & Hl). injection Hl as <-.
  rewrite sort_by_priority_desc. apply sort_desc_descending.
Qed.

(** X5. The recommendations endpoint always answers; what it returns is
    still ranked highest first, every entry is one of the engine's
    recommendations at or above the requested minimum priority and of the
    requested category; and with a minimum priority of at most 1 and no
    category (or the empty one) nothing is filtered out. *)
Theorem X5_endpoint_filters (env : Env) (st : models.SettlementState)
    (cat : option string) (min_priority : Z) :
  exists generated l,
    DE.generate_recommendations env st = Py.Ok generated /\
    RD.get_recommendations env st cat min_priority = Py.Ok l /\
    descending DE.priority l /\
    (forall r, r ∈ l ->
       r ∈ generated /\ (min_priority <= DE.priority r)%Z /\
       (forall c, cat = Some c -> c <> "" -> DE.category r = c)) /\
    ((min_priority <= 1)%Z -> cat = None \/ cat = Some "" -> l = generated).
Proof.
  destruct (generated_ranked env st) as (generated & Hg & Hd & Hr).
  exists generated. eexists. split; [exact Hg|].
  unfold RD.get_recommendations. rewrite Hg. cbn [Py.bind].
  split; [reflexivity|]. unfold RD.apply_filters.
  split; [|split].
  - apply filter_descending.
    destruct cat as [c|]; [destruct (String.eqb c "")|]; try exact Hd.
    now apply filter_descending.
  - intros r Hin.
    apply list_elem_of_In, List.filter_In in Hin as [Hin Hp].
    apply Z.leb_le in Hp. destruct cat as [c|].
    + destruct (String.eqb_spec c "") as [->|Hne].
      * split; [now apply list_elem_of_In|]. split; [exact Hp|].
        intros c' [= <-] Hc. congruence.
      * apply List.filter_In in Hin as [Hin Hc].
        split; [now apply list_elem_of_In|]. split; [exact Hp|].
        intros c' [= <-] _. now apply String.eqb_eq.
    + split; [now apply list_elem_of_In|]. split; [exact Hp|].
      intros c' Hc. discriminate.
  - intros Hm Hc.
    assert (Hcat : match cat with
                   | Some c => if String.eqb c "" then generated
                               else List.filter
                                      (fun r => String.eqb (DE.category r) c)
                                      generated
                   | None => generated
                   end = generated)
      by (destruct Hc as [-> | ->]; reflexivity).
    rewrite Hcat. apply filter_all. intros r Hin.
    apply Z.leb_le. specialize (Hr r Hin). lia.
Qed.

(** ** Alert store *)

Lemma find_alert_None alert_id db :
  RA.find_alert alert_id db = None <->
  forall a, a ∈ db -> models.id a <> alert_id.
Proof.
  unfold RA.find_alert. induction db as [|x db IH]; simpl.
  - split; [intros _ a Ha; apply elem_of_nil in Ha; contradiction | reflexivity].
  - destruct (String.eqb_spec (models.id x) alert_id) as [E|E].
    + split; [discriminate|]. intros H. exfalso.
      apply (H x); [apply list_elem_of_here | exact E].
    + rewrite IH. split.
      * intros H a Ha. apply elem_of_cons in Ha as [-> | Ha]; auto.
      * intros H a Ha. apply H. now apply list_elem_of_further.
Qed.

Lemma find_alert_Some alert_id db a :
  RA.find_alert alert_id db = Some a ->
  exists pre post,
    db = pre ++ a :: post /\ models.id a = alert_id /\
    (forall x, x ∈ pre -> models.id x <> alert_id) /\
    RA.resolve_first alert_id db = pre ++ RA.set_resolved a :: post.
Proof.
  unfold RA.find_alert. induction db as [|x db IH]; simpl; [discriminate|].
  destruct (String.eqb_spec (models.id x) alert_id) as [E|E].
  - intros [= <-]. exists [], db. split; [reflexivity|]. split; [exact E|].
    split; [|reflexivity]. intros y Hy. apply elem_of_nil in Hy. contradiction.
  - intros H. destruct (IH H) as (pre & post & -> & Hid & Hpre & Hres).
    exists (x :: pre), post. split; [reflexivity|]. split; [exact Hid|].
    split; [|simpl; now rewrite Hres].
    intros y Hy. apply elem_of_cons in Hy as [-> | Hy]; auto.
Qed.

Lemma find_alert_app alert_id pre a post :
  (forall x, x ∈ pre -> models.id x <> alert_id) ->
  models.id a = alert_id ->
  RA.find_alert alert_id (pre ++ a :: post) = Some a.
Proof.
  unfold RA.find_alert. intros Hpre Ha. induction pre as [|x pre IH]; simpl.
  - apply String.eqb_eq in Ha. now rewrite Ha.
  - destruct (String.eqb_spec (models.id x) alert_id) as [E|E].
    + exfalso. apply (Hpre x); [apply list_elem_of_here | exact E].
    + apply IH. intros y Hy. apply Hpre. now apply list_elem_of_further.
Qed.

(** X6. [resolve_alert] answers not-found exactly when no stored alert has
    the id.  Otherwise it marks the first alert with that id as resolved and
    changes nothing else in the store: the alerts before it do not have the
    id, all other alerts and the length of the store are kept, the answer is
    the resolved alert, a later [get_alert] finds it, and resolving again
    gives the same answer and store. *)
Theorem X6_resolve_alert (alert_id : string) (db : list models.Alert) :
  (RA.resolve_alert alert_id db = None <->
   forall a, a ∈ db -> models.id a <> alert_id) /\
  (forall a db',
     RA.resolve_alert alert_id db = Some (a, db') ->
     models.id a = alert_id /\ models.resolved a = true /\
     length db' = length db /\
     (exists pre old post,
        db = pre ++ old :: post /\ db' = pre ++ a :: post /\
        a = RA.set_resolved old /\
        forall x, x ∈ pre -> models.id x <> alert_id) /\
     RA.get_alert alert_id db' = Some a /\
     RA.resolve_alert alert_id db' = Some (a, db')).
Proof.
  split.
  - unfold RA.resolve_alert. rewrite <- find_alert_None.
    destruct (RA.find_alert alert_id db); split; congruence.
  - intros a db'. unfold RA.resolve_alert.
    destruct (RA.find_alert alert_id db) as [old|] eqn:E; [|discriminate].
    intros [= <- <-].
    destruct (find_alert_Some _ _ _ E) as (pre & post & -> & Hid & Hpre & Hres).
    rewrite Hres.
    assert (Hf : RA.find_alert alert_id (pre ++ RA.set_resolved old :: post)
                 = Some (RA.set_resolved old))
      by (apply find_alert_app; [exact Hpre | exact Hid]).
    split_and!.
    + exact Hid.
    + reflexivity.
    + rewrite !length_app. reflexivity.
    + exists pre, old, post. split_and!; try reflexivity. exact Hpre.
    + exact Hf.
    + rewrite Hf.
      destruct (find_alert_Some _ _ _ Hf) as (pre' & post' & E' & _ & _ & ->).
      change (RA.set_resolved (RA.set_resolved old)) with (RA.set_resolved old).
      rewrite <- E'. reflexivity.
Qed.

Lemma X6_resolve_alert_witness :
  models.id (RA.set_resolved (stored_alert "a-1" 20)) = "a-1" /\
  models.resolved (RA.set_resolved (stored_alert "a-1" 20)) = true /\
  length [stored_alert "a-0" 10; RA.set_resolved (stored_alert "a-1" 20);
          stored_alert "a-2" 30] = length store_sample.
Proof.
  destruct (proj2 (X6_resolve_alert "a-1" store_sample)
              (RA.set_resolved (stored_alert "a-1" 20))
              [stored_alert "a-0" 10; RA.set_resolved (stored_alert "a-1" 20);
               stored_alert "a-2" 30])
    as (H1 & H2 & H3 & _); [reflexivity|].
  split_and!; assumption.
Defined.

Lemma take_descending {A} (key : A -> Z) (n : nat) (l : list A) :
  descending key l -> descending key (take n l).
Proof.
  unfold descending. intros H. rewrite <- (take_drop n l) in H.
  now apply StronglySorted_app_1_l in H.
Qed.

(** X7. [get_alerts] returns at most [limit] alerts, newest first; each of
    them is in the store and passes every filter that is given (a filter on
    the empty system name is no filter); without filters and with a limit
    that covers the store, every stored alert is returned. *)
Theorem X7_get_alerts (sev : option models.AlertSeverity) (sys : option string)
    (res : option bool) (limit : nat) (db : list models.Alert) :
  let l := RA.get_alerts sev sys res limit db in
  (length l <= limit)%nat /\
  descending models.timestamp l /\
  (forall a, a ∈ l ->
     a ∈ db /\
     (forall s, sev = Some s -> models.severity a = s) /\
     (forall s, sys = Some s -> s <> "" -> models.system a = s) /\
     (forall r, res = Some r -> models.resolved a = r)) /\
  (sev = None -> sys = None \/ sys = Some "" -> res = None ->
   (length db <= limit)%nat -> l ≡ₚ db).
Proof.
  intros l. unfold RA.get_alerts in l. cbv zeta in l.
  set (f1 := match sev with
             | Some s => List.filter (fun a => RA.severity_eqb (models.severity a) s) db
             | None => db end) in *.
  set (f2 := match sys with
             | Some s => if String.eqb s "" then f1
                         else List.filter (fun a => String.eqb (models.system a) s) f1
             | None => f1 end) in *.
  set (f3 := match res with
             | Some r => List.filter (fun a => Bool.eqb (models.resolved a) r) f2
             | None => f2 end) in *.
  split_and!.
  - subst l. rewrite length_take. lia.
  - subst l. apply take_descending, sort_desc_descending.
  - intros a Ha. subst l.
    apply subseteq_take in Ha.
    assert (Ha' : a ∈ f3)
      by (now rewrite <- (sort_desc_perm models.timestamp f3)).
    clear Ha.
    assert (H3 : a ∈ f2 /\ forall r, res = Some r -> models.resolved a = r).
    { subst f3. destruct res as [r|].
      - apply list_elem_of_In, List.filter_In in Ha' as [Ha' Hr].
        split; [now apply list_elem_of_In|]. intros r' [= <-].
        now apply Bool.eqb_prop.
      - split; [exact Ha' | discriminate]. }
    destruct H3 as [H2 Hres].
    assert (H2' : a ∈ f1 /\
                  forall s, sys = Some s -> s <> "" -> models.system a = s).
    { subst f2. destruct sys as [s|].
      - destruct (String.eqb_spec s "") as [->|Hne].
        + split; [exact H2|]. intros s' [= <-] Hs. congruence.
        + apply list_elem_of_In, List.filter_In in H2 as [H2 Hs].
          split; [now apply list_elem_of_In|]. intros s' [= <-] _.
          now apply String.eqb_eq.
      - split; [exact H2 | discriminate]. }
    destruct H2' as [H1 Hsys].
    assert (H1' : a ∈ db /\ forall s, sev = Some s -> models.severity a = s).
    { subst f1. destruct sev as [s|].
      - apply list_elem_of_In, List.filter_In in H1 as [H1 Hs].
        split; [now apply list_elem_of_In|]. intros s' [= <-].
        destruct (models.severity a), s; simpl in Hs; congruence.
      - split; [exact H1 | discriminate]. }
    destruct H1' as [H0 Hsev]. split_and!; assumption.
  - intros -> Hsys -> Hlen. subst l f3 f2 f1.
    assert (E : match sys with
                | Some s => if String.eqb s "" then db
                            else List.filter
                                   (fun a => String.eqb (models.system a) s) db
                | None => db end = db)
      by (destruct Hsys as [-> | ->]; reflexivity).
    rewrite E. rewrite take_ge; [apply sort_desc_perm|].
    now rewrite sort_desc_perm.
Qed.

(** ** Snapshot from telemetry *)

(** X8. [update_settlement_state_from_telemetry] leaves the fields of every
    absent section as they were, so a message without any of the five
    sections leaves the snapshot unchanged.  With a structural section the
    strain index ends within 0 and 1 whatever the integrity reading is, and
    a NaN integrity gives the strain index 1. *)
Theorem X8_telemetry_sections (state : models.SettlementState)
    (telemetry : gmap string (gmap string float)) :
  let state' := models.update_settlement_state_from_telemetry state telemetry in
  (telemetry !! "atmosphere" = None ->
   models.o2_pct state' = models.o2_pct state /\
   models.co2_ppm state' = models.co2_ppm state /\
   models.pressure_kpa state' = models.pressure_kpa state /\
   models.temp_c state' = models.temp_c state /\
   models.humidity_pct state' = models.humidity_pct state) /\
  (telemetry !! "power" = None ->
   models.solar_kw state' = models.solar_kw state /\
   models.battery_kwh state' = models.battery_kwh state /\
   models.load_kw state' = models.load_kw state) /\
  (telemetry !! "agriculture" = None ->
   models.crop_health_index state' = models.crop_health_index state) /\
  (telemetry !! "radiation" = None ->
   models.radiation_msv_hr state' = models.radiation_msv_hr state) /\
  (telemetry !! "structural" = None ->
   models.strain_index state' = models.strain_index state) /\
  (telemetry !! "atmosphere" = None -> telemetry !! "power" = None ->
   telemetry !! "agriculture" = None -> telemetry !! "radiation" = None ->
   telemetry !! "structural" = None -> state' = state) /\
  (forall s, telemetry !! "structural" = Some s ->
             within 0 1 (models.strain_index state')) /\
  (forall s v, telemetry !! "structural" = Some s ->
               s !! "structural_integrity" = Some v ->
               PrimFloat.is_nan v = true ->
               models.strain_index state' = 1%float).
Proof.
  intros state'. subst state'.
  unfold models.update_settlement_state_from_telemetry. cbv zeta.
  split_and!.
  - intros ->. split_and!; reflexivity.
  - intros ->. split_and!; reflexivity.
  - intros ->. reflexivity.
  - intros ->. reflexivity.
  - intros ->. reflexivity.
  - intros -> -> -> -> ->. destruct state; reflexivity.
  - intros s ->. cbn [models.strain_index].
    apply (clamp_within 0 1). reflexivity.
  - intros s v -> Hv Hn. cbn [models.strain_index].
    unfold models.get. rewrite Hv.
    assert (Hq : PrimFloat.is_nan
                   (PrimFloat.div (PrimFloat.sub 100 v) 100) = true)
      by (apply div_nan_l, sub_nan_r, Hn).
    unfold Py.min. rewrite (ltb_nan_l _ _ Hq). reflexivity.
Qed.

Lemma X8_telemetry_sections_witness :
  models.update_settlement_state_from_telemetry models.default_state ∅
  = models.default_state /\
  models.strain_index
    (models.update_settlement_state_from_telemetry models.default_state
       telemetry_nan_integrity) = 1%float.
Proof.
  split.
  - apply (X8_telemetry_sections models.default_state ∅); reflexivity.
  - apply (X8_telemetry_sections models.default_state telemetry_nan_integrity)
      with (s := <["structural_integrity" := PrimFloat.nan]> ∅)
           (v := PrimFloat.nan);
      reflexivity.
Defined.

(** X9. With a telemetry message that carries all eleven readings, the
    snapshot built from it does not depend on the snapshot before: no field
    keeps a stale value. *)
Theorem X9_complete_telemetry_overrides (s1 s2 : models.SettlementState)
    (telemetry : gmap string (gmap string float)) :
  complete telemetry ->
  models.update_settlement_state_from_telemetry s1 telemetry
  = models.update_settlement_state_from_telemetry s2 telemetry.
Proof.
  unfold complete, has.
  intros ((a1 & v1 & Ha1 & Hv1) & (a2 & v2 & Ha2 & Hv2) & (a3 & v3 & Ha3 & Hv3)
          & (a4 & v4 & Ha4 & Hv4) & (a5 & v5 & Ha5 & Hv5)
          & (p1 & w1 & Hp1 & Hw1) & (p2 & w2 & Hp2 & Hw2)
          & (p3 & w3 & Hp3 & Hw3) & (g & x & Hg & Hx) & (r & y & Hr & Hy)
          & (t & z & Ht & Hz)).
  rewrite Ha1 in Ha2, Ha3, Ha4, Ha5.
  injection Ha2 as <-. injection Ha3 as <-. injection Ha4 as <-.
  injection Ha5 as <-.
  rewrite Hp1 in Hp2, Hp3. injection Hp2 as <-. injection Hp3 as <-.
  unfold models.update_settlement_state_from_telemetry. cbv zeta.
  rewrite Ha1, Hp1, Hg, Hr, Ht. unfold models.get.
  rewrite Hv1, Hv2, Hv3, Hv4, Hv5, Hw1, Hw2, Hw3, Hx, Hy, Hz. reflexivity.
Qed.

Lemma X9_complete_telemetry_overrides_witness :
  models.update_settlement_state_from_telemetry models.default_state
    telemetry_sample
  = models.update_settlement_state_from_telemetry other_state telemetry_sample.
Proof.
  apply X9_complete_telemetry_overrides.
  unfold complete, has.
  split_and!; eexists; eexists; (split; reflexivity).
Defined.

(** ** Alerts, recommendations and approvals of one check *)

Lemma nothing_paired env k s s' :
  SL.pending_approvals s' = SL.pending_approvals s ->
  step_paired env k s (SL.nothing k s').
Proof.
  intros E. unfold step_paired, unapproved_at. simpl. rewrite E.
  split_and!; try reflexivity; try lia; auto.
  intros r Hr. apply elem_of_nil in Hr. contradiction.
Qed.

Lemma raise_alert_paired env k a sev cat sys act ttl s :
  step_paired env k s (SL.raise_alert env k a sev cat sys act ttl s).
Proof.
  unfold step_paired, unapproved_at. simpl. split_and!; try reflexivity; try lia.
  - intros r Hr. apply list_elem_of_singleton in Hr. subst r. simpl.
    split; [reflexivity|]. eexists. rewrite lookup_insert_eq. split; reflexivity.
  - intros rid (ap & Hap & Hun).
    destruct (decide (uuid4 env (S k) = rid)) as [<-|Hne].
    + eexists. rewrite lookup_insert_eq. split; reflexivity.
    + exists ap. rewrite lookup_insert_ne by exact Hne. split; assumption.
  - intros rid H. apply lookup_insert_ne. apply H. lia.
Qed.

Lemma check_pressure_paired env k st s o :
  SL._check_pressure env k st s = Py.Ok o -> step_paired env k s o.
Proof.
  rewrite check_pressure_unfold. cbv zeta. intros [= <-].
  destruct (match spec_leak_rate _ with Some _ => _ | None => _ end).
  - destruct (negb _); [apply raise_alert_paired | now apply nothing_paired].
  - destruct (_ && _); now apply nothing_paired.
Qed.

Lemma check_pressure_critical_paired env k st s :
  step_paired env k s (SL.check_pressure_critical env k st s).
Proof.
  unfold SL.check_pressure_critical.
  destruct (PrimFloat.ltb _ _); [destruct (negb _)|];
    first [apply raise_alert_paired | now apply nothing_paired].
Qed.

Lemma check_radiation_paired env k st s :
  step_paired env k s (SL._check_radiation env k st s).
Proof.
  unfold SL._check_radiation. cbv zeta.
  destruct (RH.is_critical _ _); [destruct (negb _)|];
    [apply raise_alert_paired | now apply nothing_paired |].
  destruct (RH.is_spike _ _); [destruct (negb _)|];
    [apply raise_alert_paired | now apply nothing_paired |].
  destruct (_ && _); now apply nothing_paired.
Qed.

Lemma check_safety_steps env st self o :
  SL.check_safety env st self = Py.Ok o ->
  exists s1 p c r,
    SL.pending_approvals s1 = SL.pending_approvals self /\
    SL.active_alerts s1 = SL.active_alerts self /\
    step_paired env 0 s1 p /\
    step_paired env (SL.drawn p) (SL.layer p) c /\
    step_paired env (SL.drawn c) (SL.layer c) r /\
    SL.alerts o = SL.alerts p ++ SL.alerts c ++ SL.alerts r /\
    SL.recommendations o
    = SL.recommendations p ++ SL.recommendations c ++ SL.recommendations r /\
    SL.layer o = SL.layer r /\ SL.drawn o = SL.drawn r.
Proof.
  unfold SL.check_safety. intros H.
  apply bind_Ok in H as (p & Hp & H). injection H as <-.
  eexists _, p, _, _. split; [|split; [|split; [|split; [|split]]]].
  3: { eapply check_pressure_paired. exact Hp. }
  3: { apply check_pressure_critical_paired. }
  3: { apply check_radiation_paired. }
  - reflexivity.
  - reflexivity.
  - split_and!; reflexivity.
Qed.

Lemma check_safety_total env st self :
  exists o, SL.check_safety env st self = Py.Ok o.
Proof.
  unfold SL.check_safety.
  match goal with
  | |- context [SL._check_pressure ?e ?k ?s ?l] =>
      destruct (check_pressure_behaviour e k s l) as (p & Hp & _)
  end.
  rewrite Hp. cbn [Py.bind]. eauto.
Qed.

(** X10. [check_safety] always returns.  It returns as many recommendations
    as alerts, at most three of each, and draws two identifiers per alert.
    Every recommendation it returns requires action and has, in the layer
    afterwards, a pending approval under its id that is not approved; and
    every approval that was pending before is still pending. *)
Theorem X10_check_pairs (env : Env) (st : models.SettlementState)
    (self : SL.SafetyLayer) :
  exists o,
    SL.check_safety env st self = Py.Ok o /\
    length (SL.alerts o) = length (SL.recommendations o) /\
    (length (SL.alerts o) <= 3)%nat /\
    SL.drawn o = (2 * length (SL.alerts o))%nat /\
    (forall r, r ∈ SL.recommendations o ->
       models.action_required r = true /\
       unapproved_at (SL.layer o) (models.rec_id r)) /\
    (forall rid, unapproved_at self rid -> unapproved_at (SL.layer o) rid).
Proof.
  destruct (check_safety_total env st self) as (o & Ho). exists o.
  split; [exact Ho|].
  destruct (check_safety_steps _ _ _ _ Ho)
    as (s1 & p & c & r & Es & _ & Pp & Pc & Pr & Ea & Er & El & Ed).
  destruct Pp as (Lp & Bp & Dp & Rp & Up & _).
  destruct Pc as (Lc & Bc & Dc & Rc & Uc & _).
  destruct Pr as (Lr & Br & Dr & Rr & Ur & _).
  rewrite Ea, Er, El, Ed, !length_app. split_and!; try lia.
  - intros x Hx. rewrite !elem_of_app in Hx. destruct Hx as [Hx | [Hx | Hx]].
    + destruct (Rp x Hx) as [? ?]. auto.
    + destruct (Rc x Hx) as [? ?]. auto.
    + apply Rr. exact Hx.
  - intros rid Hu. apply Ur, Uc, Up.
    destruct Hu as (ap & Hap & Hun). exists ap. rewrite Es. split; assumption.
Qed.

(** X11. A safety check writes pending approvals only under identifiers it
    draws: the record under any other id is exactly as before. *)
Theorem X11_check_keeps_other_approvals (env : Env)
    (st : models.SettlementState) (self : SL.SafetyLayer) (o : SL.Outcome)
    (rid : string) :
  SL.check_safety env st self = Py.Ok o ->
  (forall j, (j < SL.drawn o)%nat -> uuid4 env j <> rid) ->
  SL.get_approval_status rid (SL.layer o) = SL.get_approval_status rid self.
Proof.
  intros Ho Hfresh. unfold SL.get_approval_status.
  destruct (check_safety_steps _ _ _ _ Ho)
    as (s1 & p & c & r & Es & _ & Pp & Pc & Pr & _ & _ & El & Ed).
  destruct Pp as (_ & _ & Dp & _ & _ & Fp).
  destruct Pc as (_ & _ & Dc & _ & _ & Fc).
  destruct Pr as (_ & _ & Dr & _ & _ & Fr).
  rewrite Ed in Hfresh. rewrite El.
  rewrite Fr by (intros j Hj; apply Hfresh; lia).
  rewrite Fc by (intros j Hj; apply Hfresh; lia).
  rewrite Fp by (intros j Hj; apply Hfresh; lia).
  now rewrite Es.
Qed.

Lemma X11_check_keeps_other_approvals_witness :
  SL.get_approval_status "unrelated" (SL.layer outcome_low)
  = SL.get_approval_status "unrelated" SL.init.
Proof.
  apply (X11_check_keeps_other_approvals (env_at 0) (reading 85 0.02)
           SL.init outcome_low "unrelated" ltac:(vm_compute; reflexivity)).
  intros j Hj. change (SL.drawn outcome_low) with 2%nat in Hj.
  destruct j as [|[|j]]; [discriminate | discriminate | lia].
Defined.

(** ** Pending approvals *)

Lemma get_pending_lookup (self : SL.SafetyLayer) (rid : string) ap :
  SL.get_pending_approvals self !! rid = Some ap <->
  SL.get_approval_status rid self = Some ap /\ SL.approved ap = false.
Proof.
  unfold SL.get_pending_approvals, SL.get_approval_status.
  now rewrite map_lookup_filter_Some.
Qed.

(** X12. [get_pending_approvals] lists exactly the approvals that exist and
    are not approved.  A successful [approve_action] removes the approved
    id from that list and nothing else; a failed one leaves the list as it
    was, and the id was not in it.  Every recommendation a safety check
    returns is in the list after the check. *)
Theorem X12_pending_list (env : Env) (rid approver : string)
    (self : SL.SafetyLayer) :
  (forall j ap,
     SL.get_pending_approvals self !! j = Some ap <->
     SL.get_approval_status j self = Some ap /\ SL.approved ap = false) /\
  (forall self',
     SL.approve_action env rid approver self = (true, self') ->
     is_Some (SL.get_pending_approvals self !! rid) /\
     SL.get_pending_approvals self'
     = delete rid (SL.get_pending_approvals self)) /\
  (forall self',
     SL.approve_action env rid approver self = (false, self') ->
     SL.get_pending_approvals self !! rid = None /\
     SL.get_pending_approvals self' = SL.get_pending_approvals self) /\
  (forall st o r,
     SL.check_safety env st self = Py.Ok o ->
     r ∈ SL.recommendations o ->
     is_Some (SL.get_pending_approvals (SL.layer o) !! models.rec_id r)).
Proof.
  split_and!.
  - intros j ap. apply get_pending_lookup.
  - intros self'. unfold SL.approve_action.
    destruct (SL.pending_approvals self !! rid) as [a|] eqn:Ea; [|discriminate].
    destruct (SL.approved a) eqn:Eap; [discriminate|]. intros [= <-]. split.
    + exists a. apply get_pending_lookup. split; assumption.
    + unfold SL.get_pending_approvals. simpl.
      rewrite map_filter_insert_False by (simpl; discriminate).
      apply map_filter_delete.
  - intros self'. unfold SL.approve_action.
    destruct (SL.pending_approvals self !! rid) as [a|] eqn:Ea.
    + destruct (SL.approved a) eqn:Eap; [|discriminate]. intros [= <-].
      split; [|reflexivity].
      unfold SL.get_pending_approvals. apply map_lookup_filter_None.
      right. intros x Hx. rewrite Ea in Hx. injection Hx as <-.
      simpl. congruence.
    + intros [= <-]. split; [|reflexivity].
      unfold SL.get_pending_approvals. apply map_lookup_filter_None. now left.
  - intros st o r Ho Hr.
    destruct (check_safety_steps _ _ _ _ Ho)
      as (s1 & p & c & q & _ & _ & Pp & Pc & Pq & _ & Er & El & _).
    destruct Pp as (_ & _ & _ & Rp & _ & _).
    destruct Pc as (_ & _ & _ & Rc & Uc & _).
    destruct Pq as (_ & _ & _ & Rq & Uq & _).
    assert (Hu : unapproved_at (SL.layer o) (models.rec_id r)).
    { rewrite Er, !elem_of_app in Hr. rewrite El.
      destruct Hr as [Hr | [Hr | Hr]].
      - apply Uq, Uc, Rp, Hr.
      - apply Uq, Rc, Hr.
      - apply Rq, Hr. }
    destruct Hu as (ap & Hap & Hun). exists ap.
    apply get_pending_lookup. split; assumption.
Qed.

Lemma X12_pending_list_witness :
  is_Some (SL.get_pending_approvals layer_pending !! ids 1) /\
  SL.get_pending_approvals
    (snd (SL.approve_action (env_at (seconds 90)) (ids 1) "operator"
            layer_pending))
  = delete (ids 1) (SL.get_pending_approvals layer_pending).
Proof.
  apply (proj1 (proj2 (X12_pending_list (env_at (seconds 90)) (ids 1)
                         "operator" layer_pending))).
  reflexivity.
Defined.

(** ** A layer fed from a fresh start *)

Lemma last_n_last_n {A} (m n : nat) (l : list A) :
  (m <= n)%nat -> Py.last_n m (Py.last_n n l) = Py.last_n m l.
Proof.
  intros Hmn. unfold Py.last_n. rewrite drop_drop, length_drop. f_equal. lia.
Qed.

Lemma last_n_app_last_n {A} (n : nat) (l : list A) (x : A) :
  (1 <= n)%nat -> Py.last_n n (Py.last_n n l ++ [x]) = Py.last_n n (l ++ [x]).
Proof.
  intros Hn. unfold Py.last_n. rewrite !length_app, length_drop. simpl.
  destruct (le_lt_dec (length l) n) as [Hle|Hlt].
  - replace (length l - n)%nat with 0%nat by lia. rewrite !drop_0.
    f_equal. lia.
  - rewrite (drop_app_le l) by lia.
    rewrite drop_app_le by (rewrite length_drop; lia).
    rewrite drop_drop. f_equal. f_equal. lia.
Qed.

Lemma last_n_all {A} (n : nat) (l : list A) :
  (length l <= n)%nat -> Py.last_n n l = l.
Proof.
  intros H. unfold Py.last_n. replace (length l - n)%nat with 0%nat by lia.
  apply drop_0.
Qed.

Lemma nothing_kept k s s' :
  SL.pressure_history s' = SL.pressure_history s ->
  SL.radiation_history s' = SL.radiation_history s ->
  (forall a, SL.Active a s' -> SL.Active a s) ->
  step_kept s (SL.nothing k s').
Proof. intros E1 E2 E3. split_and!; simpl; auto. Qed.

Lemma raise_alert_kept env k a sev cat sys act ttl s :
  a ∈ hazard_ids ->
  step_kept s (SL.raise_alert env k a sev cat sys act ttl s).
Proof.
  intros Ha. split_and!; try reflexivity.
  intros b Hb. apply Active_raise in Hb as [->|Hb]; auto.
Qed.

Ltac kept :=
  first
    [ apply raise_alert_kept; unfold hazard_ids; set_solver
    | apply nothing_kept; [reflexivity | reflexivity | ];
      intros a Ha; try assumption;
      apply Active_delete in Ha; tauto ].

Lemma check_pressure_kept env k st s o :
  SL._check_pressure env k st s = Py.Ok o -> step_kept s o.
Proof.
  rewrite check_pressure_unfold. cbv zeta. intros [= <-].
  destruct (match spec_leak_rate _ with Some _ => _ | None => _ end).
  - destruct (negb _); kept.
  - destruct (_ && _); kept.
Qed.

Lemma check_pressure_critical_kept env k st s :
  step_kept s (SL.check_pressure_critical env k st s).
Proof.
  unfold SL.check_pressure_critical.
  destruct (PrimFloat.ltb _ _); [destruct (negb _)|]; kept.
Qed.

Lemma check_radiation_kept env k st s :
  step_kept s (SL._check_radiation env k st s).
Proof.
  unfold SL._check_radiation. cbv zeta.
  destruct (RH.is_critical _ _); [destruct (negb _); kept|].
  destruct (RH.is_spike _ _); [destruct (negb _); kept|].
  destruct (_ && _); kept.
Qed.

Lemma check_safety_kept env st self o :
  SL.check_safety env st self = Py.Ok o ->
  SL.pressure_history (SL.layer o)
  = PH.add_reading (utcnow env) (models.pressure_kpa st)
      (SL.pressure_history self) /\
  SL.radiation_history (SL.layer o)
  = RH.add_reading (utcnow env) (models.radiation_msv_hr st)
      (SL.radiation_history self) /\
  (forall a, SL.Active a (SL.layer o) -> SL.Active a self \/ a ∈ hazard_ids).
Proof.
  unfold SL.check_safety. intros H.
  apply bind_Ok in H as (p & Hp & H). injection H as <-.
  apply check_pressure_kept in Hp. destruct Hp as (P1 & P2 & P3).
  destruct (check_pressure_critical_kept env (SL.drawn p) st (SL.layer p))
    as (C1 & C2 & C3).
  destruct (check_radiation_kept env
              (SL.drawn (SL.check_pressure_critical env (SL.drawn p) st (SL.layer p)))
              st (SL.layer (SL.check_pressure_critical env (SL.drawn p) st (SL.layer p))))
    as (R1 & R2 & R3).
  cbn [SL.layer]. split_and!.
  - rewrite R1, C1, P1. reflexivity.
  - rewrite R2, C2, P2. reflexivity.
  - intros a Ha. apply R3 in Ha as [Ha|]; [|tauto].
    apply C3 in Ha as [Ha|]; [|tauto].
    apply P3 in Ha as [Ha|]; [|tauto]. left. exact Ha.
Qed.

Lemma fed_from_start_init : fed_from_start [] SL.init.
Proof.
  unfold fed_from_start. simpl. split_and!; try reflexivity.
  - intros x Hx. exact Hx.
  - intros now st H. discriminate.
  - intros a [x Hx]. unfold SL.init in Hx. simpl in Hx.
    rewrite lookup_empty in Hx. discriminate.
Qed.

Lemma fed_from_start_step env st fed self o :
  fed_from_start fed self ->
  SL.check_safety env st self = Py.Ok o ->
  fed_from_start (fed ++ [(utcnow env, st)]) (SL.layer o).
Proof.
  intros (Hmax & Hread & Hbase & Hmin & Hsub & _ & Hact) Ho.
  destruct (check_safety_kept _ _ _ _ Ho) as (Ep & Er & Ea).
  assert (Hri : radiation_inputs (fed ++ [(utcnow env, st)])
                = radiation_inputs fed ++ [(utcnow env, models.radiation_msv_hr st)]).
  { unfold radiation_inputs. rewrite List.map_app. reflexivity. }
  assert (Hpi : pressure_inputs (fed ++ [(utcnow env, st)])
                = pressure_inputs fed ++ [(utcnow env, models.pressure_kpa st)]).
  { unfold pressure_inputs. rewrite List.map_app. reflexivity. }
  assert (Hlen : length (radiation_inputs fed) = length fed).
  { unfold radiation_inputs. apply List.length_map. }
  assert (Hkept : RH.readings (SL.radiation_history (SL.layer o))
                  = Py.last_n 10 (radiation_inputs (fed ++ [(utcnow env, st)]))).
  { rewrite Er, Hri. unfold RH.add_reading. cbv zeta. cbn [RH.readings].
    rewrite Hmax, Hread.
    destruct (10 <? _)%nat eqn:Hc.
    - apply last_n_app_last_n. lia.
    - apply Nat.ltb_ge in Hc.
      rewrite <- (last_n_app_last_n 10 (radiation_inputs fed)) by lia.
      symmetry. apply last_n_all. exact Hc. }
  unfold fed_from_start. cbv zeta. split_and!.
  - rewrite Er. exact Hmax.
  - exact Hkept.
  - destruct (add_reading_stored (utcnow env) (models.radiation_msv_hr st)
                (SL.radiation_history self)) as [_ Hb].
    cbv zeta in Hb. rewrite <- Er in Hb.
    assert (Hl : length (RH.readings (SL.radiation_history (SL.layer o)))
                 = Nat.min 10 (length fed + 1)).
    { rewrite Hkept, Hri. unfold Py.last_n.
      rewrite length_drop, !length_app, Hlen. cbn [length]. lia. }
    rewrite length_app. cbn [length].
    destruct (5 <=? length fed + 1)%nat eqn:Hc.
    + apply Nat.leb_le in Hc. rewrite Hb by lia. f_equal.
      rewrite Hkept. unfold spec_baseline.
      rewrite last_n_last_n by lia. reflexivity.
    + apply Nat.leb_gt in Hc.
      assert (Hfed5 : (5 <=? length fed)%nat = false) by (apply Nat.leb_gt; lia).
      rewrite Hfed5 in Hbase.
      rewrite Er in Hl |- *. unfold RH.add_reading in Hl |- *.
      cbv zeta in Hl |- *. cbn [RH.readings] in Hl. cbn [RH.baseline].
      match goal with |- (if ?c then _ else _) = _ => destruct c eqn:Hc' end.
      * apply Nat.leb_le in Hc'. lia.
      * exact Hbase.
  - rewrite Ep. exact Hmin.
  - intros x Hx. rewrite Ep in Hx. unfold PH.add_reading in Hx.
    cbn [PH.readings] in Hx.
    apply list_elem_of_In, List.filter_In in Hx as [Hx _].
    apply list_elem_of_In in Hx. rewrite Hpi.
    rewrite elem_of_app in Hx |- *. destruct Hx as [Hx|Hx]; auto.
  - intros now st' Hlast. rewrite last_snoc in Hlast. injection Hlast as <- <-.
    rewrite Ep. apply add_reading_window. exact Hmin.
  - intros a Ha. apply Ea in Ha as [Ha|Ha]; auto.
Qed.

Lemma run_fed_from_start uu inputs : forall fed self,
  fed_from_start fed self ->
  exists self', SL.run uu inputs self = Py.Ok self' /\
                fed_from_start (fed ++ inputs) self'.
Proof.
  induction inputs as [|[now st] tl IH]; intros fed self Hfed.
  - exists self. rewrite app_nil_r. split; [reflexivity | exact Hfed].
  - cbn [SL.run].
    destruct (check_safety_total {| utcnow := now; uuid4 := uu |} st self)
      as (o & Ho).
    rewrite Ho. cbn [Py.bind].
    pose proof (fed_from_start_step _ _ _ _ _ Hfed Ho) as Hstep.
    cbn [utcnow] in Hstep.
    destruct (IH _ _ Hstep) as (self' & Hrun & Hinv).
    exists self'. split; [exact Hrun|].
    rewrite <- app_assoc in Hinv. exact Hinv.
Qed.

(** X13. Feeding any run of readings to a fresh safety layer never raises,
    whatever the readings and the clock values.  Afterwards the radiation
    history holds the last ten samples fed, in order; its baseline is
    undefined before the fifth sample and the mean of the last five from
    then on; the pressure history holds only samples that were fed, ends
    with the latest one and holds nothing stamped more than five minutes
    before it; and only the four hazard identifiers are ever active. *)
Theorem X13_run_from_start (uu : nat -> string)
    (inputs : list (Z * models.SettlementState)) :
  exists self',
    SL.run uu inputs SL.init = Py.Ok self' /\
    RH.readings (SL.radiation_history self')
    = Py.last_n 10 (radiation_inputs inputs) /\
    RH.baseline (SL.radiation_history self')
    = (if (5 <=? length inputs)%nat
       then Some (spec_baseline (radiation_inputs inputs)) else None) /\
    (forall x, x ∈ PH.readings (SL.pressure_history self') ->
               x ∈ pressure_inputs inputs) /\
    (forall now st, last inputs = Some (now, st) ->
       last (PH.readings (SL.pressure_history self'))
       = Some (now, models.pressure_kpa st) /\
       forall ts value,
         (ts, value) ∈ PH.readings (SL.pressure_history self') ->
         (now - seconds 300 <= ts)%Z) /\
    (forall a, SL.Active a self' -> a ∈ hazard_ids).
Proof.
  destruct (run_fed_from_start uu inputs [] SL.init fed_from_start_init)
    as (self' & Hrun & Hinv).
  rewrite app_nil_l in Hinv.
  destruct Hinv as (_ & H1 & H2 & _ & H3 & H4 & H5).
  exists self'. split_and!; assumption.
Qed.

(** ** Readings that are not numbers *)

Lemma rate_of_nan (window : list (Z * float)) ts p :
  last window = Some (ts, p) -> PrimFloat.is_nan p = true ->
  match spec_leak_rate window with
  | Some r => PrimFloat.is_nan r = true
  | None => True
  end.
Proof.
  intros Hl Hp. unfold spec_leak_rate. rewrite Hl.
  destruct (head window) as [[to po]|]; [|exact I].
  destruct (length window <? 2)%nat; [exact I|].
  destruct (_ || _); [exact I|].
  apply div_nan_l, mul_nan_l, div_nan_l, sub_nan_l, Hp.
Qed.

Lemma check_pressure_nan env k st self ts p :
  last (PH.readings (SL.pressure_history self)) = Some (ts, p) ->
  PrimFloat.is_nan p = true ->
  exists s', SL._check_pressure env k st self = Py.Ok (SL.nothing k s').
Proof.
  intros Hl Hp. rewrite check_pressure_unfold. cbv zeta.
  pose proof (rate_of_nan _ _ _ Hl Hp) as Hr.
  destruct (spec_leak_rate _) as [r|].
  - rewrite (ltb_nan_l r _ Hr). destruct (_ && _); eauto.
  - destruct (_ && _); eauto.
Qed.

(** X14. A reading that is not a number raises nothing.  With a NaN
    pressure reading, one check returns no pressure alert, whatever the
    window held before; with a NaN radiation reading it returns no
    radiation alert, and the spike hazard is not active afterwards. *)
Theorem X14_nan_reading_raises_nothing (env : Env)
    (st : models.SettlementState) (self : SL.SafetyLayer) :
  PH.max_history_minutes (SL.pressure_history self) = 5%Z ->
  exists o,
    SL.check_safety env st self = Py.Ok o /\
    (PrimFloat.is_nan (models.pressure_kpa st) = true ->
     forall a, a ∈ SL.alerts o -> models.category a = "radiation") /\
    (PrimFloat.is_nan (models.radiation_msv_hr st) = true ->
     (forall a, a ∈ SL.alerts o -> models.category a = "pressure") /\
     ~ SL.Active SL.ALERT_RADIATION_SPIKE (SL.layer o)) /\
    (PrimFloat.is_nan (models.pressure_kpa st) = true ->
     PrimFloat.is_nan (models.radiation_msv_hr st) = true ->
     SL.alerts o = [] /\ SL.recommendations o = []).
Proof.
  intros Hm.
  destruct (check_safety_total env st self) as (o & Ho). exists o.
  split; [exact Ho|].
  unfold SL.check_safety in Ho.
  apply bind_Ok in Ho as (p & Hp & Ho). injection Ho as <-.
  cbn [SL.alerts SL.recommendations SL.layer].
  set (c := SL.check_pressure_critical env (SL.drawn p) st (SL.layer p)).
  assert (Hrad : forall a, a ∈ SL.alerts (SL._check_radiation env (SL.drawn c) st (SL.layer c)) ->
                           models.category a = "radiation").
  { intros a. unfold SL._check_radiation. cbv zeta.
    destruct (RH.is_critical _ _); [destruct (negb _)|];
      [| |destruct (RH.is_spike _ _); [destruct (negb _)|destruct (_ && _)]];
      simpl; intros Ha;
      first [apply list_elem_of_singleton in Ha; subst a; reflexivity
            |apply elem_of_nil in Ha; contradiction]. }
  assert (Hpre : forall a, a ∈ SL.alerts p ++ SL.alerts c ->
                           models.category a = "pressure").
  { intros a Ha. apply elem_of_app in Ha as [Ha|Ha].
    - rewrite check_pressure_unfold in Hp. cbv zeta in Hp. injection Hp as <-.
      revert Ha.
      destruct (match spec_leak_rate _ with Some _ => _ | None => _ end);
        [destruct (negb _)|destruct (_ && _)]; simpl; intros Ha;
        first [apply list_elem_of_singleton in Ha; subst a; reflexivity
              |apply elem_of_nil in Ha; contradiction].
    - revert Ha. unfold c, SL.check_pressure_critical.
      destruct (PrimFloat.ltb _ _); [destruct (negb _)|]; simpl; intros Ha;
        first [apply list_elem_of_singleton in Ha; subst a; reflexivity
              |apply elem_of_nil in Ha; contradiction]. }
  assert (Hpn : PrimFloat.is_nan (models.pressure_kpa st) = true ->
                SL.alerts p = [] /\ SL.recommendations p = [] /\
                SL.alerts c = [] /\ SL.recommendations c = []).
  { intros Hn.
    match type of Hp with
    | SL._check_pressure _ _ _ ?s1 = _ =>
        destruct (check_pressure_nan env 0 st s1 (utcnow env)
                    (models.pressure_kpa st)) as (s' & Hs')
    end.
    - cbn [SL.pressure_history]. apply add_reading_window. exact Hm.
    - exact Hn.
    - rewrite Hs' in Hp. injection Hp as <-.
      unfold c, SL.check_pressure_critical.
      rewrite (ltb_nan_l _ _ Hn). split_and!; reflexivity. }
  assert (Hrn : PrimFloat.is_nan (models.radiation_msv_hr st) = true ->
                SL.alerts (SL._check_radiation env (SL.drawn c) st (SL.layer c)) = [] /\
                SL.recommendations (SL._check_radiation env (SL.drawn c) st (SL.layer c)) = [] /\
                ~ SL.Active SL.ALERT_RADIATION_SPIKE
                    (SL.layer (SL._check_radiation env (SL.drawn c) st (SL.layer c)))).
  { intros Hn. unfold SL._check_radiation. cbv zeta.
    unfold RH.is_critical. rewrite (leb_nan_r _ _ Hn).
    assert (Hs : RH.is_spike (SL.radiation_history (SL.layer c))
                   (models.radiation_msv_hr st) = false).
    { unfold RH.is_spike. destruct (RH.baseline _); [|reflexivity].
      apply ltb_nan_r, Hn. }
    rewrite Hs. cbn [negb]. rewrite andb_true_r.
    destruct (SL.is_active SL.ALERT_RADIATION_SPIKE (SL.layer c)) eqn:Ha;
      cbn [SL.nothing SL.alerts SL.recommendations SL.layer];
      split_and!; try reflexivity.
    - rewrite Active_delete. tauto.
    - apply is_active_false. exact Ha. }
  split_and!.
  - intros Hn a Ha. destruct (Hpn Hn) as (E1 & _ & E2 & _).
    rewrite E1, E2 in Ha. simpl in Ha. apply Hrad, Ha.
  - intros Hn. destruct (Hrn Hn) as (E1 & _ & E3). split; [|exact E3].
    intros a Ha. rewrite E1, app_nil_r in Ha. apply Hpre, Ha.
  - intros Hn1 Hn2. destruct (Hpn Hn1) as (E1 & E2 & E3 & E4).
    destruct (Hrn Hn2) as (E5 & E6 & _).
    rewrite E1, E2, E3, E4, E5, E6. split; reflexivity.
Qed.

Lemma X14_nan_reading_raises_nothing_witness :
  exists o,
    SL.check_safety (env_at (seconds 0)) reading_nan SL.init = Py.Ok o /\
    SL.alerts o = [] /\ SL.recommendations o = [].
Proof.
  destruct (X14_nan_reading_raises_nothing (env_at (seconds 0)) reading_nan
              SL.init eq_refl) as (o & Ho & _ & _ & Hn).
  exists o. split; [exact Ho|]. apply Hn; reflexivity.
Defined.

(** ** A NaN in the radiation window *)

Lemma fold_add_nan (xs : list float) (acc : float) :
  PrimFloat.is_nan acc = true ->
  PrimFloat.is_nan (fold_left PrimFloat.add xs acc) = true.
Proof.
  revert acc. induction xs as [|x xs IH]; intros acc H; [exact H|].
  simpl. apply IH, add_nan_l, H.
Qed.

Lemma sum_nan (xs : list float) (v : float) :
  v ∈ xs -> PrimFloat.is_nan v = true -> PrimFloat.is_nan (Py.sum xs) = true.
Proof.
  unfold Py.sum. generalize 0%float as acc.
  induction xs as [|x xs IH]; intros acc Hin Hv.
  - apply elem_of_nil in Hin. contradiction.
  - simpl. apply elem_of_cons in Hin as [<-|Hin].
    + apply fold_add_nan, add_nan_r, Hv.
    + apply IH; assumption.
Qed.

(** X15. While a reading that is not a number is among the last five
    stored radiation readings, the baseline is NaN and no reading counts as
    a spike, however high it is. *)
Theorem X15_nan_blinds_spike (now : Z) (x : float) (h : RH.t) (v : float) :
  let h' := RH.add_reading now x h in
  (5 <= length (RH.readings h'))%nat ->
  v ∈ List.map snd (Py.last_n 5 (RH.readings h')) ->
  PrimFloat.is_nan v = true ->
  (exists b, RH.baseline h' = Some b /\ PrimFloat.is_nan b = true) /\
  forall current, RH.is_spike h' current = false.
Proof.
  intros h' Hlen Hin Hv.
  destruct (add_reading_stored now x h) as [_ Hb]. cbv zeta in Hb.
  fold h' in Hb. specialize (Hb Hlen).
  assert (Hn : PrimFloat.is_nan (spec_baseline (RH.readings h')) = true).
  { unfold spec_baseline. apply div_nan_l. eapply sum_nan; eassumption. }
  split.
  - eexists. split; [exact Hb | exact Hn].
  - intros current. unfold RH.is_spike. rewrite Hb.
    apply ltb_nan_l, add_nan_l, Hn.
Qed.

Lemma X15_nan_blinds_spike_witness :
  (exists b, RH.baseline history_nan = Some b /\ PrimFloat.is_nan b = true) /\
  forall current, RH.is_spike history_nan current = false.
Proof.
  apply (X15_nan_blinds_spike (seconds 5) PrimFloat.nan
           (SL.radiation_history (after background)) PrimFloat.nan).
  - vm_compute. lia.
  - vm_compute. repeat constructor.
  - reflexivity.
Defined.

(** ** The window of a metric *)

Lemma push_window (limit : nat) (v : float) (l : list float) :
  AD.push limit v (Py.last_n limit l) = Py.last_n limit (l ++ [v]).
Proof.
  unfold AD.push, Py.last_n. rewrite !length_app, length_drop. cbn [length].
  destruct (Nat.ltb_spec limit (length l - (length l - limit) + 1)) as [Hlt|Hge].
  - destruct (Nat.eq_dec limit 0) as [->|Hn].
    + rewrite Nat.sub_0_r, drop_all. simpl.
      rewrite drop_ge by (rewrite length_app; simpl; lia). reflexivity.
    + replace (length l + 1 - limit)%nat with (length l - limit + 1)%nat by lia.
      rewrite (drop_app_le l [v] (length l - limit + 1)) by lia.
      rewrite <- (drop_drop l 1 (length l - limit)).
      assert (Hd : exists y t, drop (length l - limit) l = y :: t).
      { destruct (drop (length l - limit) l) as [|y t] eqn:E; [|eauto].
        apply (f_equal length) in E. rewrite length_drop in E. simpl in E. lia. }
      destruct Hd as (y & t & ->). reflexivity.
  - replace (length l - limit)%nat with 0%nat by lia.
    replace (length l + 1 - limit)%nat with 0%nat by lia. reflexivity.
Qed.

Lemma traverse_pow2_raises (f : float -> float) (l : list float) :
  (exists ys, Py.traverse (fun x => Py.pow2 (f x)) l = Py.Ok ys) \/
  Py.traverse (fun x => Py.pow2 (f x)) l = Py.Raise Py.OverflowError.
Proof.
  induction l as [|x l IH]; simpl; [eauto|].
  unfold Py.pow2 at 1 3.
  destruct (_ && _); [now right|]. cbn [Py.bind].
  destruct IH as [(ys & ->)| ->]; simpl; eauto.
Qed.

Lemma known_metric (name : string) (self : AD.AnomalyDetector) :
  name ∈ metric_names -> exists st, AD._get_stats name self = Py.Ok st.
Proof.
  unfold metric_names. rewrite !elem_of_cons, elem_of_nil.
  intros [->|[->|[->|[]]]]; eexists; reflexivity.
Qed.

Lemma get_stats_other name other st h self :
  other <> name ->
  AD._get_stats other (AD.set_stats name st h self) = AD._get_stats other self.
Proof.
  intros Hne. unfold AD._get_stats, AD.set_stats. simpl.
  destruct (String.eqb_spec other "pressure") as [->|];
    [destruct (String.eqb_spec name "pressure"); congruence|].
  destruct (String.eqb_spec other "radiation") as [->|];
    [destruct (String.eqb_spec name "radiation"); congruence|].
  destruct (String.eqb_spec other "battery") as [->|];
    [destruct (String.eqb_spec name "battery"); congruence|].
  reflexivity.
Qed.

Lemma update_metric_raises name value self h :
  name ∈ metric_names ->
  AD.history self !! name = Some h ->
  (exists self', AD.update_metric name value self = Py.Ok self') \/
  AD.update_metric name value self = Py.Raise Py.OverflowError.
Proof.
  intros Hk Hh. destruct (known_metric name self Hk) as (st & Hst).
  unfold AD.update_metric. rewrite Hst, Hh. cbn [Py.bind].
  rewrite lookup_insert_eq. cbn [Py.bind].
  destruct (2 <=? _)%nat; [|eauto].
  match goal with
  | |- context [Py.traverse (fun x => Py.pow2 (@?f x)) ?l] =>
      destruct (traverse_pow2_raises f l) as [(ys & ->)| ->]
  end; cbn [Py.bind]; eauto.
Qed.

Lemma feed_window (name : string) (xs : list float) :
  name ∈ metric_names ->
  forall (self : AD.AnomalyDetector) (l : list float),
    AD.history self !! name
    = Some (Py.last_n (AD.max_history_size self) l) ->
    match AD.feed name xs self with
    | Py.Ok self' => fed_window name l xs self self'
    | Py.Raise e => e = Py.OverflowError
    end.
Proof.
  intros Hk. induction xs as [|x xs IH]; intros self l Hh.
  - simpl. unfold fed_window. rewrite app_nil_r. simpl.
    destruct (known_metric name self Hk) as (st & Hst).
    split_and!; auto. exists st, st. split_and!; auto. lia.
  - cbn [AD.feed].
    destruct (update_metric_raises name x self _ Hk Hh) as [(s1 & H1)|H1];
      rewrite H1; cbn [Py.bind]; [|reflexivity].
    destruct (update_metric_spec _ _ _ _ _ Hh H1)
      as (Hh1 & Hm1 & st & st1 & Hst & Hst1 & Hc1 & _).
    rewrite push_window in Hh1.
    destruct (update_metric_shape _ _ _ _ H1) as (sta & ha & Es1).
    specialize (IH s1 (l ++ [x])).
    rewrite Hm1, Hh1, lookup_insert_eq in IH. specialize (IH eq_refl).
    destruct (AD.feed name xs s1) as [self'|e]; [|exact IH].
    destruct IH as (Hw & Hm & (st1' & st' & Hst1' & Hst' & Hc) & Hfr).
    unfold fed_window. split_and!.
    + rewrite Hw, Hm1, <- app_assoc. reflexivity.
    + rewrite Hm. exact Hm1.
    + exists st, st'. split_and!; auto.
      rewrite Hst1 in Hst1'. injection Hst1' as <-.
      rewrite Hc, Hc1. cbn [length]. lia.
    + intros other Hne. destruct (Hfr other Hne) as [F1 F2]. split.
      * rewrite F1, Hh1. apply lookup_insert_ne. congruence.
      * rewrite F2, Es1. apply get_stats_other, Hne.
Qed.

(** X16. Feeding samples to one of the three metrics raises nothing but
    OverflowError.  When it returns, the metric's window is the last
    [max_history_size] of the old window followed by the samples, oldest
    first; its sample count grew by the number of samples; and the windows
    and statistics of the other metrics are as before. *)
Theorem X16_window_is_fifo (name : string) (xs h : list float)
    (self : AD.AnomalyDetector) :
  name ∈ metric_names ->
  AD.history self !! name = Some h ->
  (length h <= AD.max_history_size self)%nat ->
  match AD.feed name xs self with
  | Py.Ok self' => fed_window name h xs self self'
  | Py.Raise e => e = Py.OverflowError
  end.
Proof.
  intros Hk Hh Hlen. apply feed_window; [exact Hk|].
  rewrite Hh. f_equal. unfold Py.last_n.
  replace (length h - AD.max_history_size self)%nat with 0%nat by lia.
  reflexivity.
Qed.

Lemma X16_window_is_fifo_witness :
  match AD.feed "pressure" three_samples AD.init with
  | Py.Ok self' => fed_window "pressure" [] three_samples AD.init self'
  | Py.Raise e => e = Py.OverflowError
  end.
Proof.
  apply X16_window_is_fifo.
  - unfold metric_names. apply list_elem_of_here.
  - reflexivity.
  - simpl. lia.
Defined.

(** ** Square roots *)

Lemma shr_1_nonneg (mrs : shr_record) :
  (0 <= shr_m mrs)%Z -> (0 <= shr_m (shr_1 mrs))%Z.
Proof.
  destruct mrs as [m r s]. simpl. intros H.
  destruct m as [|[p|p|]|p]; simpl; lia.
Qed.

Lemma iter_shr_1_nonneg (p : positive) (mrs : shr_record) :
  (0 <= shr_m mrs)%Z -> (0 <= shr_m (SpecFloat.iter_pos shr_1 p mrs))%Z.
Proof.
  revert mrs. induction p as [p IH|p IH|]; intros mrs H; simpl.
  - apply IH, IH, shr_1_nonneg, H.
  - apply IH, IH, H.
  - apply shr_1_nonneg, H.
Qed.

Lemma shr_fexp_nonneg (m e : Z) (l : location) :
  (0 <= m)%Z -> (0 <= shr_m (fst (shr_fexp prec emax m e l)))%Z.
Proof.
  intros H. unfold shr_fexp, shr.
  assert (H0 : (0 <= shr_m (shr_record_of_loc m l))%Z)
    by (destruct l as [|[]]; exact H).
  destruct (_ - e)%Z; simpl; try exact H0.
  apply iter_shr_1_nonneg, H0.
Qed.

Lemma binary_round_aux_nonneg (m e : Z) (l : location) :
  (0 <= m)%Z ->
  SFleb (S754_zero false) (binary_round_aux prec emax false m e l) = true.
Proof.
  intros H. unfold binary_round_aux.
  pose proof (shr_fexp_nonneg m e l H) as H1.
  destruct (shr_fexp prec emax m e l) as [mrs' e']. simpl in H1.
  assert (H2 : (0 <= round_nearest_even (shr_m mrs') (loc_of_shr_record mrs'))%Z).
  { unfold round_nearest_even.
    destruct (loc_of_shr_record mrs') as [|[]]; try lia.
    destruct (Z.even _); lia. }
  pose proof (shr_fexp_nonneg _ e' loc_Exact H2) as H3.
  destruct (shr_fexp prec emax _ e' loc_Exact) as [mrs'' e'']. simpl in H3.
  destruct (shr_m mrs''); [reflexivity| |lia].
  destruct (e'' <=? emax - prec)%Z; reflexivity.
Qed.

Lemma sqrt_of_positive (x : float) :
  PrimFloat.ltb 0 x = true -> PrimFloat.leb 0 (PrimFloat.sqrt x) = true.
Proof.
  rewrite ltb_spec, leb_spec, sqrt_spec. unfold SF64sqrt, SFsqrt.
  change (Prim2SF 0) with (S754_zero false).
  destruct (Prim2SF x) as [s|[]| |[] m e]; try discriminate; try reflexivity.
  intros _.
  destruct (SFsqrt_core_binary prec emax (Z.pos m) e) as [[mz ez] lz] eqn:E.
  apply binary_round_aux_nonneg.
  unfold SFsqrt_core_binary in E.
  destruct (Z.sqrtrem _) as [q r] eqn:Eq. injection E as <- _ _.
  change q with (fst (q, r)). rewrite <- Eq, Z.sqrtrem_sqrt.
  apply Z.sqrt_nonneg.
Qed.

(** ** Statistics of a metric *)

Lemma min_tracks (a v : float) :
  PrimFloat.is_nan a = false ->
  PrimFloat.is_nan (Py.min a v) = false /\
  PrimFloat.leb (Py.min a v) a = true /\
  (PrimFloat.is_nan v = false -> PrimFloat.leb (Py.min a v) v = true).
Proof.
  intros Ha. unfold Py.min. destruct (PrimFloat.ltb v a) eqn:E.
  - pose proof (ltb_leb _ _ E) as Hle.
    pose proof (leb_is_nan_l _ _ Hle) as Hv.
    split_and!; auto. intros _. now apply leb_refl.
  - split_and!; auto.
    + now apply leb_refl.
    + intros Hv. now apply not_ltb_leb.
Qed.

Lemma max_tracks (a v : float) :
  PrimFloat.is_nan a = false ->
  PrimFloat.is_nan (Py.max a v) = false /\
  PrimFloat.leb a (Py.max a v) = true /\
  (PrimFloat.is_nan v = false -> PrimFloat.leb v (Py.max a v) = true).
Proof.
  intros Ha. unfold Py.max. destruct (PrimFloat.ltb a v) eqn:E.
  - pose proof (ltb_leb _ _ E) as Hle.
    pose proof (leb_is_nan_r _ _ Hle) as Hv.
    split_and!; auto. intros _. now apply leb_refl.
  - split_and!; auto.
    + now apply leb_refl.
    + intros Hv. now apply not_ltb_leb.
Qed.

Lemma update_metric_tracks name value self self' st :
  AD._get_stats name self = Py.Ok st ->
  sound_stats st ->
  AD.update_metric name value self = Py.Ok self' ->
  exists st', AD._get_stats name self' = Py.Ok st' /\ tracks st [value] st'.
Proof.
  intros Hst (Hsd & Hmin & Hmax) H. unfold AD.update_metric in H.
  rewrite Hst in H. cbn [Py.bind] in H.
  apply bind_Ok in H as (values & _ & H).
  destruct (min_tracks (AD.min_value st) value Hmin) as (M1 & M2 & M3).
  destruct (max_tracks (AD.max_value st) value Hmax) as (N1 & N2 & N3).
  assert (Hx : forall x, x ∈ [value] -> PrimFloat.is_nan x = false ->
                 PrimFloat.leb (Py.min (AD.min_value st) value) x = true /\
                 PrimFloat.leb x (Py.max (AD.max_value st) value) = true).
  { intros x Hx Hn. apply list_elem_of_singleton in Hx. subst x. auto. }
  destruct (2 <=? length values)%nat.
  - apply bind_Ok in H as (squares & _ & H). injection H as <-.
    eexists. split; [eapply get_stats_set; exact Hst|].
    unfold tracks, sound_stats. cbn [AD.std_dev AD.min_value AD.max_value AD.last_value].
    split_and!; auto.
    + destruct (PrimFloat.ltb 0 _) eqn:E; [now apply sqrt_of_positive|reflexivity].
    + intros v [= <-]. reflexivity.
  - injection H as <-.
    eexists. split; [eapply get_stats_set; exact Hst|].
    unfold tracks, sound_stats. cbn [AD.std_dev AD.min_value AD.max_value AD.last_value].
    split_and!; auto. intros v [= <-]. reflexivity.
Qed.

Lemma feed_tracks name xs : forall self self' st,
  AD._get_stats name self = Py.Ok st ->
  sound_stats st ->
  AD.feed name xs self = Py.Ok self' ->
  exists st', AD._get_stats name self' = Py.Ok st' /\
              sound_stats st' /\
              PrimFloat.leb (AD.min_value st') (AD.min_value st) = true /\
              PrimFloat.leb (AD.max_value st) (AD.max_value st') = true /\
              (forall x, x ∈ xs -> PrimFloat.is_nan x = false ->
                 PrimFloat.leb (AD.min_value st') x = true /\
                 PrimFloat.leb x (AD.max_value st') = true).
Proof.
  induction xs as [|x xs IH]; intros self self' st Hst Hs H.
  - injection H as <-. exists st. pose proof Hs as (S1 & S2 & S3).
    split; [exact Hst|]. split; [exact Hs|].
    split; [now apply leb_refl|]. split; [now apply leb_refl|].
    intros x Hx. apply elem_of_nil in Hx. contradiction.
  - cbn [AD.feed] in H. apply bind_Ok in H as (s1 & H1 & H).
    destruct (update_metric_tracks _ _ _ _ _ Hst Hs H1)
      as (st1 & Hst1 & Hs1 & A1 & A2 & A3 & _).
    destruct (IH _ _ _ Hst1 Hs1 H) as (st' & Hst' & Hs' & B1 & B2 & B3).
    exists st'. split_and!; auto.
    + eapply leb_trans; eassumption.
    + eapply leb_trans; eassumption.
    + intros y Hy Hn. apply elem_of_cons in Hy as [->|Hy]; [|auto].
      destruct (A3 x (list_elem_of_here _ _) Hn) as [C1 C2].
      split; eapply leb_trans; eassumption.
Qed.

Lemma feed_last name xs : forall self self' v,
  last xs = Some v ->
  AD.feed name xs self = Py.Ok self' ->
  exists st', AD._get_stats name self' = Py.Ok st' /\ AD.last_value st' = v.
Proof.
  induction xs as [|x xs IH]; intros self self' v Hl H; [discriminate|].
  cbn [AD.feed] in H. apply bind_Ok in H as (s1 & H1 & H).
  destruct xs as [|y xs].
  - injection Hl as <-. injection H as <-.
    unfold AD.update_metric in H1.
    apply bind_Ok in H1 as (st & Hst & H1).
    apply bind_Ok in H1 as (values & _ & H1).
    destruct (2 <=? length values)%nat.
    + apply bind_Ok in H1 as (squares & _ & H1). injection H1 as <-.
      eexists. split; [eapply get_stats_set; exact Hst|]. reflexivity.
    + injection H1 as <-.
      eexists. split; [eapply get_stats_set; exact Hst|]. reflexivity.
  - apply (IH s1 self' v); [exact Hl | exact H].
Qed.

(** X17. The statistics of a metric stay sound under any samples, NaN and
    the infinities included: the standard deviation is a number that is not
    negative, the minimum and the maximum are numbers, the minimum only
    falls and the maximum only rises, every sample that is a number lies
    between them, and the last value is the last sample fed. *)
Theorem X17_statistics_stay_sound (name : string) (xs : list float)
    (self self' : AD.AnomalyDetector) (st : AD.MetricStatistics) :
  AD._get_stats name self = Py.Ok st ->
  sound_stats st ->
  AD.feed name xs self = Py.Ok self' ->
  exists st', AD._get_stats name self' = Py.Ok st' /\ tracks st xs st'.
Proof.
  intros Hst Hs H.
  destruct (feed_tracks _ _ _ _ _ Hst Hs H) as (st' & Hst' & T1 & T2 & T3 & T4).
  exists st'. split; [exact Hst'|]. unfold tracks. split_and!; auto.
  intros v Hl. destruct (feed_last _ _ _ _ _ Hl H) as (st'' & Hst'' & Hv).
  congruence.
Qed.

Lemma X17_statistics_stay_sound_witness :
  exists st', AD._get_stats "pressure" detector_three = Py.Ok st' /\
              tracks AD.MetricStatistics_init three_samples st'.
Proof.
  apply (X17_statistics_stay_sound "pressure" three_samples AD.init).
  - reflexivity.
  - unfold sound_stats. split_and!; reflexivity.
  - reflexivity.
Defined.

(** ** Warm-up of the detector *)

Lemma stats_known name self st :
  AD._get_stats name self = Py.Ok st -> name ∈ metric_names.
Proof.
  unfold metric_names, AD._get_stats.
  destruct (String.eqb_spec name "pressure") as [->|];
    [intros _; repeat constructor|].
  destruct (String.eqb_spec name "radiation") as [->|];
    [intros _; repeat constructor|].
  destruct (String.eqb_spec name "battery") as [->|];
    [intros _; repeat constructor|].
  discriminate.
Qed.

Lemma update_metric_count name value self self' :
  AD.update_metric name value self = Py.Ok self' ->
  (exists st st',
     AD._get_stats name self = Py.Ok st /\
     AD._get_stats name self' = Py.Ok st' /\
     AD.sample_count st' = (AD.sample_count st + 1)%Z) /\
  (forall other, other <> name ->
     AD._get_stats other self' = AD._get_stats other self).
Proof.
  intros H. pose proof (update_metric_shape _ _ _ _ H) as (sta & ha & Es).
  unfold AD.update_metric in H.
  apply bind_Ok in H as (st & Hst & H).
  apply bind_Ok in H as (values & _ & H). split.
  - exists st. destruct (2 <=? length values)%nat.
    + apply bind_Ok in H as (squares & _ & H). injection H as <-.
      eexists. split; [exact Hst|].
      split; [eapply get_stats_set; exact Hst | reflexivity].
    + injection H as <-.
      eexists. split; [exact Hst|].
      split; [eapply get_stats_set; exact Hst | reflexivity].
  - intros other Hne. rewrite Es. apply get_stats_other, Hne.
Qed.

Lemma cycle_counts env p r b self alerts self' name :
  AD.detect_anomalies env p r b self = Py.Ok (alerts, self') ->
  name ∈ metric_names ->
  exists st st',
    AD._get_stats name self = Py.Ok st /\
    AD._get_stats name self' = Py.Ok st' /\
    AD.sample_count st' = (AD.sample_count st + 1)%Z.
Proof.
  intros H Hk.
  apply detect_anomalies_inv in H as [(s1 & s2 & H1 & H2 & H3) _].
  destruct (update_metric_count _ _ _ _ H1) as ((a1 & a1' & A1 & A2 & A3) & A4).
  destruct (update_metric_count _ _ _ _ H2) as ((b1 & b1' & B1 & B2 & B3) & B4).
  destruct (update_metric_count _ _ _ _ H3) as ((c1 & c1' & C1 & C2 & C3) & C4).
  unfold metric_names in Hk. rewrite !elem_of_cons, elem_of_nil in Hk.
  destruct Hk as [->|[->|[->|[]]]].
  - exists a1, a1'. split_and!; auto.
    rewrite (C4 "pressure"), (B4 "pressure") by discriminate. exact A2.
  - exists b1, b1'. split_and!; auto.
    + rewrite <- (A4 "radiation") by discriminate. exact B1.
    + rewrite (C4 "radiation") by discriminate. exact B2.
  - exists c1, c1'. split_and!; auto.
    rewrite <- (A4 "battery"), <- (B4 "battery") by discriminate. exact C1.
Qed.

Lemma cycle_alert_counts env p r b self alerts self' a :
  AD.detect_anomalies env p r b self = Py.Ok (alerts, self') ->
  a ∈ alerts ->
  AD.metric a ∈ metric_names /\
  exists st', AD._get_stats (AD.metric a) self' = Py.Ok st' /\
              (10 <= AD.sample_count st')%Z.
Proof.
  intros H Ha.
  apply detect_anomalies_inv in H as [_ Hal].
  destruct (Hal a Ha) as (k & [Hd|[Hd|Hd]]).
  - apply detect_pressure_Some in Hd as (-> & Hi & _).
    split; [unfold metric_names; repeat constructor|].
    eexists. split; [reflexivity|]. unfold insufficient in Hi. lia.
  - apply detect_radiation_Some in Hd as (-> & Hi & _).
    split; [unfold metric_names; repeat constructor|].
    eexists. split; [reflexivity|]. unfold insufficient in Hi. lia.
  - apply detect_battery_Some in Hd as (-> & Hi & _).
    split; [unfold metric_names; repeat constructor|].
    eexists. split; [reflexivity|]. unfold insufficient in Hi. lia.
Qed.

Lemma cycles_warm_up env inputs : forall self out self' i alerts a,
  AD.cycles env inputs self = Py.Ok (out, self') ->
  out !! i = Some alerts -> a ∈ alerts ->
  exists st, AD._get_stats (AD.metric a) self = Py.Ok st /\
             (10 <= AD.sample_count st + Z.of_nat i + 1)%Z.
Proof.
  induction inputs as [|[[p r] b] tl IH]; intros self out self' i alerts a H Hi Ha.
  - injection H as <- <-. rewrite lookup_nil in Hi. discriminate.
  - cbn [AD.cycles] in H.
    apply bind_Ok in H as ([al s1] & Hc & H).
    apply bind_Ok in H as ([rest s2] & Hrest & H).
    injection H as <- <-. cbn [fst snd] in *.
    destruct i as [|i].
    + injection Hi as <-.
      destruct (cycle_alert_counts _ _ _ _ _ _ _ _ Hc Ha) as (Hk & st' & Hst' & Hn).
      destruct (cycle_counts _ _ _ _ _ _ _ _ Hc Hk) as (st & st1 & Hst & Hst1 & Hcnt).
      exists st. split; [exact Hst|].
      rewrite Hst' in Hst1. injection Hst1 as <-. lia.
    + cbn in Hi.
      destruct (IH _ _ _ _ _ _ Hrest Hi Ha) as (st1 & Hst1 & Hn).
      pose proof (stats_known _ _ _ Hst1) as Hk.
      destruct (cycle_counts _ _ _ _ _ _ _ _ Hc Hk) as (st & st1' & Hst & Hst1' & Hcnt).
      exists st. split; [exact Hst|].
      rewrite Hst1 in Hst1'. injection Hst1' as <-. lia.
Qed.

(** X18. The detector warms up: an alert returned by the cycle number
    [i + 1] of a run belongs to a metric that had at least [9 - i] samples
    before the run.  A metric without samples raises no alert in its first
    nine cycles, whatever the readings. *)
Theorem X18_detector_warm_up (env : Env)
    (inputs : list (float * float * float))
    (self self' : AD.AnomalyDetector) (out : list (list AD.AnomalyAlert)) :
  AD.cycles env inputs self = Py.Ok (out, self') ->
  forall i alerts a,
    out !! i = Some alerts -> a ∈ alerts ->
    exists st, AD._get_stats (AD.metric a) self = Py.Ok st /\
               (9 - Z.of_nat i <= AD.sample_count st)%Z.
Proof.
  intros H i alerts a Hi Ha.
  destruct (cycles_warm_up _ _ _ _ _ _ _ _ H Hi Ha) as (st & Hst & Hn).
  exists st. split; [exact Hst | lia].
Qed.

Lemma X18_detector_warm_up_witness :
  Forall (fun alerts => alerts = []) (fst (after_cycles AD.init two_cycles)).
Proof.
  apply Forall_lookup. intros i alerts Hi.
  destruct alerts as [|a l]; [reflexivity|]. exfalso.
  pose proof (lookup_lt_Some _ _ _ Hi) as Hlt.
  destruct (X18_detector_warm_up (env_at 0) two_cycles AD.init
              (snd (after_cycles AD.init two_cycles))
              (fst (after_cycles AD.init two_cycles))
              ltac:(vm_compute; reflexivity) i (a :: l) a Hi
              (list_elem_of_here a l)) as (st & Hst & Hn).
  change (length (fst (after_cycles AD.init two_cycles))) with 2%nat in Hlt.
  unfold AD._get_stats in Hst.
  destruct (String.eqb _ "pressure"); [injection Hst as <-; simpl in Hn; lia|].
  destruct (String.eqb _ "radiation"); [injection Hst as <-; simpl in Hn; lia|].
  destruct (String.eqb _ "battery"); [injection Hst as <-; simpl in Hn; lia|].
  discriminate.
Defined.

(** ** Resetting statistics *)

(** X19. [reset_statistics()] puts every metric back to its initial
    statistics and an empty window; [reset_statistics(name)] does so for a
    metric that has a window and leaves the other metrics as they were;
    it returns only for one of the three known metrics.  A metric that was
    reset raises no alert in the next nine cycles. *)
Theorem X19_reset_statistics (name : option string)
    (self s0 : AD.AnomalyDetector) :
  AD.reset_statistics name self = Py.Ok s0 ->
  AD.max_history_size s0 = AD.max_history_size self /\
  (name = None ->
   AD.history s0 = AD.empty_history /\
   forall n, n ∈ metric_names ->
             AD._get_stats n s0 = Py.Ok AD.MetricStatistics_init) /\
  (forall n, name = Some n ->
     n ∈ metric_names /\
     AD._get_stats n s0 = Py.Ok AD.MetricStatistics_init /\
     (is_Some (AD.history self !! n) -> AD.history s0 !! n = Some []) /\
     forall m, m <> n ->
       AD._get_stats m s0 = AD._get_stats m self /\
       AD.history s0 !! m = AD.history self !! m) /\
  (forall env inputs out self' i alerts a,
     AD.cycles env inputs s0 = Py.Ok (out, self') ->
     (i < 9)%nat -> out !! i = Some alerts -> a ∈ alerts ->
     exists n, name = Some n /\ AD.metric a <> n).
Proof.
  intros H.
  assert (Hnone : name = None ->
            AD.history s0 = AD.empty_history /\
            forall n, n ∈ metric_names ->
                      AD._get_stats n s0 = Py.Ok AD.MetricStatistics_init).
  { intros ->. injection H as <-. split; [reflexivity|].
    intros n Hn. unfold metric_names in Hn.
    rewrite !elem_of_cons, elem_of_nil in Hn.
    destruct Hn as [->|[->|[->|[]]]]; reflexivity. }
  assert (Hsome : forall n, name = Some n ->
            n ∈ metric_names /\
            AD._get_stats n s0 = Py.Ok AD.MetricStatistics_init /\
            (is_Some (AD.history self !! n) -> AD.history s0 !! n = Some []) /\
            forall m, m <> n ->
              AD._get_stats m s0 = AD._get_stats m self /\
              AD.history s0 !! m = AD.history self !! m).
  { intros n ->. cbn [AD.reset_statistics] in H.
    apply bind_Ok in H as (st & Hst & H). injection H as <-.
    split_and!.
    - eapply stats_known. exact Hst.
    - eapply get_stats_set. exact Hst.
    - intros [h Hh]. cbn [AD.history AD.set_stats]. rewrite Hh.
      apply lookup_insert_eq.
    - intros m Hm. split; [apply get_stats_other, Hm|].
      cbn [AD.history AD.set_stats].
      destruct (AD.history self !! n); [|reflexivity].
      apply lookup_insert_ne. congruence. }
  split_and!; [|exact Hnone|exact Hsome|].
  - destruct name as [n|]; cbn [AD.reset_statistics] in H.
    + apply bind_Ok in H as (st & _ & H). injection H as <-. reflexivity.
    + injection H as <-. reflexivity.
  - intros env inputs out self' i alerts a Hc Hi Hout Ha.
    destruct (cycles_warm_up _ _ _ _ _ _ _ _ Hc Hout Ha) as (st & Hst & Hn).
    destruct name as [n|].
    + exists n. split; [reflexivity|]. intros E.
      destruct (Hsome n eq_refl) as (_ & Hinit & _).
      rewrite E, Hinit in Hst. injection Hst as <-. simpl in Hn. lia.
    + exfalso. destruct (Hnone eq_refl) as [_ Hinit].
      pose proof (stats_known _ _ _ Hst) as Hk.
      rewrite (Hinit _ Hk) in Hst. injection Hst as <-. simpl in Hn. lia.
Qed.

Lemma X19_reset_statistics_witness :
  AD._get_stats "pressure" detector_reset = Py.Ok AD.MetricStatistics_init /\
  AD._get_stats "battery" detector_reset = Py.Ok stats_sample.
Proof.
  destruct (X19_reset_statistics (Some "pressure") detector_sample
              detector_reset eq_refl) as (_ & _ & H & _).
  destruct (H "pressure" eq_refl) as (_ & H1 & _ & H2).
  split; [exact H1|].
  destruct (H2 "battery") as [H3 _]; [discriminate|].
  rewrite H3. reflexivity.
Defined.

(** ** A NaN in the window of a metric *)

Lemma traverse_pow2_nan (m : float) (w squares : list float) :
  PrimFloat.is_nan m = true ->
  Py.traverse (fun x => Py.pow2 (PrimFloat.sub x m)) w = Py.Ok squares ->
  length squares = length w /\
  forall y, y ∈ squares -> PrimFloat.is_nan y = true.
Proof.
  intros Hm. revert squares. induction w as [|x w IH]; intros squares H.
  - injection H as <-. split; [reflexivity|].
    intros y Hy. apply elem_of_nil in Hy. contradiction.
  - cbn [Py.traverse] in H.
    apply bind_Ok in H as (y0 & Hy0 & H).
    apply bind_Ok in H as (ys & Hys & H). injection H as <-.
    destruct (IH ys Hys) as [Hl Hn]. split; [simpl; lia|].
    intros y Hy. apply elem_of_cons in Hy as [->|Hy]; [|auto].
    unfold Py.pow2 in Hy0. destruct (_ && _); [discriminate|].
    injection Hy0 as <-. apply mul_nan_l, sub_nan_r, Hm.
Qed.

Lemma recomputed_nan (w : list float) (st : AD.MetricStatistics) (v : float) :
  recomputed w st -> v ∈ w -> PrimFloat.is_nan v = true ->
  PrimFloat.is_nan (AD.mean st) = true /\ AD.std_dev st = 0%float.
Proof.
  intros (Hmean & squares & Hsq & Hstd) Hin Hv.
  assert (Hm : PrimFloat.is_nan (AD.mean st) = true).
  { rewrite Hmean. apply div_nan_l. eapply sum_nan; eassumption. }
  split; [exact Hm|].
  destruct (traverse_pow2_nan _ _ _ Hm Hsq) as [Hl Hn].
  rewrite Hstd. cbv zeta.
  assert (Hvar : PrimFloat.is_nan
                   (PrimFloat.div (Py.sum squares)
                      (Py.float_of_int (Z.of_nat (length w)))) = true).
  { apply div_nan_l. destruct squares as [|y ys].
    - destruct w; [apply elem_of_nil in Hin; contradiction | discriminate].
    - apply (sum_nan _ y); [apply list_elem_of_here|].
      apply Hn, list_elem_of_here. }
  rewrite (ltb_nan_r _ _ Hvar). reflexivity.
Qed.

Lemma update_metric_has_history name value self self' :
  AD.update_metric name value self = Py.Ok self' ->
  exists h, AD.history self !! name = Some h.
Proof.
  unfold AD.update_metric. intros H.
  apply bind_Ok in H as (st & _ & H).
  destruct (AD.history self !! name) as [h|] eqn:E; [eauto|].
  apply bind_Ok in H as (values & Hv & _). rewrite E in Hv. discriminate.
Qed.

(** X20. An alert is never returned for a metric whose window holds a
    reading that is not a number: when a detection cycle returns an alert
    and the window of the alert's metric, after the cycle, holds two or more
    samples, none of them is NaN.  (A NaN in the window makes the
    recomputed standard deviation zero, which silences the metric until
    the NaN has left the window.) *)
Theorem X20_nan_window_is_silent (env : Env) (p r b : float)
    (self self' : AD.AnomalyDetector) (alerts : list AD.AnomalyAlert) :
  AD.detect_anomalies env p r b self = Py.Ok (alerts, self') ->
  forall a w v,
    a ∈ alerts ->
    AD.history self' !! AD.metric a = Some w ->
    (2 <= length w)%nat ->
    v ∈ w -> PrimFloat.is_nan v = false.
Proof.
  intros H a w v Ha Hw Hlen Hv.
  destruct (PrimFloat.is_nan v) eqn:Hn; [exfalso|reflexivity].
  pose proof H as Hinv.
  apply detect_anomalies_inv in Hinv as [(s1 & s2 & H1 & H2 & H3) Hal].
  destruct (update_metric_has_history _ _ _ _ H1) as (hp & Hp).
  destruct (update_metric_has_history _ _ _ _ H2) as (hr & Hr1).
  destruct (update_metric_has_history _ _ _ _ H3) as (hb & Hb2).
  destruct (update_metric_spec _ _ _ _ _ Hp H1) as (Hh1 & _).
  destruct (update_metric_spec _ _ _ _ _ Hr1 H2) as (Hh2 & _).
  assert (Hr : AD.history self !! "radiation" = Some hr).
  { rewrite Hh1, lookup_insert_ne in Hr1 by discriminate. exact Hr1. }
  assert (Hb : AD.history self !! "battery" = Some hb).
  { rewrite Hh2, lookup_insert_ne in Hb2 by discriminate.
    rewrite Hh1, lookup_insert_ne in Hb2 by discriminate. exact Hb2. }
  destruct (cycle_windows _ _ _ _ _ _ _ _ _ _ H Hp Hr Hb)
    as (Wp & Wr & Wb & Rp & Rr & Rb).
  cbv zeta in *.
  destruct (Hal a Ha) as (k & [Hd|[Hd|Hd]]).
  - apply detect_pressure_Some in Hd as (Em & Hi & _).
    rewrite Em, Wp in Hw. injection Hw as <-.
    destruct (recomputed_nan _ _ _ (Rp Hlen) Hv Hn) as [_ Hs].
    apply Hi. right. rewrite Hs. reflexivity.
  - apply detect_radiation_Some in Hd as (Em & Hi & _).
    rewrite Em, Wr in Hw. injection Hw as <-.
    destruct (recomputed_nan _ _ _ (Rr Hlen) Hv Hn) as [_ Hs].
    apply Hi. right. rewrite Hs. reflexivity.
  - apply detect_battery_Some in Hd as (Em & Hi & _).
    rewrite Em, Wb in Hw. injection Hw as <-.
    destruct (recomputed_nan _ _ _ (Rb Hlen) Hv Hn) as [_ Hs].
    apply Hi. right. rewrite Hs. reflexivity.
Qed.

Lemma X20_nan_window_is_silent_witness :
  exists a, a ∈ fst cycle_outlier /\
    forall w v,
      AD.history (snd cycle_outlier) !! AD.metric a = Some w ->
      (2 <= length w)%nat -> v ∈ w -> PrimFloat.is_nan v = false.
Proof.
  assert (H : AD.detect_anomalies (env_at 0) 150.0 0.02 80.0 detector_warm
              = Py.Ok (fst cycle_outlier, snd cycle_outlier))
    by (vm_compute; reflexivity).
  assert (Ha : exists a, a ∈ fst cycle_outlier).
  { vm_compute. eexists. apply list_elem_of_here. }
  destruct Ha as (a & Ha). exists a. split; [exact Ha|].
  intros w v. apply (X20_nan_window_is_silent _ _ _ _ _ _ _ H a w v Ha).
Defined.

(** ** The alerts of one cycle *)

Lemma detect_pressure_reported env k value self a :
  AD._detect_pressure_anomaly env k value self = Some a ->
  reported a = ("pressure", value) /\ AD.timestamp a = utcnow env.
Proof.
  rewrite detect_pressure_unfold. cbv zeta.
  destruct (_ <? _)%Z; [discriminate|].
  destruct (PrimFloat.eqb _ 0); [discriminate|].
  destruct (spec_verdict _) as [[sev conf]|]; [|discriminate].
  intros [= <-]. split; reflexivity.
Qed.

Lemma detect_radiation_reported env k value self a :
  AD._detect_radiation_anomaly env k value self = Some a ->
  reported a = ("radiation", value) /\ AD.timestamp a = utcnow env.
Proof.
  unfold AD._detect_radiation_anomaly. cbv zeta.
  destruct (_ <? _)%Z; [discriminate|].
  destruct (PrimFloat.eqb _ 0); [discriminate|].
  destruct (_ && _); [intros [= <-]; split; reflexivity|].
  destruct (_ && _); [intros [= <-]; split; reflexivity|discriminate].
Qed.

Lemma detect_battery_reported env k value self a :
  AD._detect_battery_anomaly env k value self = Some a ->
  reported a = ("battery", value) /\ AD.timestamp a = utcnow env.
Proof.
  rewrite detect_battery_unfold. cbv zeta.
  destruct (_ <? _)%Z; [discriminate|].
  destruct (PrimFloat.eqb _ 0); [discriminate|].
  destruct (spec_verdict _) as [[sev conf]|]; [|discriminate].
  intros [= <-]. split; reflexivity.
Qed.

(** X21. A detection cycle returns at most one alert per metric, in the
    order pressure, radiation, battery; each alert reports the reading of
    its metric that was passed to the cycle, and carries the time of the
    cycle. *)
Theorem X21_cycle_alerts (env : Env) (p r b : float)
    (self self' : AD.AnomalyDetector) (alerts : list AD.AnomalyAlert) :
  AD.detect_anomalies env p r b self = Py.Ok (alerts, self') ->
  sublist (List.map reported alerts)
    [("pressure", p); ("radiation", r); ("battery", b)] /\
  forall a, a ∈ alerts -> AD.timestamp a = utcnow env.
Proof.
  unfold AD.detect_anomalies. intros H.
  apply bind_Ok in H as (s1 & _ & H).
  apply bind_Ok in H as (s2 & _ & H).
  apply bind_Ok in H as (s3 & _ & H).
  injection H as <- <-.
  destruct (AD._detect_pressure_anomaly env 0 p s3) as [a1|] eqn:E1;
    cbn [AD.append_alert app];
    [destruct (detect_pressure_reported _ _ _ _ _ E1) as [R1 T1]|];
    (match goal with
     | |- context [AD._detect_radiation_anomaly env ?k r s3] =>
         destruct (AD._detect_radiation_anomaly env k r s3) as [a2|] eqn:E2;
         cbn [AD.append_alert app];
         [destruct (detect_radiation_reported _ _ _ _ _ E2) as [R2 T2]|]
     end);
    (match goal with
     | |- context [AD._detect_battery_anomaly env ?k b s3] =>
         destruct (AD._detect_battery_anomaly env k b s3) as [a3|] eqn:E3;
         cbn [AD.append_alert app];
         [destruct (detect_battery_reported _ _ _ _ _ E3) as [R3 T3]|]
     end);
    (split;
     [ cbn [List.map];
       repeat match goal with H : reported _ = _ |- _ => rewrite H; clear H end;
       repeat first [apply sublist_nil | apply sublist_skip | apply sublist_cons]
     | intros a Ha;
       repeat (apply elem_of_cons in Ha as [->|Ha]; [assumption|]);
       apply elem_of_nil in Ha; contradiction ]).
Qed.

Lemma X21_cycle_alerts_witness :
  sublist (List.map reported (fst cycle_outlier))
    [("pressure", 150.0%float); ("radiation", 0.02%float);
     ("battery", 80.0%float)] /\
  forall a, a ∈ fst cycle_outlier -> AD.timestamp a = 0%Z.
Proof.
  apply (X21_cycle_alerts (env_at 0) 150.0 0.02 80.0 detector_warm
           (snd cycle_outlier)).
  vm_compute. reflexivity.
Defined.

(** ** The recommendations endpoint of the store *)

Lemma insert_desc_by_perm {A} (lt : A -> A -> bool) (x : A) (l : list A) :
  Py.insert_desc_by lt x l ≡ₚ x :: l.
Proof.
  induction l as [|y l IH]; simpl; [reflexivity|].
  destruct (lt x y); [|reflexivity].
  rewrite IH. apply Permutation_swap.
Qed.

Lemma sort_desc_by_perm {A} (lt : A -> A -> bool) (l : list A) :
  Py.sort_desc_by lt l ≡ₚ l.
Proof.
  unfold Py.sort_desc_by. induction l as [|x l IH]; simpl; [reflexivity|].
  rewrite insert_desc_by_perm. now rewrite IH.
Qed.

Lemma sort_desc_by_sorted {A} (lt : A -> A -> bool) (R : A -> A -> Prop)
    (l : list A) :
  (forall x y, lt x y = true -> R y x) ->
  (forall x y, lt x y = false -> R x y) ->
  (forall x y z, R x y -> R y z -> R x z) ->
  StronglySorted R (Py.sort_desc_by lt l).
Proof.
  intros Hlt Hge Htr. unfold Py.sort_desc_by.
  induction l as [|x l IH]; simpl; [constructor|].
  revert IH. generalize (fold_right (Py.insert_desc_by lt) [] l). clear l.
  intros l. induction 1 as [|y l Hs IH Hy]; simpl.
  - repeat constructor.
  - destruct (lt x y) eqn:E.
    + constructor; [exact IH|].
      rewrite insert_desc_by_perm. constructor; [now apply Hlt | exact Hy].
    + constructor; [now constructor|].
      constructor; [now apply Hge|].
      eapply Forall_impl; [exact Hy|]. simpl. intros z Hz.
      eapply Htr; [apply Hge, E | exact Hz].
Qed.

Lemma listed_before_sorted (l : list models.Recommendation) :
  StronglySorted listed_before
    (Py.sort_desc_by (fun x y => RR.tuple_lt (RR.sort_key x) (RR.sort_key y)) l).
Proof.
  apply sort_desc_by_sorted; unfold listed_before, RR.tuple_lt, RR.sort_key;
    cbn [fst snd].
  - intros x y.
    destruct (Z.eqb_spec (RR.priority_order (models.rec_priority x))
                (RR.priority_order (models.rec_priority y)));
      intros H; apply Z.ltb_lt in H; lia.
  - intros x y.
    destruct (Z.eqb_spec (RR.priority_order (models.rec_priority x))
                (RR.priority_order (models.rec_priority y)));
      intros H; apply Z.ltb_ge in H; lia.
  - intros x y z. lia.
Qed.

(** X22. The stored recommendations are listed by priority, high before
    medium before low before any other priority, and newest first within
    one priority; at most [limit] are returned; each of them is in the
    store and passes every filter that is given (a filter on the empty
    string is no filter); without filters and with a limit that covers the
    store, every stored recommendation is returned. *)
Theorem X22_recommendations_listed (prio cat : option string)
    (act : option bool) (limit : nat) (db : list models.Recommendation) :
  let l := RR.get_recommendations prio cat act limit db in
  (length l <= limit)%nat /\
  StronglySorted listed_before l /\
  (forall r, r ∈ l ->
     r ∈ db /\
     (forall p, prio = Some p -> p <> "" -> models.rec_priority r = p) /\
     (forall c, cat = Some c -> c <> "" -> models.rec_category r = c) /\
     (forall a, act = Some a -> models.action_required r = a)) /\
  ((prio = None \/ prio = Some "") -> (cat = None \/ cat = Some "") ->
   act = None -> (length db <= limit)%nat -> l ≡ₚ db).
Proof.
  intros l. unfold RR.get_recommendations in l.
  set (f1 := match prio with
             | Some p => if String.eqb p "" then db
                         else List.filter (fun r => String.eqb (models.rec_priority r) p) db
             | None => db end) in l.
  set (f2 := match cat with
             | Some c => if String.eqb c "" then f1
                         else List.filter (fun r => String.eqb (models.rec_category r) c) f1
             | None => f1 end) in l.
  set (f3 := match act with
             | Some a => List.filter (fun r => Bool.eqb (models.action_required r) a) f2
             | None => f2 end) in l.
  assert (H1 : forall r, r ∈ f1 ->
             r ∈ db /\ (forall p, prio = Some p -> p <> "" -> models.rec_priority r = p)).
  { intros r Hr. unfold f1 in Hr. destruct prio as [p|].
    - destruct (String.eqb_spec p "") as [->|Hne].
      + split; [exact Hr|]. intros ? [= <-] ?. congruence.
      + apply list_elem_of_In, List.filter_In in Hr as [Hr Hp].
        apply String.eqb_eq in Hp. split; [now apply list_elem_of_In|].
        intros ? [= <-] _. exact Hp.
    - split; [exact Hr|]. discriminate. }
  assert (H2 : forall r, r ∈ f2 ->
             r ∈ f1 /\ (forall c, cat = Some c -> c <> "" -> models.rec_category r = c)).
  { intros r Hr. unfold f2 in Hr. destruct cat as [c|].
    - destruct (String.eqb_spec c "") as [->|Hne].
      + split; [exact Hr|]. intros ? [= <-] ?. congruence.
      + apply list_elem_of_In, List.filter_In in Hr as [Hr Hp].
        apply String.eqb_eq in Hp. split; [now apply list_elem_of_In|].
        intros ? [= <-] _. exact Hp.
    - split; [exact Hr|]. discriminate. }
  assert (H3 : forall r, r ∈ f3 ->
             r ∈ f2 /\ (forall a, act = Some a -> models.action_required r = a)).
  { intros r Hr. unfold f3 in Hr. destruct act as [a|].
    - apply list_elem_of_In, List.filter_In in Hr as [Hr Hp].
      apply Bool.eqb_prop in Hp. split; [now apply list_elem_of_In|].
      intros ? [= <-]. exact Hp.
    - split; [exact Hr|]. discriminate. }
  split_and!.
  - unfold l. rewrite length_take. lia.
  - unfold l.
    pose proof (listed_before_sorted f3) as Hs.
    rewrite <- (take_drop limit (Py.sort_desc_by _ f3)) in Hs.
    now apply StronglySorted_app_1_l in Hs.
  - intros r Hr. unfold l in Hr.
    apply elem_of_take in Hr as (i & Hr & _).
    apply list_elem_of_lookup_2 in Hr. rewrite sort_desc_by_perm in Hr.
    destruct (H3 r Hr) as [Hr2 A3]. destruct (H2 r Hr2) as [Hr1 A2].
    destruct (H1 r Hr1) as [Hr0 A1]. auto.
  - intros Hp Hc -> Hlen. unfold l.
    assert (E : f3 = db).
    { unfold f3, f2, f1.
      destruct Hp as [->| ->]; destruct Hc as [->| ->]; reflexivity. }
    rewrite E, take_ge; [apply sort_desc_by_perm|].
    rewrite sort_desc_by_perm. exact Hlen.
Qed.
